(** * infosquito2: per-prefix reconciliation of the search index

    A shallow embedding of [reindex.go] and of the document model
    ([ElasticsearchDocument], [metadataEqual], [permsEqual], [Equal]),
    with the properties of the reconciliation pass proved over it. *)

From stdpp Require Import gmap strings list fin_maps fin_sets.
From Stdlib Require Import ZArith Lia.

Local Open Scope Z_scope.
Local Open Scope string_scope.
Local Open Scope list_scope.

(** ** Document model *)

Module Document.

Record Metadatum := mkMetadatum {
  Attribute : string;
  Value : string;
  Unit : string
}.

Record UserPermission := mkUserPermission {
  User : string;
  Permission : string
}.

Record ElasticsearchDocument := mkDocument {
  Id : string;
  Path : string;
  Label : string;
  Creator : string;
  FileType : string;
  DateCreated : Z;
  DateModified : Z;
  FileSize : Z;
  Metadata : list Metadatum;
  UserPermissions : list UserPermission
}.

#[global] Instance Metadatum_eq_dec : EqDecision Metadatum.
Proof. solve_decision. Defined.

#[global] Instance UserPermission_eq_dec : EqDecision UserPermission.
Proof. solve_decision. Defined.

#[global] Instance ElasticsearchDocument_eq_dec : EqDecision ElasticsearchDocument.
Proof. solve_decision. Defined.

Definition Metadatum_to_tuple (m : Metadatum) : string * string * string :=
  (Attribute m, Value m, Unit m).

Definition Metadatum_of_tuple (t : string * string * string) : Metadatum :=
  let '(a, v, u) := t in mkMetadatum a v u.

#[global] Instance Metadatum_countable : Countable Metadatum.
Proof.
  apply (inj_countable' Metadatum_to_tuple Metadatum_of_tuple).
  by intros [].
Defined.

Definition UserPermission_to_pair (p : UserPermission) : string * string :=
  (User p, Permission p).

Definition UserPermission_of_pair (t : string * string) : UserPermission :=
  let '(u, p) := t in mkUserPermission u p.

#[global] Instance UserPermission_countable : Countable UserPermission.
Proof.
  apply (inj_countable' UserPermission_to_pair UserPermission_of_pair).
  by intros [].
Defined.

(** The two calls of the set library that the comparison uses:
    [set.NewSetFromSlice] builds the set of the elements of a slice, and
    [Equal] holds of two sets with the same elements. *)
Definition NewSetFromSlice `{Countable A} (s : list A) : gset A :=
  list_to_set s.

Definition set_Equal `{Countable A} (s other : gset A) : bool :=
  bool_decide (s = other).

(** [metadataEqual]: both slices are copied into [[]interface{}] and
    compared as sets. *)
Definition metadataEqual (one two : list Metadatum) : bool :=
  let om := one in
  let tm := two in
  if negb (set_Equal (NewSetFromSlice om) (NewSetFromSlice tm))
  then false
  else true.

Definition permsEqual (one two : list UserPermission) : bool :=
  let om := one in
  let tm := two in
  if negb (set_Equal (NewSetFromSlice om) (NewSetFromSlice tm))
  then false
  else true.

(** [ElasticsearchDocument.Equal], with its chain of early returns. *)
Definition Equal (doc other : ElasticsearchDocument) : bool :=
  if negb (bool_decide (DateModified doc = DateModified other)) then false
  else if negb (bool_decide (FileSize doc = FileSize other)) then false
  else if negb (bool_decide (Path doc = Path other)) then false
  else if negb (bool_decide (Label doc = Label other)) then false
  else if negb (bool_decide (Id doc = Id other)) then false
  else if negb (bool_decide (Creator doc = Creator other)) then false
  else if negb (bool_decide (FileType doc = FileType other)) then false
  else if negb (bool_decide (DateCreated doc = DateCreated other)) then false
  else if negb (metadataEqual (Metadata doc) (Metadata other)) then false
  else if negb (permsEqual (UserPermissions doc) (UserPermissions other)) then false
  else true.

(** The scalar fields of a document, as one tuple. *)
Definition scalars (d : ElasticsearchDocument)
  : Z * Z * string * string * string * string * string * Z :=
  (DateModified d, FileSize d, Path d, Label d, Id d, Creator d, FileType d,
   DateCreated d).

End Document.

Import Document.

(** ** Collaborators of the pass *)

(** Go's [error] values that the pass can meet: its own
    [ErrTooManyResults], an error of a collaborator (database, index
    client, JSON decoder), and [errors.Wrap]. *)
Inductive error :=
| ErrTooManyResults
| ErrExternal (msg : string)
| ErrWrap (cause : error) (msg : string).

#[global] Instance error_eq_dec : EqDecision error.
Proof. solve_decision. Defined.

(** A Go result pair [(value, error)] of a collaborator whose value is
    meaningless when the error is set. *)
Inductive result (A : Type) :=
| Ok (a : A)
| Err (e : error).
Arguments Ok {A} a.
Arguments Err {A} e.

(** *** Logging ([logrus]) *)

Inductive Level := DebugLevel | InfoLevel | ErrorLevel.

Inductive Arg :=
| AStr (s : string)
| AInt (n : Z).

Record LogEntry := mkLog {
  level : Level;
  format : string;
  args : list Arg
}.

#[global] Instance Level_eq_dec : EqDecision Level.
Proof. solve_decision. Defined.
#[global] Instance Arg_eq_dec : EqDecision Arg.
Proof. solve_decision. Defined.
#[global] Instance LogEntry_eq_dec : EqDecision LogEntry.
Proof. solve_decision. Defined.

Definition Debugf (fmt : string) (a : list Arg) : LogEntry := mkLog DebugLevel fmt a.
Definition Infof (fmt : string) (a : list Arg) : LogEntry := mkLog InfoLevel fmt a.
Definition Errorf (fmt : string) (a : list Arg) : LogEntry := mkLog ErrorLevel fmt a.

(** *** Bulk requests ([elastic.NewBulkIndexRequest], [elastic.NewBulkDeleteRequest]) *)

Inductive BulkOp :=
| BulkIndexRequest (index t id doc : string)
| BulkDeleteRequest (index t id : string).

#[global] Instance BulkOp_eq_dec : EqDecision BulkOp.
Proof. solve_decision. Defined.

Definition op_id (r : BulkOp) : string :=
  match r with
  | BulkIndexRequest _ _ id _ => id
  | BulkDeleteRequest _ _ id => id
  end.

(** *** The catalog and the index, as one pass sees them *)

(** One row of a [GetDataObjects] or [GetCollections] cursor: what
    [Scan] gives for it. *)
Definition Row : Type := result (string * string).

Record ICATConnection := mkICAT {
  BeginTx : option error;
  CreateTemporaryTable : string -> result Z;
  GetDataObjects : result (list Row);
  GetCollections : result (list Row)
}.

Record SearchHit := mkHit {
  hitId : string;
  hitType : string;
  Source : string
}.

Record SearchResult := mkSearchResult {
  TotalHits : Z;
  Hits : list SearchHit
}.

Record ESConnection := mkES {
  index_name : string;
  Search : string -> result SearchResult
}.

(** ** The bulk accumulator *)

Module Bulk.

(** Modelled from the spec: the accumulator [esutils.BulkIndexer]
    ([NewBulkIndexer], [Add], [CanFlush], [Flush]) is a dependency whose
    source is not part of the repository's files. Following the spec's
    contract, [Add] buffers an operation and flushes once the buffer
    reaches the batch size, [CanFlush] tells whether anything is
    buffered, and [Flush] sends the buffer as one batch and clears it;
    a failed flush returns the error and keeps the buffer. Every call of
    [Flush] is recorded in [flushes] with its batch and its outcome. *)
Record BulkIndexer := mkBulkIndexer {
  bulkSize : Z;
  buffered : list BulkOp;
  flushes : list (list BulkOp * option error)
}.

(** Modelled from the spec: [esutils.NewBulkIndexer], an empty
    accumulator with the given batch size. *)
Definition NewBulkIndexer (size : Z) : BulkIndexer :=
  mkBulkIndexer size [] [].

(** Modelled from the spec: [CanFlush], whether the accumulator holds
    any unflushed operation. *)
Definition CanFlush (b : BulkIndexer) : bool :=
  bool_decide (0 < Z.of_nat (length (buffered b))).

Section WithIndex.

(** The index's answer to the [n]-th bulk request of the pass. *)
Variable bulkDo : nat -> list BulkOp -> option error.

(** Modelled from the spec: [Flush] sends all buffered operations to
    the index in one batch and clears the buffer; when the index
    refuses the batch the error is returned and the buffer is kept. *)
Definition Flush (b : BulkIndexer) : BulkIndexer * option error :=
  match bulkDo (length (flushes b)) (buffered b) with
  | Some e =>
      (mkBulkIndexer (bulkSize b) (buffered b)
         (flushes b ++ [(buffered b, Some e)]), Some e)
  | None =>
      (mkBulkIndexer (bulkSize b) []
         (flushes b ++ [(buffered b, None)]), None)
  end.

(** Modelled from the spec: [Add] buffers the operation and, once the
    buffer has reached the batch size, flushes as part of the call. *)
Definition Add (b : BulkIndexer) (r : BulkOp) : BulkIndexer * option error :=
  let b1 := mkBulkIndexer (bulkSize b) (buffered b ++ [r]) (flushes b) in
  if bool_decide (bulkSize b1 <= Z.of_nat (length (buffered b1)))
  then Flush b1
  else (b1, None).

End WithIndex.

(** The batches that the index accepted, and every operation that the
    accumulator was given and still holds or has delivered. *)
Definition sent (b : BulkIndexer) : list (list BulkOp) :=
  omap (fun f => match snd f with None => Some (fst f) | Some _ => None end)
       (flushes b).

Definition enqueued (b : BulkIndexer) : list BulkOp :=
  concat (sent b) ++ buffered b.

End Bulk.

Import Bulk.

(** ** The reconciliation pass ([reindex.go]) *)

Inductive DocumentClassification :=
| NoAction
| IndexDocument
| UpdateDocument.

#[global] Instance DocumentClassification_eq_dec : EqDecision DocumentClassification.
Proof. solve_decision. Defined.

Record rowMetadata := mkRows {
  rows : Z;
  documents : Z;
  processed : Z;
  dataobjects : Z;
  dataobjectsAdded : Z;
  dataobjectsUpdated : Z;
  dataobjectsRemoved : Z;
  colls : Z;
  collsAdded : Z;
  collsUpdated : Z;
  collsRemoved : Z
}.

#[global] Instance rowMetadata_eq_dec : EqDecision rowMetadata.
Proof. solve_decision. Defined.

(** [x++] on an [int64]. *)
Definition int64_incr (x : Z) : Z :=
  if bool_decide (x = 2 ^ 63 - 1) then - 2 ^ 63 else x + 1.

Definition zero_rows : rowMetadata := mkRows 0 0 0 0 0 0 0 0 0 0 0.

Definition set_rows (v : Z) (r : rowMetadata) : rowMetadata :=
  mkRows v (documents r) (processed r) (dataobjects r) (dataobjectsAdded r)
    (dataobjectsUpdated r) (dataobjectsRemoved r) (colls r) (collsAdded r)
    (collsUpdated r) (collsRemoved r).

Definition set_documents (v : Z) (r : rowMetadata) : rowMetadata :=
  mkRows (rows r) v (processed r) (dataobjects r) (dataobjectsAdded r)
    (dataobjectsUpdated r) (dataobjectsRemoved r) (colls r) (collsAdded r)
    (collsUpdated r) (collsRemoved r).

Definition incr_processed (r : rowMetadata) : rowMetadata :=
  mkRows (rows r) (documents r) (int64_incr (processed r)) (dataobjects r)
    (dataobjectsAdded r) (dataobjectsUpdated r) (dataobjectsRemoved r)
    (colls r) (collsAdded r) (collsUpdated r) (collsRemoved r).

Definition incr_dataobjects (r : rowMetadata) : rowMetadata :=
  mkRows (rows r) (documents r) (processed r) (int64_incr (dataobjects r))
    (dataobjectsAdded r) (dataobjectsUpdated r) (dataobjectsRemoved r)
    (colls r) (collsAdded r) (collsUpdated r) (collsRemoved r).

Definition incr_dataobjectsAdded (r : rowMetadata) : rowMetadata :=
  mkRows (rows r) (documents r) (processed r) (dataobjects r)
    (int64_incr (dataobjectsAdded r)) (dataobjectsUpdated r)
    (dataobjectsRemoved r) (colls r) (collsAdded r) (collsUpdated r)
    (collsRemoved r).

Definition incr_dataobjectsUpdated (r : rowMetadata) : rowMetadata :=
  mkRows (rows r) (documents r) (processed r) (dataobjects r)
    (dataobjectsAdded r) (int64_incr (dataobjectsUpdated r))
    (dataobjectsRemoved r) (colls r) (collsAdded r) (collsUpdated r)
    (collsRemoved r).

Definition incr_dataobjectsRemoved (r : rowMetadata) : rowMetadata :=
  mkRows (rows r) (documents r) (processed r) (dataobjects r)
    (dataobjectsAdded r) (dataobjectsUpdated r)
    (int64_incr (dataobjectsRemoved r)) (colls r) (collsAdded r)
    (collsUpdated r) (collsRemoved r).

Definition incr_colls (r : rowMetadata) : rowMetadata :=
  mkRows (rows r) (documents r) (processed r) (dataobjects r)
    (dataobjectsAdded r) (dataobjectsUpdated r) (dataobjectsRemoved r)
    (int64_incr (colls r)) (collsAdded r) (collsUpdated r) (collsRemoved r).

Definition incr_collsAdded (r : rowMetadata) : rowMetadata :=
  mkRows (rows r) (documents r) (processed r) (dataobjects r)
    (dataobjectsAdded r) (dataobjectsUpdated r) (dataobjectsRemoved r)
    (colls r) (int64_incr (collsAdded r)) (collsUpdated r) (collsRemoved r).

Definition incr_collsUpdated (r : rowMetadata) : rowMetadata :=
  mkRows (rows r) (documents r) (processed r) (dataobjects r)
    (dataobjectsAdded r) (dataobjectsUpdated r) (dataobjectsRemoved r)
    (colls r) (collsAdded r) (int64_incr (collsUpdated r)) (collsRemoved r).

Definition incr_collsRemoved (r : rowMetadata) : rowMetadata :=
  mkRows (rows r) (documents r) (processed r) (dataobjects r)
    (dataobjectsAdded r) (dataobjectsUpdated r) (dataobjectsRemoved r)
    (colls r) (collsAdded r) (collsUpdated r) (int64_incr (collsRemoved r)).

(** What the processing functions mutate through their pointer and map
    arguments: the statistics, the [seenEsDocs] map, the accumulator,
    and the log. *)
Record Proc := mkProc {
  stats : rowMetadata;
  seenEsDocs : gmap string bool;
  indexer : BulkIndexer;
  logged : list LogEntry
}.

Definition with_stats (f : rowMetadata -> rowMetadata) (st : Proc) : Proc :=
  mkProc (f (stats st)) (seenEsDocs st) (indexer st) (logged st).

Definition mark_seen (id : string) (st : Proc) : Proc :=
  mkProc (stats st) (<[id := true]> (seenEsDocs st)) (indexer st) (logged st).

Definition with_indexer (b : BulkIndexer) (st : Proc) : Proc :=
  mkProc (stats st) (seenEsDocs st) b (logged st).

Definition say (e : LogEntry) (st : Proc) : Proc :=
  mkProc (stats st) (seenEsDocs st) (indexer st) (logged st ++ [e]).

(** [seenEsDocs[id]] on a [map[string]bool]: [false] for a missing key. *)
Definition seen (id : string) (m : gmap string bool) : bool :=
  default false (m !! id).

(** What a pass leaves behind: the error it returns, the statistics that
    [logTime] reports, the log, the ids marked seen, the accumulator if
    the pass came to create one, and whether the transaction was begun
    (and so rolled back on exit). *)
Record Outcome := mkOutcome {
  err : option error;
  finalStats : rowMetadata;
  finalLog : list LogEntry;
  finalSeen : gmap string bool;
  finalIndexer : option BulkIndexer;
  rolledBack : bool
}.

Section Pass.

(** [maxInPrefix] is a constant of the program declared outside the
    files modelled here; [Unmarshal] is [json.Unmarshal] into an
    [ElasticsearchDocument]; [bulkDo] is the index's answer to each bulk
    request; [rangeKeys] is the order in which [range] visits the keys
    of a map, which Go leaves unspecified. *)
Variable maxInPrefix : Z.
Variable Unmarshal : string -> result ElasticsearchDocument.
Variable bulkDo : nat -> list BulkOp -> option error.
Variable rangeKeys : gmap string ElasticsearchDocument -> list string.

(** [logTime]; the elapsed time, its last argument, is left out. *)
Definition logTime (r : rowMetadata) : LogEntry :=
  Infof "Processed %d entries (%d rows, %d documents, processed %d data objects (+%d,U%d,-%d), %d colls (+%d,U%d,-%d)) in %s"
    [AInt (processed r); AInt (rows r); AInt (documents r);
     AInt (dataobjects r); AInt (dataobjectsAdded r);
     AInt (dataobjectsUpdated r); AInt (dataobjectsRemoved r);
     AInt (colls r); AInt (collsAdded r); AInt (collsUpdated r);
     AInt (collsRemoved r)].

Definition createBaseUuidsTable (prefix : string) (tx : ICATConnection)
  : Z * option error * list LogEntry :=
  match CreateTemporaryTable tx "base_object_uuids" with
  | Err e => (0, Some e, [])
  | Ok r =>
      if bool_decide (r > maxInPrefix)
      then (r, Some ErrTooManyResults, [])
      else (r, None,
            [Debugf "Got %d rows for prefix %s (note that this may include stale unused metadata)"
               [AInt r; AStr prefix]])
  end.

Definition createUuidsTable (prefix : string) (tx : ICATConnection)
  : Z * option error * list LogEntry :=
  let '(r, err, l) := createBaseUuidsTable prefix tx in
  match err with
  | Some e => (0, Some e, l)
  | None =>
      match CreateTemporaryTable tx "object_uuids" with
      | Err e => (0, Some e, l)
      | Ok _ => (r, None, l)
      end
  end.

Definition createPermsTable (tx : ICATConnection) : option error * list LogEntry :=
  match CreateTemporaryTable tx "object_perms" with
  | Err e => (Some e, [])
  | Ok r => (None, [Debugf "Got %d rows for perms" [AInt r]])
  end.

Definition createMetadataTable (tx : ICATConnection) : option error * list LogEntry :=
  match CreateTemporaryTable tx "object_metadata" with
  | Err e => (Some e, [])
  | Ok r => (None, [Debugf "Got %d rows for metadata" [AInt r]])
  end.

(** The body of the loop over [search.Hits.Hits]. *)
Definition addHit
    (acc : gmap string ElasticsearchDocument * gmap string string)
    (hit : SearchHit)
  : gmap string ElasticsearchDocument * gmap string string :=
  match Unmarshal (Source hit) with
  | Err _ => acc
  | Ok doc => (<[hitId hit := doc]> (fst acc), <[hitId hit := hitType hit]> (snd acc))
  end.

Definition getSearchResults (prefix : string) (es : ESConnection)
  : Z * gmap string ElasticsearchDocument * gmap string string * option error
    * list LogEntry :=
  match Search es prefix with
  | Err e => (0, ∅, ∅, Some e, [])
  | Ok search =>
      let l := [Debugf "Got %d documents for prefix %s (ES)"
                  [AInt (TotalHits search); AStr prefix]] in
      if bool_decide (TotalHits search > maxInPrefix)
      then (TotalHits search, ∅, ∅, Some ErrTooManyResults, l)
      else
        let maps := fold_left addHit (Hits search) (∅, ∅) in
        (TotalHits search, fst maps, snd maps, None, l)
  end.

Definition classify (id jsonstr : string)
    (esDocs : gmap string ElasticsearchDocument)
  : DocumentClassification * option error :=
  match esDocs !! id with
  | None => (IndexDocument, None)
  | Some indexed =>
      match Unmarshal jsonstr with
      | Err e => (NoAction, Some e)
      | Ok doc =>
          if negb (Equal doc indexed)
          then (UpdateDocument, None)
          else (NoAction, None)
      end
  end.

Definition index (b : BulkIndexer) (idx id t json : string)
  : BulkIndexer * option error :=
  let req := BulkIndexRequest idx t id json in
  Add bulkDo b req.

(** The loop of [processDataobjects] over the cursor's rows. *)
Fixpoint processDataobjects_rows
    (esDocs : gmap string ElasticsearchDocument) (es : ESConnection)
    (cursor : list Row) (st : Proc) : Proc * option error :=
  match cursor with
  | [] => (st, None)
  | Err e :: _ => (st, Some e)
  | Ok (id, selectedJSON) :: rest =>
      let st := mark_seen id st in
      match classify id selectedJSON esDocs with
      | (_, Some e) => (st, Some e)
      | (classification, None) =>
          let st :=
            match classification with
            | UpdateDocument =>
                with_stats incr_dataobjectsUpdated
                  (say (Debugf "data-object %s, documents differ, indexing" [AStr id]) st)
            | IndexDocument =>
                with_stats incr_dataobjectsAdded
                  (say (Debugf "data-object %s not in ES, indexing" [AStr id]) st)
            | NoAction => st
            end in
          let '(b, e) :=
            match classification with
            | UpdateDocument | IndexDocument =>
                index (indexer st) (index_name es) id "file" selectedJSON
            | NoAction => (indexer st, None)
            end in
          let st := with_indexer b st in
          match e with
          | Some e => (st, Some e)
          | None =>
              processDataobjects_rows esDocs es rest
                (with_stats incr_dataobjects (with_stats incr_processed st))
          end
      end
  end.

Definition processDataobjects
    (esDocs : gmap string ElasticsearchDocument) (es : ESConnection)
    (tx : ICATConnection) (st : Proc) : Proc * option error :=
  match GetDataObjects tx with
  | Err e => (st, Some e)
  | Ok cursor =>
      match processDataobjects_rows esDocs es cursor st with
      | (st, Some e) => (st, Some e)
      | (st, None) =>
          (say (Debugf "%d data-objects missing, %d data-objects to update"
                  [AInt (dataobjectsAdded (stats st));
                   AInt (dataobjectsUpdated (stats st))]) st, None)
      end
  end.

(** The loop of [processCollections] over the cursor's rows. *)
Fixpoint processCollections_rows
    (esDocs : gmap string ElasticsearchDocument) (es : ESConnection)
    (cursor : list Row) (st : Proc) : Proc * option error :=
  match cursor with
  | [] => (st, None)
  | Err e :: _ => (st, Some e)
  | Ok (id, selectedJSON) :: rest =>
      let st := mark_seen id st in
      match classify id selectedJSON esDocs with
      | (_, Some e) => (st, Some e)
      | (classification, None) =>
          let st :=
            match classification with
            | UpdateDocument =>
                with_stats incr_collsUpdated
                  (say (Debugf "data-object %s, documents differ, indexing" [AStr id]) st)
            | IndexDocument =>
                with_stats incr_collsAdded
                  (say (Debugf "data-object %s not in ES, indexing" [AStr id]) st)
            | NoAction => st
            end in
          let '(b, e) :=
            match classification with
            | UpdateDocument | IndexDocument =>
                index (indexer st) (index_name es) id "folder" selectedJSON
            | NoAction => (indexer st, None)
            end in
          let st := with_indexer b st in
          match e with
          | Some e => (st, Some e)
          | None =>
              processCollections_rows esDocs es rest
                (with_stats incr_colls (with_stats incr_processed st))
          end
      end
  end.

Definition processCollections
    (esDocs : gmap string ElasticsearchDocument) (es : ESConnection)
    (tx : ICATConnection) (st : Proc) : Proc * option error :=
  match GetCollections tx with
  | Err e => (st, Some e)
  | Ok cursor =>
      match processCollections_rows esDocs es cursor st with
      | (st, Some e) => (st, Some e)
      | (st, None) =>
          (say (Debugf "%d collections missing, %d collections to update"
                  [AInt (collsAdded (stats st));
                   AInt (collsUpdated (stats st))]) st, None)
      end
  end.

(** The body of the loop of [processDeletions], for one key [id]. *)
Definition processDeletions_body
    (esDocTypes : gmap string string) (es : ESConnection)
    (id : string) (st : Proc) : Proc * option error :=
  if negb (seen id (seenEsDocs st)) then
    let '(docType, st) :=
      match esDocTypes !! id with
      | Some t => (t, st)
      | None =>
          ("file",
           say (Errorf "Could not find type for document %s, making rash assumptions"
                  [AStr id]) st)
      end in
    let st :=
      if bool_decide (docType = "file") then
        with_stats incr_dataobjectsRemoved
          (say (Debugf "data-object %s not seen in ICAT, deleting" [AStr id]) st)
      else if bool_decide (docType = "folder") then
        with_stats incr_collsRemoved
          (say (Debugf "collection %s not seen in ICAT, deleting" [AStr id]) st)
      else st in
    let req := BulkDeleteRequest (index_name es) docType id in
    match Add bulkDo (indexer st) req with
    | (b, Some e) =>
        (with_indexer b st, Some (ErrWrap e "Got error adding delete to indexer"))
    | (b, None) => (with_indexer b st, None)
    end
  else (st, None).

Fixpoint processDeletions_keys
    (esDocTypes : gmap string string) (es : ESConnection)
    (ids : list string) (st : Proc) : Proc * option error :=
  match ids with
  | [] => (st, None)
  | id :: rest =>
      match processDeletions_body esDocTypes es id st with
      | (st, Some e) => (st, Some e)
      | (st, None) => processDeletions_keys esDocTypes es rest st
      end
  end.

Definition processDeletions
    (esDocs : gmap string ElasticsearchDocument)
    (esDocTypes : gmap string string) (es : ESConnection) (st : Proc)
  : Proc * option error :=
  match processDeletions_keys esDocTypes es (rangeKeys esDocs) st with
  | (st, Some e) => (st, Some e)
  | (st, None) =>
      (say (Debugf "%d data-objects to delete, %d collections to delete"
              [AInt (dataobjectsRemoved (stats st));
               AInt (collsRemoved (stats st))]) st, None)
  end.

(** Leaving [ReindexPrefix] before the accumulator exists: the deferred
    [Rollback] (when the transaction was begun) and [logTime] run. *)
Definition leave (e : option error) (rs : rowMetadata) (l : list LogEntry)
    (begun : bool) : Outcome :=
  mkOutcome e rs (l ++ [logTime rs]) ∅ None begun.

(** Leaving [ReindexPrefix] once the accumulator exists: the deferred
    [indexer.Flush()] runs first (its error is dropped), then
    [Rollback] and [logTime]. *)
Definition leave_flushing (e : option error) (st : Proc) : Outcome :=
  let b := fst (Flush bulkDo (indexer st)) in
  mkOutcome e (stats st) (logged st ++ [logTime (stats st)]) (seenEsDocs st)
    (Some b) true.

(** The "FINISH UP" step of [ReindexPrefix]. *)
Definition finishUp (st : Proc) : Proc * option error :=
  if CanFlush (indexer st) then
    match Flush bulkDo (indexer st) with
    | (b, Some e) =>
        (with_indexer b st, Some (ErrWrap e "Got error flushing bulk indexer"))
    | (b, None) => (with_indexer b st, None)
    end
  else (st, None).

Definition ReindexPrefix (db : ICATConnection) (es : ESConnection)
    (prefix : string) : Outcome :=
  let rs := zero_rows in
  let l := [Debugf "Indexing prefix %s" [AStr prefix]] in
  match BeginTx db with
  | Some e => leave (Some e) rs l false
  | None =>
      let '(r, e, l') := createUuidsTable prefix db in
      let rs := set_rows r rs in
      let l := l ++ l' in
      match e with
      | Some e => leave (Some e) rs l true
      | None =>
          let '(docs, esDocs, esDocTypes, e, l') := getSearchResults prefix es in
          let rs := set_documents docs rs in
          let l := l ++ l' in
          match e with
          | Some e => leave (Some e) rs l true
          | None =>
              let '(e, l') := createPermsTable db in
              let l := l ++ l' in
              match e with
              | Some e => leave (Some e) rs l true
              | None =>
                  let '(e, l') := createMetadataTable db in
                  let l := l ++ l' in
                  match e with
                  | Some e => leave (Some e) rs l true
                  | None =>
                      let st := mkProc rs ∅ (NewBulkIndexer 1000) l in
                      match processDataobjects esDocs es db st with
                      | (st, Some e) => leave_flushing (Some e) st
                      | (st, None) =>
                          match processCollections esDocs es db st with
                          | (st, Some e) => leave_flushing (Some e) st
                          | (st, None) =>
                              match processDeletions esDocs esDocTypes es st with
                              | (st, Some e) => leave_flushing (Some e) st
                              | (st, None) =>
                                  match finishUp st with
                                  | (st, Some e) => leave_flushing (Some e) st
                                  | (st, None) => leave_flushing None st
                                  end
                              end
                          end
                      end
                  end
              end
          end
      end
  end.

End Pass.

(** [with_lists d ms ps] is [d] with its two list fields replaced. *)
Definition with_lists (d : ElasticsearchDocument) (ms : list Metadatum)
    (ps : list UserPermission) : ElasticsearchDocument :=
  mkDocument (Id d) (Path d) (Label d) (Creator d) (FileType d)
    (DateCreated d) (DateModified d) (FileSize d) ms ps.

(** The delete request that [processDeletions] builds for [id]. *)
Definition deleteFor (esDocTypes : gmap string string) (es : ESConnection)
    (id : string) : BulkOp :=
  BulkDeleteRequest (index_name es) (default "file" (esDocTypes !! id)) id.

(** The keys that [processDeletions] acts on: those not marked seen. *)
Definition unseen (seenDocs : gmap string bool) (ids : list string) : list string :=
  filter (fun id => seen id seenDocs = false) ids.

(** What one unseen key adds to the statistics and to the log. *)
Definition countRemoval (esDocTypes : gmap string string) (id : string)
    (r : rowMetadata) : rowMetadata :=
  let t := default "file" (esDocTypes !! id) in
  if bool_decide (t = "file") then incr_dataobjectsRemoved r
  else if bool_decide (t = "folder") then incr_collsRemoved r
  else r.

Definition removalLog (esDocTypes : gmap string string) (id : string)
  : list LogEntry :=
  match esDocTypes !! id with
  | Some _ => []
  | None =>
      [Errorf "Could not find type for document %s, making rash assumptions"
         [AStr id]]
  end ++
  (let t := default "file" (esDocTypes !! id) in
   if bool_decide (t = "file")
   then [Debugf "data-object %s not seen in ICAT, deleting" [AStr id]]
   else if bool_decide (t = "folder")
   then [Debugf "collection %s not seen in ICAT, deleting" [AStr id]]
   else []).

(** The unseen keys whose delete carries type [t]. *)
Definition typedAs (esDocTypes : gmap string string) (t : string)
    (ids : list string) : list string :=
  filter (fun id => default "file" (esDocTypes !! id) = t) ids.

(** Whether the source of a hit decodes. *)
Definition decodes (Unmarshal : string -> result ElasticsearchDocument)
    (hit : SearchHit) : bool :=
  match Unmarshal (Source hit) with
  | Ok _ => true
  | Err _ => false
  end.

(** The log that [getSearchResults] writes for a search that returns
    [hits] with a reported total of [total]. *)
Definition searchLog (maxInPrefix : Z)
    (Unmarshal : string -> result ElasticsearchDocument) (prefix : string)
    (total : Z) (hits : list SearchHit) : list LogEntry :=
  snd (getSearchResults maxInPrefix Unmarshal prefix
         (mkES "data" (fun _ => Ok (mkSearchResult total hits)))).

(** The claim that the hits that do not decode are logged: they leave a
    trace in the log, which therefore differs from the log of the same
    search without them. *)
Definition logs_hit_failures (maxInPrefix : Z)
    (Unmarshal : string -> result ElasticsearchDocument) (prefix : string)
    (total : Z) (hits : list SearchHit) : Prop :=
  searchLog maxInPrefix Unmarshal prefix total hits
  <> searchLog maxInPrefix Unmarshal prefix total
       (filter (fun h => decodes Unmarshal h = true) hits).

(** The keys of the snapshot that are no id of a catalog row. *)
Definition gone (catalog : list (string * string)) (ids : list string)
  : list string :=
  filter (fun id => id ∉ catalog.*1) ids.

(** [grows st st']: the log of [st'] is the log of [st] followed by
    lines none of which is at info level. *)
Definition grows (st st' : Proc) : Prop :=
  exists l, logged st' = logged st ++ l /\
            Forall (fun x => level x <> InfoLevel) l.

(** [tidy k b]: the accumulator [b] has batch size [k], holds fewer
    than [k] operations, and every flush recorded on it was of exactly
    [k] operations and was accepted. *)
Definition tidy (k : Z) (b : BulkIndexer) : Prop :=
  bulkSize b = k /\
  Z.of_nat (length (buffered b)) < k /\
  Forall (fun f => Z.of_nat (length (fst f)) = k /\ snd f = None) (flushes b).

(** *** What the row loops compute *)

(** The classification of a catalog row [(id, json)], its error aside. *)
Definition rowClass (Unmarshal : string -> result ElasticsearchDocument)
    (esDocs : gmap string ElasticsearchDocument) (row : string * string)
  : DocumentClassification :=
  fst (classify Unmarshal (fst row) (snd row) esDocs).

(** The index requests of type [t] for the rows that are not
    [NoAction], in row order, each with the row's own text. *)
Definition indexOps (Unmarshal : string -> result ElasticsearchDocument)
    (esDocs : gmap string ElasticsearchDocument) (es : ESConnection)
    (t : string) (catalog : list (string * string)) : list BulkOp :=
  omap (fun row =>
          match rowClass Unmarshal esDocs row with
          | NoAction => None
          | _ => Some (BulkIndexRequest (index_name es) t (fst row) (snd row))
          end) catalog.

(** Marking the ids of rows as seen, first row first. *)
Definition markRows (catalog : list (string * string)) (m : gmap string bool)
  : gmap string bool :=
  foldl (fun m row => <[fst row := true]> m) m catalog.

(** What one file row and one folder row add to the statistics. *)
Definition countFile (c : DocumentClassification) (r : rowMetadata) : rowMetadata :=
  incr_dataobjects
    (incr_processed
       (match c with
        | UpdateDocument => incr_dataobjectsUpdated r
        | IndexDocument => incr_dataobjectsAdded r
        | NoAction => r
        end)).

Definition countFolder (c : DocumentClassification) (r : rowMetadata) : rowMetadata :=
  incr_colls
    (incr_processed
       (match c with
        | UpdateDocument => incr_collsUpdated r
        | IndexDocument => incr_collsAdded r
        | NoAction => r
        end)).

(** The rows whose classification is [c]. *)
Definition classed (Unmarshal : string -> result ElasticsearchDocument)
    (esDocs : gmap string ElasticsearchDocument) (c : DocumentClassification)
    (catalog : list (string * string)) : list (string * string) :=
  filter (fun row => rowClass Unmarshal esDocs row = c) catalog.

(** A row that [classify] accepts: its id is not in the snapshot, or
    its text decodes. *)
Definition classifiable (Unmarshal : string -> result ElasticsearchDocument)
    (esDocs : gmap string ElasticsearchDocument) (row : string * string) : Prop :=
  snd (classify Unmarshal (fst row) (snd row) esDocs) = None.

(** ** The second copy of the pass (unnamed part 0)

    The repository holds a second copy of [reindex.go]. Two of its
    functions are written differently: [createUuidsTable] builds one
    table and tests its count itself, and [classify] has its
    comparison in an [else] branch that falls through to the final
    [return]. *)

Module Part000.

Definition createUuidsTable (maxInPrefix : Z) (prefix : string)
    (tx : ICATConnection) : Z * option error * list LogEntry :=
  match CreateTemporaryTable tx "object_uuids" with
  | Err e => (0, Some e, [])
  | Ok r =>
      if bool_decide (r > maxInPrefix)
      then (r, Some ErrTooManyResults, [])
      else (r, None,
            [Debugf "Got %d rows for prefix %s (note that this may include stale unused metadata)"
               [AInt r; AStr prefix]])
  end.

(** [None] for a branch that falls through to the end of the function. *)
Definition classify (Unmarshal : string -> result ElasticsearchDocument)
    (id jsonstr : string) (esDocs : gmap string ElasticsearchDocument)
  : DocumentClassification * option error :=
  let returned :=
    match esDocs !! id with
    | None => Some (IndexDocument, None)
    | Some indexed =>
        match Unmarshal jsonstr with
        | Err e => Some (NoAction, Some e)
        | Ok doc =>
            if negb (Equal doc indexed)
            then Some (UpdateDocument, None)
            else None
        end
    end in
  match returned with
  | Some r => r
  | None => (NoAction, None)
  end.

End Part000.

(** ** Concrete catalogs and indexes *)

Module Scenario.

Definition cap : Z := 10000.

Definition m1 : Metadatum := mkMetadatum "color" "red" "".
Definition m2 : Metadatum := mkMetadatum "depth" "3" "m".
Definition p1 : UserPermission := mkUserPermission "ana#iplant" "own".
Definition p2 : UserPermission := mkUserPermission "bo#iplant" "read".

Definition u2_new : ElasticsearchDocument :=
  mkDocument "u2" "/iplant/home/ana/a.txt" "a.txt" "ana#iplant" "generic"
    50 100 12 [m1] [p1].
Definition u2_old : ElasticsearchDocument :=
  mkDocument "u2" "/iplant/home/ana/a.txt" "a.txt" "ana#iplant" "generic"
    50 90 12 [m1] [p1].
Definition u3 : ElasticsearchDocument :=
  mkDocument "u3" "/iplant/home/ana/d" "d" "ana#iplant" "" 10 20 0 [] [p1].
Definition u4 : ElasticsearchDocument :=
  mkDocument "u4" "/iplant/home/bo/b.txt" "b.txt" "bo#iplant" "generic"
    7 8 9 [m1; m2] [p1; p2].
Definition u4_reordered : ElasticsearchDocument :=
  mkDocument "u4" "/iplant/home/bo/b.txt" "b.txt" "bo#iplant" "generic"
    7 8 9 [m2; m1; m2] [p2; p1].

(** A decoder that knows five texts and rejects every other one. *)
Definition decode (s : string) : result ElasticsearchDocument :=
  if bool_decide (s = "{u2,dateModified:100}") then Ok u2_new
  else if bool_decide (s = "{u2,dateModified:90}") then Ok u2_old
  else if bool_decide (s = "{u3}") then Ok u3
  else if bool_decide (s = "{u4}") then Ok u4
  else if bool_decide (s = "{u4,reordered}") then Ok u4_reordered
  else Err (ErrExternal "invalid character").

Definition accept : nat -> list BulkOp -> option error := fun _ _ => None.

Definition keysOf (m : gmap string ElasticsearchDocument) : list string :=
  elements (dom m).

Definition tables (n : Z) : string -> result Z := fun _ => Ok n.

Definition es_of (total : Z) (hits : list SearchHit) : ESConnection :=
  mkES "data" (fun _ => Ok (mkSearchResult total hits)).

Definition hit_u2 : SearchHit := mkHit "u2" "file" "{u2,dateModified:90}".
Definition hit_u3 : SearchHit := mkHit "u3" "folder" "{u3}".
Definition hit_u4 : SearchHit := mkHit "u4" "file" "{u4,reordered}".
Definition hit_bad : SearchHit := mkHit "u5" "file" "<html>".

(** A catalog with two files and no folder; the index holds [u2]
    (older), [u3] (a folder gone from the catalog) and [u4]. *)
Definition db1 : ICATConnection :=
  mkICAT None (tables 2)
    (Ok [Ok ("u2", "{u2,dateModified:100}"); Ok ("u4", "{u4}")])
    (Ok []).
Definition es1 : ESConnection := es_of 3 [hit_u2; hit_u3; hit_u4].

(** A catalog whose identifier relation is over the cap. *)
Definition db_big : ICATConnection :=
  mkICAT None (tables 10001) (Ok [Ok ("u2", "{u2,dateModified:100}")]) (Ok []).

(** An index that reports more documents than the cap. *)
Definition es_big : ESConnection := es_of 10001 [hit_u2].

(** A catalog whose second file row carries text that does not decode. *)
Definition db_broken : ICATConnection :=
  mkICAT None (tables 3)
    (Ok [Ok ("u4", "{u4}"); Ok ("u2", "{u2"); Ok ("u3", "{u3}")])
    (Ok []).

(** A snapshot of three documents where [u3] is recorded with a type
    that is neither file nor folder and [u4] has no recorded type, and a
    state of the pass in which only [u2] was seen. *)
Definition snapshot_docs : gmap string ElasticsearchDocument :=
  <["u2" := u2_old]> (<["u3" := u3]> (<["u4" := u4_reordered]> ∅)).
Definition snapshot_types : gmap string string :=
  <["u2" := "file"]> (<["u3" := "attachment"]> ∅).
Definition st0 : Proc :=
  mkProc zero_rows (<["u2" := true]> ∅) (NewBulkIndexer 1000) [].

(** Three catalog rows: [u1] is not indexed, [u2] is newer than the
    indexed one, [u4] agrees with the indexed one. *)
Definition catalog1 : list (string * string) :=
  [("u1", "{u1}"); ("u2", "{u2,dateModified:100}"); ("u4", "{u4}")].

(** A state of the pass before any row was read. *)
Definition fresh : Proc := mkProc zero_rows ∅ (NewBulkIndexer 1000) [].

(** The types that the snapshot of [es1] records. *)
Definition types1 : gmap string string :=
  <["u2" := "file"]> (<["u3" := "folder"]> (<["u4" := "file"]> ∅)).

(** An index that refuses every batch. *)
Definition refuse : nat -> list BulkOp -> option error :=
  fun _ _ => Some (ErrExternal "connection refused").

(** A catalog that agrees with the index [es1]. *)
Definition db_sync : ICATConnection :=
  mkICAT None (tables 3)
    (Ok (Ok <$> [("u2", "{u2,dateModified:90}"); ("u4", "{u4}")]))
    (Ok (Ok <$> [("u3", "{u3}")])).

(** A catalog of 1001 file rows that are not indexed, and an index
    that holds nothing. *)
Definition db_many : ICATConnection :=
  mkICAT None (tables 1001) (Ok (Ok <$> replicate 1001 ("u1", "{u1}"))) (Ok []).
Definition es_empty : ESConnection := es_of 0 [].

(** A catalog whose first file row is not indexed and whose second
    carries text that does not decode. *)
Definition db_late_break : ICATConnection :=
  mkICAT None (tables 3)
    (Ok [Ok ("u1", "{u1}"); Ok ("u2", "{u2"); Ok ("u3", "{u3}")])
    (Ok []).

End Scenario.

(** ** Document equality *)

Lemma Equal_true_iff (a b : ElasticsearchDocument) :
  Equal a b = true <->
  scalars a = scalars b /\
  NewSetFromSlice (Metadata a) = NewSetFromSlice (Metadata b) /\
  NewSetFromSlice (UserPermissions a) = NewSetFromSlice (UserPermissions b).
Proof.
  unfold Equal, metadataEqual, permsEqual, set_Equal, scalars.
  repeat case_bool_decide; simpl; split; try discriminate; try tauto;
    try (intros [Hs _]; congruence); try (intros _; repeat split; congruence).
Qed.

Lemma NewSetFromSlice_elems `{Countable A} (l k : list A) :
  (forall x, x ∈ l <-> x ∈ k) -> NewSetFromSlice l = NewSetFromSlice k.
Proof.
  intros E. unfold NewSetFromSlice. apply set_eq. intros x.
  rewrite !elem_of_list_to_set. apply E.
Qed.

Lemma Equal_same_sets (a a' b : ElasticsearchDocument) :
  scalars a' = scalars a ->
  NewSetFromSlice (Metadata a') = NewSetFromSlice (Metadata a) ->
  NewSetFromSlice (UserPermissions a') = NewSetFromSlice (UserPermissions a) ->
  Equal a' b = Equal a b /\ Equal b a' = Equal b a.
Proof.
  intros Hs Hm Hp.
  split; apply eq_true_iff_eq; rewrite !Equal_true_iff, Hs, Hm, Hp; tauto.
Qed.

(** C2. [Equal] is reflexive and symmetric. Replacing the [Metadata] and
    [UserPermissions] lists of a document by permutations of them, or
    more generally by lists with the same elements (so with entries
    repeated or repetitions removed), changes no result of [Equal], on
    either side. Two documents whose scalar fields ([DateModified],
    [FileSize], [Path], [Label], [Id], [Creator], [FileType],
    [DateCreated]) are not all the same compare not equal. *)
Theorem Equal_relation :
  (forall d, Equal d d = true) /\
  (forall a b, Equal a b = Equal b a) /\
  (forall a b ms ps,
      ms ≡ₚ Metadata a -> ps ≡ₚ UserPermissions a ->
      Equal (with_lists a ms ps) b = Equal a b /\
      Equal b (with_lists a ms ps) = Equal b a) /\
  (forall a b ms ps,
      (forall x, x ∈ ms <-> x ∈ Metadata a) ->
      (forall x, x ∈ ps <-> x ∈ UserPermissions a) ->
      Equal (with_lists a ms ps) b = Equal a b /\
      Equal b (with_lists a ms ps) = Equal b a) /\
  (forall a b, scalars a <> scalars b -> Equal a b = false).
Proof.
  assert (Hsets : forall a b ms ps,
      (forall x, x ∈ ms <-> x ∈ Metadata a) ->
      (forall x, x ∈ ps <-> x ∈ UserPermissions a) ->
      Equal (with_lists a ms ps) b = Equal a b /\
      Equal b (with_lists a ms ps) = Equal b a).
  { intros a b ms ps Hm Hp. apply Equal_same_sets.
    - reflexivity.
    - by apply NewSetFromSlice_elems.
    - by apply NewSetFromSlice_elems. }
  split; [| split; [| split; [| split]]].
  - intros d. by apply Equal_true_iff.
  - intros a b. apply eq_true_iff_eq. rewrite !Equal_true_iff.
    split; intros (-> & -> & ->); done.
  - intros a b ms ps Hm Hp. apply Hsets.
    + intros x. by rewrite Hm.
    + intros x. by rewrite Hp.
  - exact Hsets.
  - intros a b Hne. apply not_true_is_false. rewrite Equal_true_iff. tauto.
Qed.

(** [u4] against the older [u2] and against itself with its lists
    permuted, then with an entry repeated. *)
Lemma Equal_relation_witness :
  Equal (with_lists Scenario.u4 [Scenario.m2; Scenario.m1] [Scenario.p2; Scenario.p1])
        Scenario.u4
  = Equal Scenario.u4 Scenario.u4 /\
  Equal (with_lists Scenario.u4 [Scenario.m2; Scenario.m1; Scenario.m2]
           [Scenario.p2; Scenario.p1])
        Scenario.u4
  = Equal Scenario.u4 Scenario.u4 /\
  Equal Scenario.u2_new Scenario.u2_old = false.
Proof.
  destruct Equal_relation as (_ & _ & Hperm & Hsets & Hscalar).
  split; [| split].
  - apply (proj1 (Hperm Scenario.u4 Scenario.u4 _ _
                    (Permutation_swap _ _ _) (Permutation_swap _ _ _))).
  - refine (proj1 (Hsets Scenario.u4 Scenario.u4 _ _ _ _)).
    + intros x. simpl. rewrite !elem_of_cons. tauto.
    + intros x. simpl. rewrite !elem_of_cons. tauto.
  - apply Hscalar. vm_compute. discriminate.
Defined.

(** ** The classifier *)

Section ClassifierFacts.

Variable Unmarshal : string -> result ElasticsearchDocument.

Lemma classify_absent (id jsonstr : string)
    (esDocs : gmap string ElasticsearchDocument) :
  esDocs !! id = None ->
  classify Unmarshal id jsonstr esDocs = (IndexDocument, None).
Proof. intros H. unfold classify. by rewrite H. Qed.


Lemma classify_present (id jsonstr : string)
    (esDocs : gmap string ElasticsearchDocument)
    (indexed doc : ElasticsearchDocument) :
  esDocs !! id = Some indexed -> Unmarshal jsonstr = Ok doc ->
  classify Unmarshal id jsonstr esDocs
  = (if Equal doc indexed then NoAction else UpdateDocument, None).
Proof.
  intros H1 H2. unfold classify. rewrite H1, H2.
  by destruct (Equal doc indexed).
Qed.

(** C1. [classify] returns [IndexDocument] when [id] is not a key of
    the snapshot. When [id] is a key and the text decodes, it returns no
    error, [UpdateDocument] exactly when the decoded document is not
    [Equal] to the snapshot's document for [id], and [NoAction] exactly
    when it is. *)
Theorem classify_decides (id jsonstr : string)
    (esDocs : gmap string ElasticsearchDocument) :
  (esDocs !! id = None ->
   classify Unmarshal id jsonstr esDocs = (IndexDocument, None)) /\
  (forall indexed doc,
      esDocs !! id = Some indexed -> Unmarshal jsonstr = Ok doc ->
      snd (classify Unmarshal id jsonstr esDocs) = None /\
      (fst (classify Unmarshal id jsonstr esDocs) = UpdateDocument
       <-> Equal doc indexed = false) /\
      (fst (classify Unmarshal id jsonstr esDocs) = NoAction
       <-> Equal doc indexed = true)).
Proof.
  split.
  - apply classify_absent.
  - intros indexed doc H1 H2. rewrite (classify_present _ _ _ _ _ H1 H2).
    simpl. destruct (Equal doc indexed); repeat split; congruence.
Qed.

End ClassifierFacts.

(** The catalog's [u2] is newer than the indexed one, its [u4] agrees
    with the indexed one, and [u1] is not indexed. *)
Lemma classify_decides_witness :
  let snapshot : gmap string ElasticsearchDocument :=
    <["u2" := Scenario.u2_old]> (<["u4" := Scenario.u4_reordered]> ∅) in
  classify Scenario.decode "u1" "{u1}" snapshot = (IndexDocument, None) /\
  fst (classify Scenario.decode "u2" "{u2,dateModified:100}" snapshot)
  = UpdateDocument /\
  fst (classify Scenario.decode "u4" "{u4}" snapshot) = NoAction.
Proof.
  intros snapshot. split; [| split].
  - apply (proj1 (classify_decides Scenario.decode "u1" "{u1}" snapshot)).
    reflexivity.
  - apply (proj2 (classify_decides Scenario.decode "u2"
                    "{u2,dateModified:100}" snapshot)
             Scenario.u2_old Scenario.u2_new); reflexivity.
  - apply (proj2 (classify_decides Scenario.decode "u4" "{u4}" snapshot)
             Scenario.u4_reordered Scenario.u4); reflexivity.
Defined.

(** ** The cardinality cap *)

Section CapFacts.

Variable maxInPrefix : Z.
Variable Unmarshal : string -> result ElasticsearchDocument.
Variable bulkDo : nat -> list BulkOp -> option error.
Variable rangeKeys : gmap string ElasticsearchDocument -> list string.

Lemma createBaseUuidsTable_over (prefix : string) (tx : ICATConnection) (r : Z) :
  CreateTemporaryTable tx "base_object_uuids" = Ok r -> r > maxInPrefix ->
  createBaseUuidsTable maxInPrefix prefix tx = (r, Some ErrTooManyResults, []).
Proof.
  intros Ht Hr. unfold createBaseUuidsTable. rewrite Ht.
  by rewrite bool_decide_eq_true_2.
Qed.

Lemma createUuidsTable_over (prefix : string) (tx : ICATConnection) (r : Z) :
  CreateTemporaryTable tx "base_object_uuids" = Ok r -> r > maxInPrefix ->
  createUuidsTable maxInPrefix prefix tx = (0, Some ErrTooManyResults, []).
Proof.
  intros Ht Hr. unfold createUuidsTable.
  by rewrite (createBaseUuidsTable_over _ _ _ Ht Hr).
Qed.

(** C3, as the code has it. When the identifier relation has more than
    [maxInPrefix] rows, [createBaseUuidsTable] returns the count with
    [ErrTooManyResults], but [createUuidsTable], which the pass calls,
    returns 0 in place of the count. The pass then returns
    [ErrTooManyResults], reports 0 rows, and never creates the
    accumulator, so it sends no bulk operation. *)
Theorem too_many_rows_count_dropped (db : ICATConnection) (es : ESConnection)
    (prefix : string) (r : Z) :
  BeginTx db = None ->
  CreateTemporaryTable db "base_object_uuids" = Ok r ->
  r > maxInPrefix ->
  createBaseUuidsTable maxInPrefix prefix db = (r, Some ErrTooManyResults, []) /\
  createUuidsTable maxInPrefix prefix db = (0, Some ErrTooManyResults, []) /\
  let o := ReindexPrefix maxInPrefix Unmarshal bulkDo rangeKeys db es prefix in
  err o = Some ErrTooManyResults /\
  rows (finalStats o) = 0 /\
  finalIndexer o = None.
Proof.
  intros Hb Ht Hr. split; [| split].
  - by apply createBaseUuidsTable_over.
  - by apply (createUuidsTable_over _ _ r).
  - unfold ReindexPrefix. rewrite Hb.
    rewrite (createUuidsTable_over _ _ _ Ht Hr). simpl. done.
Qed.

Lemma getSearchResults_over (prefix : string) (es : ESConnection)
    (search : SearchResult) :
  Search es prefix = Ok search -> TotalHits search > maxInPrefix ->
  getSearchResults maxInPrefix Unmarshal prefix es
  = (TotalHits search, ∅, ∅, Some ErrTooManyResults,
     [Debugf "Got %d documents for prefix %s (ES)"
        [AInt (TotalHits search); AStr prefix]]).
Proof.
  intros Hs Hr. unfold getSearchResults. rewrite Hs.
  by rewrite bool_decide_eq_true_2.
Qed.

(** C4. When the index reports more than [maxInPrefix] documents for
    the prefix, [getSearchResults] returns the reported total, empty
    maps and [ErrTooManyResults]. A pass that got that far returns
    [ErrTooManyResults] having recorded the total, with no id marked
    seen, no row processed and no accumulator created: it stops before
    the cursors are opened, and its outcome is the same whatever rows
    the catalog holds. *)
Theorem too_many_documents_aborts (db : ICATConnection) (es : ESConnection)
    (prefix : string) (search : SearchResult) (r : Z) (l : list LogEntry) :
  Search es prefix = Ok search ->
  TotalHits search > maxInPrefix ->
  BeginTx db = None ->
  createUuidsTable maxInPrefix prefix db = (r, None, l) ->
  getSearchResults maxInPrefix Unmarshal prefix es
  = (TotalHits search, ∅, ∅, Some ErrTooManyResults,
     [Debugf "Got %d documents for prefix %s (ES)"
        [AInt (TotalHits search); AStr prefix]]) /\
  let o := ReindexPrefix maxInPrefix Unmarshal bulkDo rangeKeys db es prefix in
  err o = Some ErrTooManyResults /\
  documents (finalStats o) = TotalHits search /\
  processed (finalStats o) = 0 /\
  finalSeen o = ∅ /\
  finalIndexer o = None /\
  forall files folders,
    ReindexPrefix maxInPrefix Unmarshal bulkDo rangeKeys
      (mkICAT (BeginTx db) (CreateTemporaryTable db) files folders) es prefix
    = o.
Proof.
  intros Hs Hr Hb Hu. split; [by apply getSearchResults_over |].
  assert (Ho : forall db',
    BeginTx db' = None ->
    createUuidsTable maxInPrefix prefix db' = (r, None, l) ->
    ReindexPrefix maxInPrefix Unmarshal bulkDo rangeKeys db' es prefix
    = leave (Some ErrTooManyResults)
        (set_documents (TotalHits search) (set_rows r zero_rows))
        (([Debugf "Indexing prefix %s" [AStr prefix]] ++ l)
         ++ [Debugf "Got %d documents for prefix %s (ES)"
               [AInt (TotalHits search); AStr prefix]])
        true).
  { intros db' Hb' Hu'. unfold ReindexPrefix.
    rewrite Hb', Hu', (getSearchResults_over _ _ _ Hs Hr). reflexivity. }
  cbv zeta. rewrite (Ho db Hb Hu).
  repeat split; try reflexivity.
  intros files folders. apply Ho; [exact Hb | exact Hu].
Qed.

End CapFacts.

(** A relation of 10001 rows against a cap of 10000. *)
Lemma too_many_rows_count_dropped_witness :
  createBaseUuidsTable Scenario.cap "u" Scenario.db_big
  = (10001, Some ErrTooManyResults, []) /\
  createUuidsTable Scenario.cap "u" Scenario.db_big
  = (0, Some ErrTooManyResults, []) /\
  let o := ReindexPrefix Scenario.cap Scenario.decode Scenario.accept
             Scenario.keysOf Scenario.db_big Scenario.es1 "u" in
  err o = Some ErrTooManyResults /\
  rows (finalStats o) = 0 /\
  finalIndexer o = None.
Proof.
  apply (too_many_rows_count_dropped Scenario.cap Scenario.decode
           Scenario.accept Scenario.keysOf Scenario.db_big Scenario.es1 "u"
           10001).
  - reflexivity.
  - reflexivity.
  - unfold Scenario.cap. lia.
Defined.

(** An index reporting 10001 documents against a cap of 10000. *)
Lemma too_many_documents_aborts_witness :
  let o := ReindexPrefix Scenario.cap Scenario.decode Scenario.accept
             Scenario.keysOf Scenario.db1 Scenario.es_big "u" in
  err o = Some ErrTooManyResults /\
  documents (finalStats o) = 10001 /\
  processed (finalStats o) = 0 /\
  finalSeen o = ∅ /\
  finalIndexer o = None.
Proof.
  destruct (too_many_documents_aborts Scenario.cap Scenario.decode
              Scenario.accept Scenario.keysOf Scenario.db1 Scenario.es_big "u"
              (mkSearchResult 10001 [Scenario.hit_u2]) 2
              [Debugf "Got %d rows for prefix %s (note that this may include stale unused metadata)"
                 [AInt 2; AStr "u"]])
    as (_ & He & Hd & Hp & Hn & Hi & _).
  - reflexivity.
  - unfold Scenario.cap. simpl. lia.
  - reflexivity.
  - reflexivity.
  - intros o. repeat split; assumption.
Defined.

(** ** The accumulator *)

Section BulkFacts.

Variable bulkDo : nat -> list BulkOp -> option error.

Lemma Flush_flushes (b : BulkIndexer) :
  flushes (fst (Flush bulkDo b))
  = flushes b ++ [(buffered b, bulkDo (length (flushes b)) (buffered b))].
Proof. unfold Flush. by destruct (bulkDo _ _). Qed.

Lemma Flush_result (b : BulkIndexer) :
  snd (Flush bulkDo b) = bulkDo (length (flushes b)) (buffered b).
Proof. unfold Flush. by destruct (bulkDo _ _). Qed.

Lemma Flush_buffered (b : BulkIndexer) :
  buffered (fst (Flush bulkDo b))
  = match bulkDo (length (flushes b)) (buffered b) with
    | Some _ => buffered b
    | None => []
    end.
Proof. unfold Flush. by destruct (bulkDo _ _). Qed.

Lemma Flush_bulkSize (b : BulkIndexer) :
  bulkSize (fst (Flush bulkDo b)) = bulkSize b.
Proof. unfold Flush. by destruct (bulkDo _ _). Qed.

Lemma Flush_enqueued (b : BulkIndexer) :
  enqueued (fst (Flush bulkDo b)) = enqueued b.
Proof.
  unfold Flush, enqueued, sent. destruct (bulkDo _ _); simpl.
  - rewrite omap_app. simpl. by rewrite app_nil_r.
  - rewrite omap_app. simpl. rewrite concat_app. simpl.
    by rewrite !app_nil_r.
Qed.

Lemma Add_enqueued (b : BulkIndexer) (r : BulkOp) :
  enqueued (fst (Add bulkDo b r)) = enqueued b ++ [r].
Proof.
  unfold Add. case_bool_decide.
  - rewrite Flush_enqueued. unfold enqueued. simpl. by rewrite app_assoc.
  - unfold enqueued. simpl. by rewrite app_assoc.
Qed.

Lemma Add_bulkSize (b : BulkIndexer) (r : BulkOp) :
  bulkSize (fst (Add bulkDo b r)) = bulkSize b.
Proof.
  unfold Add. case_bool_decide; [| done]. by rewrite Flush_bulkSize.
Qed.

Lemma Add_accepted (b : BulkIndexer) (r : BulkOp) :
  (forall n batch, bulkDo n batch = None) -> snd (Add bulkDo b r) = None.
Proof.
  intros Hok. unfold Add. case_bool_decide; [| done].
  by rewrite Flush_result.
Qed.

End BulkFacts.

(** ** Deletions *)

Section DeletionFacts.

Variable bulkDo : nat -> list BulkOp -> option error.
Variable rangeKeys : gmap string ElasticsearchDocument -> list string.

Lemma processDeletions_body_seen (esDocTypes : gmap string string)
    (es : ESConnection) (id : string) (st : Proc) :
  seen id (seenEsDocs st) = true ->
  processDeletions_body bulkDo esDocTypes es id st = (st, None).
Proof. intros Hs. unfold processDeletions_body. by rewrite Hs. Qed.

Lemma processDeletions_body_unseen (esDocTypes : gmap string string)
    (es : ESConnection) (id : string) (st : Proc) :
  seen id (seenEsDocs st) = false ->
  processDeletions_body bulkDo esDocTypes es id st
  = (mkProc (countRemoval esDocTypes id (stats st)) (seenEsDocs st)
       (fst (Add bulkDo (indexer st) (deleteFor esDocTypes es id)))
       (logged st ++ removalLog esDocTypes id),
     match snd (Add bulkDo (indexer st) (deleteFor esDocTypes es id)) with
     | Some e => Some (ErrWrap e "Got error adding delete to indexer")
     | None => None
     end).
Proof.
  intros Hs. unfold processDeletions_body, countRemoval, removalLog, deleteFor.
  rewrite Hs. simpl.
  destruct (esDocTypes !! id) as [t |]; simpl.
  - repeat case_bool_decide; simpl;
      destruct (Add bulkDo (indexer st) _) as [b [e |]]; simpl;
      unfold with_indexer, with_stats, say; simpl;
      rewrite ?app_nil_r; try reflexivity; destruct st; reflexivity.
  - destruct (Add bulkDo (indexer st) _) as [b [e |]]; simpl;
      unfold with_indexer, with_stats, say; simpl;
      by rewrite <- app_assoc.
Qed.

Lemma unseen_cons (seenDocs : gmap string bool) (id : string) (ids : list string) :
  unseen seenDocs (id :: ids)
  = if seen id seenDocs then unseen seenDocs ids else id :: unseen seenDocs ids.
Proof.
  unfold unseen. rewrite filter_cons.
  destruct (seen id seenDocs); by case_decide.
Qed.

Lemma elem_of_unseen (seenDocs : gmap string bool) (id : string) (ids : list string) :
  id ∈ unseen seenDocs ids <-> id ∈ ids /\ seen id seenDocs = false.
Proof. unfold unseen. rewrite list_elem_of_filter. tauto. Qed.

Lemma NoDup_unseen (seenDocs : gmap string bool) (ids : list string) :
  NoDup ids -> NoDup (unseen seenDocs ids).
Proof. apply NoDup_filter. Qed.

(** A run of the loop that returns no error has handled every key. *)
Lemma processDeletions_keys_done (esDocTypes : gmap string string)
    (es : ESConnection) (ids : list string) (st st' : Proc) :
  processDeletions_keys bulkDo esDocTypes es ids st = (st', None) ->
  seenEsDocs st' = seenEsDocs st /\
  stats st'
  = foldl (fun r id => countRemoval esDocTypes id r) (stats st)
      (unseen (seenEsDocs st) ids) /\
  enqueued (indexer st')
  = enqueued (indexer st)
    ++ fmap (deleteFor esDocTypes es) (unseen (seenEsDocs st) ids) /\
  logged st'
  = logged st ++ concat (fmap (removalLog esDocTypes) (unseen (seenEsDocs st) ids)).
Proof.
  revert st. induction ids as [| id ids IH]; intros st; simpl.
  - intros [= ->]. by rewrite !app_nil_r.
  - rewrite unseen_cons. destruct (seen id (seenEsDocs st)) eqn:Hs.
    + rewrite (processDeletions_body_seen _ _ _ _ Hs). apply IH.
    + rewrite (processDeletions_body_unseen _ _ _ _ Hs).
      destruct (snd (Add bulkDo (indexer st) _)); [discriminate |].
      intros H. apply IH in H. simpl in H.
      destruct H as (H1 & H2 & H3 & H4).
      rewrite H1, H2, H3, H4, Add_enqueued. simpl.
      by rewrite <- !app_assoc.
Qed.

Lemma processDeletions_keys_accepted (esDocTypes : gmap string string)
    (es : ESConnection) (ids : list string) (st : Proc) :
  (forall n batch, bulkDo n batch = None) ->
  snd (processDeletions_keys bulkDo esDocTypes es ids st) = None.
Proof.
  intros Hok. revert st. induction ids as [| id ids IH]; intros st; simpl.
  - done.
  - destruct (seen id (seenEsDocs st)) eqn:Hs.
    + rewrite (processDeletions_body_seen _ _ _ _ Hs). apply IH.
    + rewrite (processDeletions_body_unseen _ _ _ _ Hs).
      rewrite (Add_accepted _ _ _ Hok). apply IH.
Qed.

Lemma processDeletions_done (esDocs : gmap string ElasticsearchDocument)
    (esDocTypes : gmap string string) (es : ESConnection) (st st' : Proc) :
  processDeletions bulkDo rangeKeys esDocs esDocTypes es st = (st', None) ->
  exists st1,
    processDeletions_keys bulkDo esDocTypes es (rangeKeys esDocs) st = (st1, None) /\
    st' = say (Debugf "%d data-objects to delete, %d collections to delete"
                 [AInt (dataobjectsRemoved (stats st1));
                  AInt (collsRemoved (stats st1))]) st1.
Proof.
  unfold processDeletions.
  destruct (processDeletions_keys _ _ _ _ _) as [st1 [e |]]; [discriminate |].
  intros [= <-]. by exists st1.
Qed.

(** The requests for one id among the deletes of a duplicate-free list
    of keys. *)
Lemma deletes_of_id (esDocTypes : gmap string string) (es : ESConnection)
    (id : string) (ids : list string) :
  NoDup ids ->
  length (filter (fun r => op_id r = id) (fmap (deleteFor esDocTypes es) ids))
  = if decide (id ∈ ids) then 1%nat else 0%nat.
Proof.
  induction 1 as [| x l Hx Hl IH].
  - rewrite decide_False; [done | apply not_elem_of_nil].
  - rewrite fmap_cons, filter_cons.
    destruct (decide (op_id (deleteFor esDocTypes es x) = id)) as [Heq | Hne].
    + simpl in Heq. subst x. rewrite decide_True by (apply elem_of_cons; by left).
      simpl. rewrite IH. by rewrite decide_False.
    + simpl in Hne. rewrite IH. destruct (decide (id ∈ l)) as [Hin | Hin].
      * rewrite decide_True; [done |]. apply elem_of_cons. by right.
      * rewrite decide_False; [done |].
        rewrite elem_of_cons. intros [-> | ?]; tauto.
Qed.

(** C5. [processDeletions], visiting the keys of the snapshot in any
    order, returns no error when the index accepts every batch; and a
    run that returns no error has enqueued, after what the accumulator
    already held, the delete requests of the keys not marked seen, one
    for each: for a key of the snapshot not marked seen there is
    exactly one request with that id, it is the delete tagged with the
    recorded type, or with ["file"] when no type is recorded, in which
    case the anomaly is logged at error level; for an id marked seen,
    or not in the snapshot, there is none. *)
Theorem processDeletions_enqueues (esDocs : gmap string ElasticsearchDocument)
    (esDocTypes : gmap string string) (es : ESConnection) (st : Proc) :
  rangeKeys esDocs ≡ₚ elements (dom esDocs) ->
  ((forall n batch, bulkDo n batch = None) ->
   snd (processDeletions bulkDo rangeKeys esDocs esDocTypes es st) = None) /\
  forall st',
    processDeletions bulkDo rangeKeys esDocs esDocTypes es st = (st', None) ->
    let dels := fmap (deleteFor esDocTypes es)
                  (unseen (seenEsDocs st) (rangeKeys esDocs)) in
    enqueued (indexer st') = enqueued (indexer st) ++ dels /\
    forall id,
      (id ∈ dom esDocs -> seen id (seenEsDocs st) = false ->
       length (filter (fun r => op_id r = id) dels) = 1%nat /\
       BulkDeleteRequest (index_name es) (default "file" (esDocTypes !! id)) id
         ∈ dels /\
       (esDocTypes !! id = None ->
        Errorf "Could not find type for document %s, making rash assumptions"
          [AStr id] ∈ logged st')) /\
      (seen id (seenEsDocs st) = true ->
       length (filter (fun r => op_id r = id) dels) = 0%nat) /\
      (id ∉ dom esDocs ->
       length (filter (fun r => op_id r = id) dels) = 0%nat).
Proof.
  intros Hperm.
  assert (Hnd : NoDup (rangeKeys esDocs)).
  { rewrite Hperm. apply NoDup_elements. }
  assert (Hin : forall id, id ∈ rangeKeys esDocs <-> id ∈ dom esDocs).
  { intros id. rewrite Hperm. apply elem_of_elements. }
  split.
  - intros Hok. unfold processDeletions.
    pose proof (processDeletions_keys_accepted esDocTypes es
                  (rangeKeys esDocs) st Hok) as Ha.
    destruct (processDeletions_keys _ _ _ _ _) as [st1 e]. simpl in Ha.
    by rewrite Ha.
  - intros st' Hrun dels.
    apply processDeletions_done in Hrun as (st1 & Hkeys & ->).
    apply processDeletions_keys_done in Hkeys as (_ & _ & Henq & Hlog).
    split; [exact Henq |].
    intros id.
    pose proof (deletes_of_id esDocTypes es id _
                  (NoDup_unseen (seenEsDocs st) _ Hnd)) as Hcount.
    fold dels in Hcount.
    split; [| split].
    + intros Hdom Hunseen.
      assert (Hu : id ∈ unseen (seenEsDocs st) (rangeKeys esDocs)).
      { apply elem_of_unseen. split; [by apply Hin | done]. }
      split; [| split].
      * rewrite Hcount. by rewrite decide_True.
      * apply (list_elem_of_fmap_2 (deleteFor esDocTypes es)) in Hu. exact Hu.
      * intros Hnone. simpl. rewrite Hlog.
        apply elem_of_app. left. apply elem_of_app. right.
        apply list_elem_of_In, in_concat.
        exists (removalLog esDocTypes id). split; apply list_elem_of_In.
        -- by apply (list_elem_of_fmap_2 (removalLog esDocTypes)) in Hu.
        -- unfold removalLog. rewrite Hnone. simpl. apply elem_of_cons. by left.
    + intros Hseen. rewrite Hcount. rewrite decide_False; [done |].
      rewrite elem_of_unseen. intros [_ ?]. congruence.
    + intros Hout. rewrite Hcount. rewrite decide_False; [done |].
      rewrite elem_of_unseen, Hin. tauto.
Qed.

Lemma countRemoval_fold (esDocTypes : gmap string string)
    (ids : list string) (r : rowMetadata) :
  dataobjectsRemoved (foldl (fun r id => countRemoval esDocTypes id r) r ids)
  = Nat.iter (length (typedAs esDocTypes "file" ids)) int64_incr
      (dataobjectsRemoved r) /\
  collsRemoved (foldl (fun r id => countRemoval esDocTypes id r) r ids)
  = Nat.iter (length (typedAs esDocTypes "folder" ids)) int64_incr
      (collsRemoved r).
Proof.
  revert r. induction ids as [| id ids IH]; intros r; [done |].
  simpl foldl. destruct (IH (countRemoval esDocTypes id r)) as [-> ->].
  unfold typedAs. rewrite !filter_cons. unfold countRemoval. simpl.
  destruct (decide (default "file" (esDocTypes !! id) = "file")) as [Hf | Hf].
  - rewrite bool_decide_eq_true_2 by done.
    rewrite decide_False by (rewrite Hf; discriminate).
    simpl length. by rewrite Nat.iter_succ_r.
  - rewrite bool_decide_eq_false_2 by done.
    destruct (decide (default "file" (esDocTypes !! id) = "folder")) as [Hd | Hd].
    + rewrite bool_decide_eq_true_2 by done.
      simpl length. by rewrite Nat.iter_succ_r.
    + by rewrite bool_decide_eq_false_2 by done.
Qed.

Lemma typedAs_split (esDocTypes : gmap string string) (ids : list string) :
  length ids
  = (length (typedAs esDocTypes "file" ids)
     + length (typedAs esDocTypes "folder" ids)
     + length (filter (fun id => default "file" (esDocTypes !! id) <> "file" /\
                                 default "file" (esDocTypes !! id) <> "folder")
                 ids))%nat.
Proof.
  unfold typedAs. induction ids as [| id ids IH]; [done |].
  rewrite !filter_cons. simpl length. rewrite IH.
  destruct (decide (default "file" (esDocTypes !! id) = "file")) as [Hf | Hf].
  - rewrite decide_False by (rewrite Hf; discriminate).
    rewrite decide_False by tauto. simpl. lia.
  - destruct (decide (default "file" (esDocTypes !! id) = "folder")) as [Hd | Hd].
    + rewrite decide_False by tauto. simpl. lia.
    + rewrite decide_True by tauto. simpl. lia.
Qed.

(** C10. For a key not marked seen whose recorded type is neither
    ["file"] nor ["folder"], the loop body enqueues one delete request
    tagged with that type and leaves every counter as it was. Over a
    whole run that returns no error, one delete is enqueued for each
    unseen key, while [dataobjectsRemoved] and [collsRemoved] advance
    only by the numbers of unseen keys whose delete is tagged ["file"]
    and ["folder"]: the keys of any other type are deleted but not
    counted. *)
Theorem processDeletions_other_type_uncounted
    (esDocs : gmap string ElasticsearchDocument)
    (esDocTypes : gmap string string) (es : ESConnection) (st : Proc) :
  (forall id t,
      seen id (seenEsDocs st) = false ->
      esDocTypes !! id = Some t -> t <> "file" -> t <> "folder" ->
      let res := processDeletions_body bulkDo esDocTypes es id st in
      stats (fst res) = stats st /\
      enqueued (indexer (fst res))
      = enqueued (indexer st) ++ [BulkDeleteRequest (index_name es) t id]) /\
  (forall st',
      processDeletions bulkDo rangeKeys esDocs esDocTypes es st = (st', None) ->
      let ids := unseen (seenEsDocs st) (rangeKeys esDocs) in
      enqueued (indexer st')
      = enqueued (indexer st) ++ (deleteFor esDocTypes es <$> ids) /\
      dataobjectsRemoved (stats st')
      = Nat.iter (length (typedAs esDocTypes "file" ids)) int64_incr
          (dataobjectsRemoved (stats st)) /\
      collsRemoved (stats st')
      = Nat.iter (length (typedAs esDocTypes "folder" ids)) int64_incr
          (collsRemoved (stats st)) /\
      length (deleteFor esDocTypes es <$> ids)
      = (length (typedAs esDocTypes "file" ids)
         + length (typedAs esDocTypes "folder" ids)
         + length (filter
                     (fun id => default "file" (esDocTypes !! id) <> "file" /\
                                default "file" (esDocTypes !! id) <> "folder")
                     ids))%nat).
Proof.
  split.
  - intros id t Hs Ht Hf Hd res. subst res.
    rewrite (processDeletions_body_unseen _ _ _ _ Hs). simpl.
    rewrite Add_enqueued. unfold countRemoval, deleteFor. rewrite Ht. simpl.
    by rewrite !bool_decide_eq_false_2 by done.
  - intros st' Hrun ids.
    apply processDeletions_done in Hrun as (st1 & Hkeys & ->).
    apply processDeletions_keys_done in Hkeys as (_ & Hstats & Henq & _).
    fold ids in Hstats, Henq. simpl.
    destruct (countRemoval_fold esDocTypes ids (stats st)) as [Hf Hd].
    rewrite Hstats, Hf, Hd, length_fmap.
    repeat split; [exact Henq | apply typedAs_split].
Qed.

End DeletionFacts.

(** With [u2] seen, [u3] typed ["attachment"] and [u4] without a type:
    one delete for [u4], tagged ["file"], with the anomaly logged, and
    none for [u2]. *)
Lemma processDeletions_enqueues_witness :
  let st' := fst (processDeletions Scenario.accept Scenario.keysOf
                    Scenario.snapshot_docs Scenario.snapshot_types
                    Scenario.es1 Scenario.st0) in
  let dels := deleteFor Scenario.snapshot_types Scenario.es1
              <$> unseen (seenEsDocs Scenario.st0)
                    (Scenario.keysOf Scenario.snapshot_docs) in
  snd (processDeletions Scenario.accept Scenario.keysOf
         Scenario.snapshot_docs Scenario.snapshot_types
         Scenario.es1 Scenario.st0) = None /\
  length (filter (fun r => op_id r = "u4") dels) = 1%nat /\
  BulkDeleteRequest "data" "file" "u4" ∈ dels /\
  Errorf "Could not find type for document %s, making rash assumptions"
    [AStr "u4"] ∈ logged st' /\
  length (filter (fun r => op_id r = "u2") dels) = 0%nat.
Proof.
  intros st' dels.
  assert (Hkeys : Scenario.keysOf Scenario.snapshot_docs
                  ≡ₚ elements (dom Scenario.snapshot_docs)) by reflexivity.
  assert (Hst : processDeletions Scenario.accept Scenario.keysOf
                  Scenario.snapshot_docs Scenario.snapshot_types
                  Scenario.es1 Scenario.st0 = (st', None))
    by (vm_compute; reflexivity).
  assert (Hdom : "u4" ∈ dom Scenario.snapshot_docs)
    by (apply elem_of_dom; eexists; reflexivity).
  pose proof (processDeletions_enqueues Scenario.accept Scenario.keysOf
                Scenario.snapshot_docs Scenario.snapshot_types Scenario.es1
                Scenario.st0 Hkeys) as [Hok Hrun].
  pose proof (Hrun st' Hst) as [_ Hids].
  pose proof (Hids "u4") as [H4 _].
  pose proof (Hids "u2") as (_ & H2 & _).
  pose proof (H4 Hdom eq_refl) as (Hone & Hin & Hlog).
  split; [apply Hok; reflexivity |].
  split; [exact Hone |].
  split; [exact Hin |].
  split; [apply Hlog; reflexivity |].
  apply H2. reflexivity.
Defined.

(** In the same snapshot [u3], typed ["attachment"], is deleted and
    counted nowhere: two deletes are enqueued and the removal counters
    total one. *)
Lemma processDeletions_other_type_uncounted_witness :
  let res := processDeletions_body Scenario.accept Scenario.snapshot_types
               Scenario.es1 "u3" Scenario.st0 in
  let st' := fst (processDeletions Scenario.accept Scenario.keysOf
                    Scenario.snapshot_docs Scenario.snapshot_types
                    Scenario.es1 Scenario.st0) in
  (stats (fst res) = stats Scenario.st0 /\
   enqueued (indexer (fst res))
   = enqueued (indexer Scenario.st0)
     ++ [BulkDeleteRequest "data" "attachment" "u3"]) /\
  length (enqueued (indexer st')) = 2%nat /\
  dataobjectsRemoved (stats st') = 1 /\
  collsRemoved (stats st') = 0.
Proof.
  intros res st'.
  destruct (processDeletions_other_type_uncounted Scenario.accept
              Scenario.keysOf Scenario.snapshot_docs Scenario.snapshot_types
              Scenario.es1 Scenario.st0) as [Hbody Hrun].
  split.
  - apply (Hbody "u3" "attachment"); [reflexivity | reflexivity | | ];
      discriminate.
  - destruct (Hrun st') as (Henq & Hf & Hd & _); [vm_compute; reflexivity |].
    rewrite Henq, Hf, Hd. vm_compute. repeat split.
Defined.

(** ** The index snapshot *)

Section SnapshotFacts.

Variable maxInPrefix : Z.
Variable Unmarshal : string -> result ElasticsearchDocument.

Lemma addHit_undecodable (acc : gmap string ElasticsearchDocument * gmap string string)
    (hit : SearchHit) :
  decodes Unmarshal hit = false -> addHit Unmarshal acc hit = acc.
Proof.
  unfold decodes, addHit. by destruct (Unmarshal (Source hit)).
Qed.

Lemma addHit_dom (acc : gmap string ElasticsearchDocument * gmap string string)
    (hit : SearchHit) :
  dom (fst acc) = dom (snd acc) ->
  dom (fst (addHit Unmarshal acc hit)) = dom (snd (addHit Unmarshal acc hit)).
Proof.
  intros Hd. unfold addHit. destruct (Unmarshal (Source hit)); [| done].
  simpl. by rewrite !dom_insert_L, Hd.
Qed.

Lemma addHits_dom (hits : list SearchHit)
    (acc : gmap string ElasticsearchDocument * gmap string string) :
  dom (fst acc) = dom (snd acc) ->
  dom (fst (fold_left (addHit Unmarshal) hits acc))
  = dom (snd (fold_left (addHit Unmarshal) hits acc)).
Proof.
  revert acc. induction hits as [| h hits IH]; intros acc Hd; [done |].
  simpl. apply IH. by apply addHit_dom.
Qed.

Lemma addHits_skip (hits : list SearchHit)
    (acc : gmap string ElasticsearchDocument * gmap string string) :
  fold_left (addHit Unmarshal) hits acc
  = fold_left (addHit Unmarshal)
      (filter (fun h => decodes Unmarshal h = true) hits) acc.
Proof.
  revert acc. induction hits as [| h hits IH]; intros acc; [done |].
  rewrite filter_cons. simpl. destruct (decodes Unmarshal h) eqn:Hh.
  - rewrite decide_True by done. simpl. apply IH.
  - rewrite decide_False by done. rewrite (addHit_undecodable _ _ Hh). apply IH.
Qed.

(** Hits that do not concern [id] leave its entries alone. *)
Lemma addHits_other (id : string) (hits : list SearchHit)
    (acc : gmap string ElasticsearchDocument * gmap string string) :
  (forall h, h ∈ hits -> hitId h = id -> decodes Unmarshal h = false) ->
  fst (fold_left (addHit Unmarshal) hits acc) !! id = fst acc !! id /\
  snd (fold_left (addHit Unmarshal) hits acc) !! id = snd acc !! id.
Proof.
  revert acc. induction hits as [| h hits IH]; intros acc Hh; [done |].
  simpl. destruct (IH (addHit Unmarshal acc h)) as [-> ->].
  { intros h' Hin. apply Hh. apply elem_of_cons. by right. }
  unfold addHit. destruct (Unmarshal (Source h)) as [doc | e] eqn:Hu; [| done].
  simpl. destruct (decide (hitId h = id)) as [Heq | Hne].
  - assert (Hf := Hh h ltac:(apply elem_of_cons; by left) Heq).
    unfold decodes in Hf. by rewrite Hu in Hf.
  - by rewrite !lookup_insert_ne.
Qed.

(** C6, amended. A hit whose source does not decode is skipped and
    nothing else happens: on a search within the cap,
    [getSearchResults] returns no error and the same total, maps and
    log as for the same search without the hits that do not decode, and
    that log is the single line about the total, so nothing is logged
    for a skipped hit. An id all of whose hits fail to decode is in
    neither map, and [classify] answers [IndexDocument] for it. The
    loop goes on after a skipped hit: a hit that decodes is in both
    maps, whatever hits surround it, unless a later hit that decodes
    has the same id. *)
Theorem undecodable_hits_skipped (prefix : string) (es : ESConnection)
    (search : SearchResult) :
  Search es prefix = Ok search ->
  TotalHits search <= maxInPrefix ->
  exists esDocs esDocTypes,
    getSearchResults maxInPrefix Unmarshal prefix es
    = (TotalHits search, esDocs, esDocTypes, None,
       [Debugf "Got %d documents for prefix %s (ES)"
          [AInt (TotalHits search); AStr prefix]]) /\
    getSearchResults maxInPrefix Unmarshal prefix
      (mkES (index_name es)
         (fun _ => Ok (mkSearchResult (TotalHits search)
                         (filter (fun h => decodes Unmarshal h = true)
                            (Hits search)))))
    = getSearchResults maxInPrefix Unmarshal prefix es /\
    (forall id,
        (forall h, h ∈ Hits search -> hitId h = id ->
                   decodes Unmarshal h = false) ->
        esDocs !! id = None /\ esDocTypes !! id = None /\
        forall jsonstr,
          classify Unmarshal id jsonstr esDocs = (IndexDocument, None)) /\
    (forall before h after doc,
        Hits search = before ++ h :: after ->
        Unmarshal (Source h) = Ok doc ->
        (forall h', h' ∈ after -> hitId h' = hitId h ->
                    decodes Unmarshal h' = false) ->
        esDocs !! hitId h = Some doc /\
        esDocTypes !! hitId h = Some (hitType h)).
Proof.
  intros Hs Hcap.
  exists (fst (fold_left (addHit Unmarshal) (Hits search) (∅, ∅))),
         (snd (fold_left (addHit Unmarshal) (Hits search) (∅, ∅))).
  assert (Hres : getSearchResults maxInPrefix Unmarshal prefix es
    = (TotalHits search,
       fst (fold_left (addHit Unmarshal) (Hits search) (∅, ∅)),
       snd (fold_left (addHit Unmarshal) (Hits search) (∅, ∅)), None,
       [Debugf "Got %d documents for prefix %s (ES)"
          [AInt (TotalHits search); AStr prefix]])).
  { unfold getSearchResults. rewrite Hs.
    by rewrite bool_decide_eq_false_2 by lia. }
  split; [exact Hres |]. split; [| split].
  - rewrite Hres. unfold getSearchResults. simpl.
    rewrite bool_decide_eq_false_2 by lia.
    by rewrite <- addHits_skip.
  - intros id Hid.
    destruct (addHits_other id (Hits search) (∅, ∅) Hid) as [H1 H2].
    simpl in H1, H2. rewrite lookup_empty in H1. rewrite lookup_empty in H2.
    split; [exact H1 |]. split; [exact H2 |].
    intros jsonstr. by apply classify_absent.
  - intros before h after doc Hhits Hdoc Hafter.
    rewrite Hhits, fold_left_app. simpl.
    destruct (addHits_other (hitId h) after
                (addHit Unmarshal
                   (fold_left (addHit Unmarshal) before (∅, ∅)) h) Hafter)
      as [-> ->].
    unfold addHit. rewrite Hdoc. simpl. by rewrite !lookup_insert_eq.
Qed.

Lemma getSearchResults_dom (prefix : string) (es : ESConnection) (n : Z)
    (esDocs : gmap string ElasticsearchDocument)
    (esDocTypes : gmap string string) (e : option error) (l : list LogEntry) :
  getSearchResults maxInPrefix Unmarshal prefix es = (n, esDocs, esDocTypes, e, l) ->
  dom esDocs = dom esDocTypes.
Proof.
  unfold getSearchResults. destruct (Search es prefix) as [search | e'].
  - case_bool_decide.
    + intros [= _ <- <- _ _]. by rewrite !dom_empty_L.
    + intros [= _ <- <- _ _]. apply addHits_dom. simpl. by rewrite !dom_empty_L.
  - intros [= _ <- <- _ _]. by rewrite !dom_empty_L.
Qed.

End SnapshotFacts.

(** Two hits, the first with a source that does not decode. *)
Lemma undecodable_hits_skipped_witness :
  exists esDocs esDocTypes,
    getSearchResults Scenario.cap Scenario.decode "u"
      (Scenario.es_of 2 [Scenario.hit_bad; Scenario.hit_u2])
    = (2, esDocs, esDocTypes, None,
       [Debugf "Got %d documents for prefix %s (ES)" [AInt 2; AStr "u"]]) /\
    esDocs !! "u5" = None /\
    esDocs !! "u2" = Some Scenario.u2_old /\
    esDocTypes !! "u2" = Some "file".
Proof.
  destruct (undecodable_hits_skipped Scenario.cap Scenario.decode "u"
              (Scenario.es_of 2 [Scenario.hit_bad; Scenario.hit_u2])
              (mkSearchResult 2 [Scenario.hit_bad; Scenario.hit_u2]))
    as (esDocs & esDocTypes & Hres & _ & Habsent & Hpresent).
  - reflexivity.
  - unfold Scenario.cap. simpl. lia.
  - exists esDocs, esDocTypes.
    split; [exact Hres |]. split.
    + apply (Habsent "u5"). intros h Hin Hid. simpl in Hin.
      apply elem_of_cons in Hin as [-> | Hin]; [reflexivity |].
      apply elem_of_cons in Hin as [-> | Hin]; [discriminate Hid |].
      by apply not_elem_of_nil in Hin.
    + apply (Hpresent [Scenario.hit_bad] Scenario.hit_u2 [] Scenario.u2_old).
      * reflexivity.
      * reflexivity.
      * intros h' Hin. by apply not_elem_of_nil in Hin.
Defined.

(** C6, as stated, fails: with a first hit whose source does not
    decode, the log of [getSearchResults] is the log of the same search
    without that hit. *)
Lemma hit_failure_not_logged :
  Scenario.decode (Source Scenario.hit_bad)
  = Err (ErrExternal "invalid character") /\
  ~ logs_hit_failures Scenario.cap Scenario.decode "u" 2
      [Scenario.hit_bad; Scenario.hit_u2].
Proof.
  split; [reflexivity |].
  intros H. apply H. vm_compute. reflexivity.
Qed.

(** ** The snapshot's types and the deletions *)

Section TypeFacts.

Variable maxInPrefix : Z.
Variable Unmarshal : string -> result ElasticsearchDocument.
Variable bulkDo : nat -> list BulkOp -> option error.
Variable rangeKeys : gmap string ElasticsearchDocument -> list string.

Lemma removalLog_typed (esDocTypes : gmap string string) (id : string)
    (x : LogEntry) :
  is_Some (esDocTypes !! id) -> x ∈ removalLog esDocTypes id ->
  level x = DebugLevel.
Proof.
  intros [t Ht]. unfold removalLog. rewrite Ht. simpl.
  repeat case_bool_decide; intros Hx.
  - by apply list_elem_of_singleton in Hx as ->.
  - by apply list_elem_of_singleton in Hx as ->.
  - by apply not_elem_of_nil in Hx.
Qed.

Lemma processDeletions_keys_log (esDocTypes : gmap string string)
    (es : ESConnection) (ids : list string) (st : Proc) (x : LogEntry) :
  Forall (fun id => is_Some (esDocTypes !! id)) ids ->
  x ∈ logged (fst (processDeletions_keys bulkDo esDocTypes es ids st)) ->
  x ∈ logged st \/ level x = DebugLevel.
Proof.
  intros Hall. revert st.
  induction Hall as [| id ids Hid Hids IH]; intros st; simpl; [tauto |].
  destruct (seen id (seenEsDocs st)) eqn:Hs.
  - rewrite (processDeletions_body_seen bulkDo _ _ _ _ Hs). apply IH.
  - rewrite (processDeletions_body_unseen bulkDo _ _ _ _ Hs).
    destruct (snd (Add bulkDo (indexer st) _)); simpl.
    + rewrite elem_of_app. intros [? | Hx]; [by left | right].
      by apply (removalLog_typed esDocTypes id).
    + intros Hx. apply IH in Hx. simpl in Hx.
      destruct Hx as [Hx | ?]; [| by right].
      apply elem_of_app in Hx as [? | Hx]; [by left | right].
      by apply (removalLog_typed esDocTypes id).
Qed.

(** C9. In what [getSearchResults] returns, the document map and the
    type map have the same keys. So when [processDeletions] runs on
    these maps, every key it visits has a recorded type, and the branch
    that falls back to ["file"] is not taken: the run adds no
    error-level line to the log. *)
Theorem snapshot_types_cover (prefix : string) (es : ESConnection) (n : Z)
    (esDocs : gmap string ElasticsearchDocument)
    (esDocTypes : gmap string string) (e : option error) (l : list LogEntry) :
  getSearchResults maxInPrefix Unmarshal prefix es = (n, esDocs, esDocTypes, e, l) ->
  dom esDocs = dom esDocTypes /\
  (forall id, is_Some (esDocs !! id) -> is_Some (esDocTypes !! id)) /\
  (rangeKeys esDocs ≡ₚ elements (dom esDocs) ->
   Forall (fun id => is_Some (esDocTypes !! id)) (rangeKeys esDocs) /\
   forall es' st x,
     x ∈ logged (fst (processDeletions bulkDo rangeKeys esDocs esDocTypes es' st)) ->
     level x = ErrorLevel -> x ∈ logged st).
Proof.
  intros Hres. pose proof (getSearchResults_dom _ _ _ _ _ _ _ _ _ Hres) as Hdom.
  split; [exact Hdom |]. split.
  - intros id. by rewrite <- !elem_of_dom, Hdom.
  - intros Hperm.
    assert (Hall : Forall (fun id => is_Some (esDocTypes !! id)) (rangeKeys esDocs)).
    { apply Forall_forall. intros id Hin. rewrite Hperm in Hin.
      apply elem_of_elements in Hin. rewrite Hdom in Hin.
      by apply elem_of_dom. }
    split; [exact Hall |].
    intros es' st x Hx Hlevel. unfold processDeletions in Hx.
    pose proof (processDeletions_keys_log esDocTypes es' (rangeKeys esDocs) st x Hall)
      as Hlog.
    destruct (processDeletions_keys _ _ _ _ _) as [st1 [e1 |]]; simpl in *.
    + destruct (Hlog Hx) as [? | Hd]; [done | congruence].
    + apply elem_of_app in Hx as [Hx | Hx].
      * destruct (Hlog Hx) as [? | Hd]; [done | congruence].
      * apply list_elem_of_singleton in Hx as ->. discriminate.
Qed.

End TypeFacts.

(** The snapshot of an index holding [u2], [u3] and [u4], then deleted
    from with nothing seen. *)
Lemma snapshot_types_cover_witness :
  let res := getSearchResults Scenario.cap Scenario.decode "u" Scenario.es1 in
  let esDocs := snd (fst (fst (fst res))) in
  let esDocTypes := snd (fst (fst res)) in
  dom esDocs = dom esDocTypes /\
  Forall (fun id => is_Some (esDocTypes !! id)) (Scenario.keysOf esDocs).
Proof.
  intros res esDocs esDocTypes.
  destruct (snapshot_types_cover Scenario.cap Scenario.decode Scenario.accept
              Scenario.keysOf "u" Scenario.es1 3 esDocs esDocTypes None
              [Debugf "Got %d documents for prefix %s (ES)" [AInt 3; AStr "u"]])
    as (Hdom & _ & Hrange).
  - vm_compute. reflexivity.
  - split; [exact Hdom |]. apply Hrange. reflexivity.
Defined.

(** ** The row loops *)

Section RowFacts.

Variable maxInPrefix : Z.
Variable Unmarshal : string -> result ElasticsearchDocument.
Variable bulkDo : nat -> list BulkOp -> option error.
Variable rangeKeys : gmap string ElasticsearchDocument -> list string.

Lemma processDataobjects_rows_app (esDocs : gmap string ElasticsearchDocument)
    (es : ESConnection) (before rest : list Row) (st : Proc) :
  processDataobjects_rows Unmarshal bulkDo esDocs es (before ++ rest) st
  = match processDataobjects_rows Unmarshal bulkDo esDocs es before st with
    | (st1, Some e) => (st1, Some e)
    | (st1, None) => processDataobjects_rows Unmarshal bulkDo esDocs es rest st1
    end.
Proof.
  revert st. induction before as [| row before IH]; intros st; [done |].
  simpl. destruct row as [[id selectedJSON] | e]; [| done].
  destruct (classify _ _ _ _) as [c [e |]]; [done |].
  destruct c; simpl; try apply IH;
    destruct (index _ _ _ _ _ _) as [b [e |]]; simpl; try done; apply IH.
Qed.

Lemma processCollections_rows_app (esDocs : gmap string ElasticsearchDocument)
    (es : ESConnection) (before rest : list Row) (st : Proc) :
  processCollections_rows Unmarshal bulkDo esDocs es (before ++ rest) st
  = match processCollections_rows Unmarshal bulkDo esDocs es before st with
    | (st1, Some e) => (st1, Some e)
    | (st1, None) => processCollections_rows Unmarshal bulkDo esDocs es rest st1
    end.
Proof.
  revert st. induction before as [| row before IH]; intros st; [done |].
  simpl. destruct row as [[id selectedJSON] | e]; [| done].
  destruct (classify _ _ _ _) as [c [e |]]; [done |].
  destruct c; simpl; try apply IH;
    destruct (index _ _ _ _ _ _) as [b [e |]]; simpl; try done; apply IH.
Qed.




End RowFacts.


(** ** Flushing *)

Section FlushFacts.

Variable maxInPrefix : Z.
Variable Unmarshal : string -> result ElasticsearchDocument.
Variable bulkDo : nat -> list BulkOp -> option error.
Variable rangeKeys : gmap string ElasticsearchDocument -> list string.

(** One [Add] inside a loop: name its result and keep its batch size. *)
Ltac add_step IH :=
  unfold index;
  match goal with
  | |- context [Add ?f ?b ?r] =>
      let HA := fresh "HA" in
      pose proof (Add_bulkSize f b r) as HA;
      destruct (Add f b r) as [? [? |]]; simpl in *;
      [exact HA | rewrite IH; exact HA]
  end.

Lemma processDataobjects_rows_bulkSize (esDocs : gmap string ElasticsearchDocument)
    (es : ESConnection) (cursor : list Row) (st : Proc) :
  bulkSize (indexer (fst (processDataobjects_rows Unmarshal bulkDo esDocs es cursor st)))
  = bulkSize (indexer st).
Proof.
  revert st. induction cursor as [| row cursor IH]; intros st; [done |].
  simpl. destruct row as [[id selectedJSON] | e]; [| done].
  destruct (classify _ _ _ _) as [c [e |]]; [done |].
  destruct c; simpl; [by rewrite IH | add_step IH | add_step IH].
Qed.

Lemma processCollections_rows_bulkSize (esDocs : gmap string ElasticsearchDocument)
    (es : ESConnection) (cursor : list Row) (st : Proc) :
  bulkSize (indexer (fst (processCollections_rows Unmarshal bulkDo esDocs es cursor st)))
  = bulkSize (indexer st).
Proof.
  revert st. induction cursor as [| row cursor IH]; intros st; [done |].
  simpl. destruct row as [[id selectedJSON] | e]; [| done].
  destruct (classify _ _ _ _) as [c [e |]]; [done |].
  destruct c; simpl; [by rewrite IH | add_step IH | add_step IH].
Qed.

Lemma processDataobjects_bulkSize (esDocs : gmap string ElasticsearchDocument)
    (es : ESConnection) (tx : ICATConnection) (st : Proc) :
  bulkSize (indexer (fst (processDataobjects Unmarshal bulkDo esDocs es tx st)))
  = bulkSize (indexer st).
Proof.
  unfold processDataobjects. destruct (GetDataObjects tx) as [cursor | e]; [| done].
  pose proof (processDataobjects_rows_bulkSize esDocs es cursor st) as H.
  by destruct (processDataobjects_rows _ _ _ _ _ _) as [st1 [e |]].
Qed.

Lemma processCollections_bulkSize (esDocs : gmap string ElasticsearchDocument)
    (es : ESConnection) (tx : ICATConnection) (st : Proc) :
  bulkSize (indexer (fst (processCollections Unmarshal bulkDo esDocs es tx st)))
  = bulkSize (indexer st).
Proof.
  unfold processCollections. destruct (GetCollections tx) as [cursor | e]; [| done].
  pose proof (processCollections_rows_bulkSize esDocs es cursor st) as H.
  by destruct (processCollections_rows _ _ _ _ _ _) as [st1 [e |]].
Qed.

Lemma processDeletions_keys_bulkSize (esDocTypes : gmap string string)
    (es : ESConnection) (ids : list string) (st : Proc) :
  bulkSize (indexer (fst (processDeletions_keys bulkDo esDocTypes es ids st)))
  = bulkSize (indexer st).
Proof.
  revert st. induction ids as [| id ids IH]; intros st; [done |].
  simpl. destruct (seen id (seenEsDocs st)) eqn:Hs.
  - rewrite (processDeletions_body_seen bulkDo _ _ _ _ Hs). apply IH.
  - rewrite (processDeletions_body_unseen bulkDo _ _ _ _ Hs).
    destruct (snd (Add bulkDo (indexer st) _)); simpl.
    + apply Add_bulkSize.
    + rewrite IH. simpl. apply Add_bulkSize.
Qed.

Lemma processDeletions_bulkSize (esDocs : gmap string ElasticsearchDocument)
    (esDocTypes : gmap string string) (es : ESConnection) (st : Proc) :
  bulkSize (indexer (fst (processDeletions bulkDo rangeKeys esDocs esDocTypes es st)))
  = bulkSize (indexer st).
Proof.
  unfold processDeletions.
  pose proof (processDeletions_keys_bulkSize esDocTypes es (rangeKeys esDocs) st) as H.
  by destruct (processDeletions_keys _ _ _ _ _) as [st1 [e |]].
Qed.

Lemma finishUp_bulkSize (st : Proc) :
  bulkSize (indexer (fst (finishUp bulkDo st))) = bulkSize (indexer st).
Proof.
  unfold finishUp. destruct (CanFlush (indexer st)); [| done].
  pose proof (Flush_bulkSize bulkDo (indexer st)) as H.
  by destruct (Flush bulkDo (indexer st)) as [b [e |]].
Qed.

Lemma finishUp_flushes (st : Proc) :
  flushes (indexer (fst (finishUp bulkDo st)))
  = flushes (indexer st)
    ++ (if CanFlush (indexer st)
        then [(buffered (indexer st),
               bulkDo (length (flushes (indexer st))) (buffered (indexer st)))]
        else []).
Proof.
  unfold finishUp. destruct (CanFlush (indexer st)).
  - pose proof (Flush_flushes bulkDo (indexer st)) as H.
    by destruct (Flush bulkDo (indexer st)) as [b [e |]].
  - by rewrite app_nil_r.
Qed.

Lemma CanFlush_buffered (b : BulkIndexer) :
  CanFlush b = true <-> buffered b <> [].
Proof.
  unfold CanFlush. rewrite bool_decide_eq_true.
  destruct (buffered b); simpl; split; intros; try done; lia.
Qed.

Lemma leave_flushing_flushed (e : option error) (st : Proc) :
  finalIndexer (leave_flushing bulkDo e st)
  = Some (fst (Flush bulkDo (indexer st))).
Proof. done. Qed.

(** A pass either ends before the accumulator exists, or ends through
    [leave_flushing] with an accumulator of batch size 1000. *)
Lemma ReindexPrefix_exits (db : ICATConnection) (es : ESConnection)
    (prefix : string) :
  finalIndexer (ReindexPrefix maxInPrefix Unmarshal bulkDo rangeKeys db es prefix)
  = None \/
  exists e st,
    ReindexPrefix maxInPrefix Unmarshal bulkDo rangeKeys db es prefix
    = leave_flushing bulkDo e st /\
    bulkSize (indexer st) = 1000.
Proof.
  unfold ReindexPrefix.
  destruct (BeginTx db); [by left |].
  destruct (createUuidsTable _ _ _) as [[r [e |]] l1]; [by left |].
  destruct (getSearchResults _ _ _ _) as [[[[n esDocs] esDocTypes] [e |]] l2];
    [by left |].
  destruct (createPermsTable db) as [[e |] l3]; [by left |].
  destruct (createMetadataTable db) as [[e |] l4]; [by left |].
  right.
  match goal with
  | |- context [processDataobjects _ _ _ _ _ ?s] => set (st0 := s)
  end.
  pose proof (processDataobjects_bulkSize esDocs es db st0) as Ha.
  destruct (processDataobjects _ _ _ _ _ _) as [sa [e |]]; simpl in Ha;
    [by eexists _, _ |].
  pose proof (processCollections_bulkSize esDocs es db sa) as Hb.
  destruct (processCollections _ _ _ _ _ _) as [sb [e |]]; simpl in Hb;
    [eexists _, _; split; [done | congruence] |].
  pose proof (processDeletions_bulkSize esDocs esDocTypes es sb) as Hc.
  destruct (processDeletions _ _ _ _ _ _) as [sc [e |]]; simpl in Hc;
    [eexists _, _; split; [done | congruence] |].
  pose proof (finishUp_bulkSize sc) as Hd.
  destruct (finishUp bulkDo sc) as [sd [e |]]; simpl in Hd;
    eexists _, _; split; try done; congruence.
Qed.

End FlushFacts.

(** ** What a row loop that returns no error has done *)

Section LoopFacts.

Variable Unmarshal : string -> result ElasticsearchDocument.
Variable bulkDo : nat -> list BulkOp -> option error.

Lemma index_enqueued (b : BulkIndexer) (idx id t json : string) :
  enqueued (fst (index bulkDo b idx id t json))
  = enqueued b ++ [BulkIndexRequest idx t id json].
Proof. unfold index. apply Add_enqueued. Qed.

(** One turn of a row loop that goes on: name what [index] returned
    and what it enqueued. *)
Ltac index_step :=
  match goal with
  | |- context [index bulkDo ?b ?i ?d ?t ?j] =>
      let HA := fresh "HA" in
      pose proof (index_enqueued b i d t j) as HA;
      destruct (index bulkDo b i d t j) as [? [? |]]; [discriminate |]
  end.

Ltac loop_done IH Hclass :=
  let H := fresh "H" in
  let catalog := fresh "catalog" in
  intros H;
  apply IH in H as (catalog & -> & ? & ? & ? & Henq);
  match goal with
  | |- context [Ok (?id, ?json) :: _] => exists ((id, json) :: catalog)
  end;
  simpl in *; unfold indexOps; simpl; rewrite Hclass;
  try match goal with
    | HA : enqueued _ = _ |- _ => rewrite Henq, HA, <- app_assoc
    end;
  repeat split; try done; by constructor.

Lemma processDataobjects_rows_done (esDocs : gmap string ElasticsearchDocument)
    (es : ESConnection) (cursor : list Row) (st st' : Proc) :
  processDataobjects_rows Unmarshal bulkDo esDocs es cursor st = (st', None) ->
  exists catalog,
    cursor = Ok <$> catalog /\
    Forall (classifiable Unmarshal esDocs) catalog /\
    seenEsDocs st' = markRows catalog (seenEsDocs st) /\
    stats st'
    = foldl (fun r row => countFile (rowClass Unmarshal esDocs row) r)
        (stats st) catalog /\
    enqueued (indexer st')
    = enqueued (indexer st) ++ indexOps Unmarshal esDocs es "file" catalog.
Proof.
  revert st. induction cursor as [| row cursor IH]; intros st; simpl.
  - intros [= ->]. exists []. by rewrite app_nil_r.
  - destruct row as [[id selectedJSON] | e]; [| discriminate].
    destruct (classify _ _ _ _) as [c [e |]] eqn:Hc; [discriminate |].
    assert (Hclass : rowClass Unmarshal esDocs (id, selectedJSON) = c)
      by (unfold rowClass; simpl; by rewrite Hc).
    assert (Hok : classifiable Unmarshal esDocs (id, selectedJSON))
      by (unfold classifiable; simpl; by rewrite Hc).
    destruct c; simpl; [| index_step | index_step]; loop_done IH Hclass.
Qed.

Lemma processCollections_rows_done (esDocs : gmap string ElasticsearchDocument)
    (es : ESConnection) (cursor : list Row) (st st' : Proc) :
  processCollections_rows Unmarshal bulkDo esDocs es cursor st = (st', None) ->
  exists catalog,
    cursor = Ok <$> catalog /\
    Forall (classifiable Unmarshal esDocs) catalog /\
    seenEsDocs st' = markRows catalog (seenEsDocs st) /\
    stats st'
    = foldl (fun r row => countFolder (rowClass Unmarshal esDocs row) r)
        (stats st) catalog /\
    enqueued (indexer st')
    = enqueued (indexer st) ++ indexOps Unmarshal esDocs es "folder" catalog.
Proof.
  revert st. induction cursor as [| row cursor IH]; intros st; simpl.
  - intros [= ->]. exists []. by rewrite app_nil_r.
  - destruct row as [[id selectedJSON] | e]; [| discriminate].
    destruct (classify _ _ _ _) as [c [e |]] eqn:Hc; [discriminate |].
    assert (Hclass : rowClass Unmarshal esDocs (id, selectedJSON) = c)
      by (unfold rowClass; simpl; by rewrite Hc).
    assert (Hok : classifiable Unmarshal esDocs (id, selectedJSON))
      by (unfold classifiable; simpl; by rewrite Hc).
    destruct c; simpl; [| index_step | index_step]; loop_done IH Hclass.
Qed.

(** The loops return no error on rows that scan and classify, when the
    index accepts every batch. *)
Lemma processDataobjects_rows_accepted (esDocs : gmap string ElasticsearchDocument)
    (es : ESConnection) (catalog : list (string * string)) (st : Proc) :
  (forall n batch, bulkDo n batch = None) ->
  Forall (classifiable Unmarshal esDocs) catalog ->
  snd (processDataobjects_rows Unmarshal bulkDo esDocs es (Ok <$> catalog) st)
  = None.
Proof.
  intros Hok Hall. revert st.
  induction Hall as [| [id json] catalog Hrow Hall IH]; intros st; [done |].
  rewrite fmap_cons. simpl. unfold classifiable in Hrow. simpl in Hrow.
  destruct (classify _ _ _ _) as [c [e |]]; [discriminate |].
  destruct c; simpl; try apply IH;
    match goal with
    | |- context [index bulkDo ?b ?i ?d ?t ?j] =>
        pose proof (Add_accepted bulkDo b (BulkIndexRequest i t d j) Hok) as HA;
        unfold index; destruct (Add bulkDo b _) as [? [? |]];
        [discriminate | apply IH]
    end.
Qed.

Lemma processCollections_rows_accepted (esDocs : gmap string ElasticsearchDocument)
    (es : ESConnection) (catalog : list (string * string)) (st : Proc) :
  (forall n batch, bulkDo n batch = None) ->
  Forall (classifiable Unmarshal esDocs) catalog ->
  snd (processCollections_rows Unmarshal bulkDo esDocs es (Ok <$> catalog) st)
  = None.
Proof.
  intros Hok Hall. revert st.
  induction Hall as [| [id json] catalog Hrow Hall IH]; intros st; [done |].
  rewrite fmap_cons. simpl. unfold classifiable in Hrow. simpl in Hrow.
  destruct (classify _ _ _ _) as [c [e |]]; [discriminate |].
  destruct c; simpl; try apply IH;
    match goal with
    | |- context [index bulkDo ?b ?i ?d ?t ?j] =>
        pose proof (Add_accepted bulkDo b (BulkIndexRequest i t d j) Hok) as HA;
        unfold index; destruct (Add bulkDo b _) as [? [? |]];
        [discriminate | apply IH]
    end.
Qed.

End LoopFacts.

(** ** Marks and counters *)

Lemma seen_insert (id k : string) (m : gmap string bool) :
  seen id (<[k := true]> m) = true <-> id = k \/ seen id m = true.
Proof.
  unfold seen. destruct (decide (k = id)) as [-> | Hne].
  - rewrite lookup_insert_eq. simpl. tauto.
  - rewrite lookup_insert_ne by done. split; [tauto |].
    intros [-> | ?]; [done | tauto].
Qed.

Lemma seen_markRows (id : string) (catalog : list (string * string))
    (m : gmap string bool) :
  seen id (markRows catalog m) = true
  <-> seen id m = true \/ id ∈ catalog.*1.
Proof.
  revert m. induction catalog as [| row catalog IH]; intros m.
  - simpl. rewrite elem_of_nil. tauto.
  - unfold markRows. simpl. fold (markRows catalog (<[row.1 := true]> m)).
    rewrite IH, seen_insert, elem_of_cons. tauto.
Qed.

Lemma markRows_app (c1 c2 : list (string * string)) (m : gmap string bool) :
  markRows (c1 ++ c2) m = markRows c2 (markRows c1 m).
Proof. unfold markRows. apply foldl_app. Qed.

Lemma Ok_fmap_inj {A : Type} (l k : list A) :
  Ok <$> l = Ok <$> k -> l = k.
Proof.
  revert k. induction l as [| x l IH]; intros [| y k]; try done.
  rewrite !fmap_cons. intros [= -> H]. f_equal. by apply IH.
Qed.

(** Counters that stay below [2 ^ 63] count without wrapping. *)
Lemma int64_incr_iter (n : nat) :
  Z.of_nat n < 2 ^ 63 -> Nat.iter n int64_incr 0 = Z.of_nat n.
Proof.
  induction n as [| n IH]; [done |].
  intros Hn. simpl Nat.iter. rewrite IH by lia.
  unfold int64_incr. rewrite bool_decide_eq_false_2 by lia. lia.
Qed.

Section CountFacts.

Variable Unmarshal : string -> result ElasticsearchDocument.

Lemma countFile_fold (esDocs : gmap string ElasticsearchDocument)
    (catalog : list (string * string)) (r : rowMetadata) :
  foldl (fun r row => countFile (rowClass Unmarshal esDocs row) r) r catalog
  = mkRows (rows r) (documents r)
      (Nat.iter (length catalog) int64_incr (processed r))
      (Nat.iter (length catalog) int64_incr (dataobjects r))
      (Nat.iter (length (classed Unmarshal esDocs IndexDocument catalog))
         int64_incr (dataobjectsAdded r))
      (Nat.iter (length (classed Unmarshal esDocs UpdateDocument catalog))
         int64_incr (dataobjectsUpdated r))
      (dataobjectsRemoved r) (colls r) (collsAdded r) (collsUpdated r)
      (collsRemoved r).
Proof.
  revert r. induction catalog as [| row catalog IH]; intros r.
  - by destruct r.
  - simpl foldl. rewrite IH. unfold classed. rewrite !filter_cons.
    destruct (rowClass Unmarshal esDocs row); repeat case_decide;
      try congruence; simpl length; rewrite ?Nat.iter_succ_r; reflexivity.
Qed.

Lemma countFolder_fold (esDocs : gmap string ElasticsearchDocument)
    (catalog : list (string * string)) (r : rowMetadata) :
  foldl (fun r row => countFolder (rowClass Unmarshal esDocs row) r) r catalog
  = mkRows (rows r) (documents r)
      (Nat.iter (length catalog) int64_incr (processed r))
      (dataobjects r) (dataobjectsAdded r) (dataobjectsUpdated r)
      (dataobjectsRemoved r)
      (Nat.iter (length catalog) int64_incr (colls r))
      (Nat.iter (length (classed Unmarshal esDocs IndexDocument catalog))
         int64_incr (collsAdded r))
      (Nat.iter (length (classed Unmarshal esDocs UpdateDocument catalog))
         int64_incr (collsUpdated r))
      (collsRemoved r).
Proof.
  revert r. induction catalog as [| row catalog IH]; intros r.
  - by destruct r.
  - simpl foldl. rewrite IH. unfold classed. rewrite !filter_cons.
    destruct (rowClass Unmarshal esDocs row); repeat case_decide;
      try congruence; simpl length; rewrite ?Nat.iter_succ_r; reflexivity.
Qed.

End CountFacts.

(** ** The two row loops, from cursor to requests *)

Section LoopEffects.

Variable Unmarshal : string -> result ElasticsearchDocument.
Variable bulkDo : nat -> list BulkOp -> option error.

(** X1. A run of either row loop that returns no error has read a
    cursor all of whose rows scanned, has enqueued, after what the
    accumulator held, one index request per row that is not [NoAction],
    in row order, with the row's own id and text and the loop's type
    (["file"] or ["folder"]), and has marked seen exactly the ids of the
    rows besides those already marked. *)
Theorem row_loops_enqueue (esDocs : gmap string ElasticsearchDocument)
    (es : ESConnection) (cursor : list Row) (st st' : Proc) :
  (processDataobjects_rows Unmarshal bulkDo esDocs es cursor st = (st', None) ->
   exists catalog,
     cursor = Ok <$> catalog /\
     enqueued (indexer st')
     = enqueued (indexer st) ++ indexOps Unmarshal esDocs es "file" catalog /\
     forall id, seen id (seenEsDocs st') = true
                <-> seen id (seenEsDocs st) = true \/ id ∈ catalog.*1) /\
  (processCollections_rows Unmarshal bulkDo esDocs es cursor st = (st', None) ->
   exists catalog,
     cursor = Ok <$> catalog /\
     enqueued (indexer st')
     = enqueued (indexer st) ++ indexOps Unmarshal esDocs es "folder" catalog /\
     forall id, seen id (seenEsDocs st') = true
                <-> seen id (seenEsDocs st) = true \/ id ∈ catalog.*1).
Proof.
  split; intros Hrun.
  - apply processDataobjects_rows_done in Hrun
      as (catalog & Hc & _ & Hseen & _ & Henq).
    exists catalog. split; [done |]. split; [done |].
    intros id. rewrite Hseen. apply seen_markRows.
  - apply processCollections_rows_done in Hrun
      as (catalog & Hc & _ & Hseen & _ & Henq).
    exists catalog. split; [done |]. split; [done |].
    intros id. rewrite Hseen. apply seen_markRows.
Qed.

(** X2. A run of the file loop that returns no error advances
    [processed] and [dataobjects] once per row, [dataobjectsAdded] once
    per row classified [IndexDocument] and [dataobjectsUpdated] once
    per row classified [UpdateDocument], each as an [int64], and leaves
    the other seven counters as they were. The folder loop does the
    same with [colls], [collsAdded] and [collsUpdated]. *)
Theorem row_loops_count (esDocs : gmap string ElasticsearchDocument)
    (es : ESConnection) (catalog : list (string * string)) (st st' : Proc) :
  (processDataobjects_rows Unmarshal bulkDo esDocs es (Ok <$> catalog) st
   = (st', None) ->
   stats st'
   = mkRows (rows (stats st)) (documents (stats st))
       (Nat.iter (length catalog) int64_incr (processed (stats st)))
       (Nat.iter (length catalog) int64_incr (dataobjects (stats st)))
       (Nat.iter (length (classed Unmarshal esDocs IndexDocument catalog))
          int64_incr (dataobjectsAdded (stats st)))
       (Nat.iter (length (classed Unmarshal esDocs UpdateDocument catalog))
          int64_incr (dataobjectsUpdated (stats st)))
       (dataobjectsRemoved (stats st)) (colls (stats st))
       (collsAdded (stats st)) (collsUpdated (stats st))
       (collsRemoved (stats st))) /\
  (processCollections_rows Unmarshal bulkDo esDocs es (Ok <$> catalog) st
   = (st', None) ->
   stats st'
   = mkRows (rows (stats st)) (documents (stats st))
       (Nat.iter (length catalog) int64_incr (processed (stats st)))
       (dataobjects (stats st)) (dataobjectsAdded (stats st))
       (dataobjectsUpdated (stats st)) (dataobjectsRemoved (stats st))
       (Nat.iter (length catalog) int64_incr (colls (stats st)))
       (Nat.iter (length (classed Unmarshal esDocs IndexDocument catalog))
          int64_incr (collsAdded (stats st)))
       (Nat.iter (length (classed Unmarshal esDocs UpdateDocument catalog))
          int64_incr (collsUpdated (stats st)))
       (collsRemoved (stats st))).
Proof.
  split; intros Hrun.
  - apply processDataobjects_rows_done in Hrun
      as (catalog' & Hc & _ & _ & Hstats & _).
    apply Ok_fmap_inj in Hc. subst catalog'.
    rewrite Hstats. apply countFile_fold.
  - apply processCollections_rows_done in Hrun
      as (catalog' & Hc & _ & _ & Hstats & _).
    apply Ok_fmap_inj in Hc. subst catalog'.
    rewrite Hstats. apply countFolder_fold.
Qed.

End LoopEffects.

(** The three rows of [catalog1] as files, then as folders. *)
Lemma row_loops_enqueue_witness :
  (exists catalog,
      Ok <$> Scenario.catalog1 = Ok <$> catalog /\
      enqueued (indexer (fst (processDataobjects_rows Scenario.decode
                                Scenario.accept Scenario.snapshot_docs
                                Scenario.es1 (Ok <$> Scenario.catalog1)
                                Scenario.fresh)))
      = enqueued (indexer Scenario.fresh)
        ++ indexOps Scenario.decode Scenario.snapshot_docs Scenario.es1
             "file" catalog) /\
  (exists catalog,
      Ok <$> Scenario.catalog1 = Ok <$> catalog /\
      enqueued (indexer (fst (processCollections_rows Scenario.decode
                                Scenario.accept Scenario.snapshot_docs
                                Scenario.es1 (Ok <$> Scenario.catalog1)
                                Scenario.fresh)))
      = enqueued (indexer Scenario.fresh)
        ++ indexOps Scenario.decode Scenario.snapshot_docs Scenario.es1
             "folder" catalog).
Proof.
  split.
  - destruct (proj1 (row_loops_enqueue Scenario.decode Scenario.accept
                       Scenario.snapshot_docs Scenario.es1
                       (Ok <$> Scenario.catalog1) Scenario.fresh
                       (fst (processDataobjects_rows Scenario.decode
                               Scenario.accept Scenario.snapshot_docs
                               Scenario.es1 (Ok <$> Scenario.catalog1)
                               Scenario.fresh))))
      as (catalog & Hc & Henq & _).
    + vm_compute. reflexivity.
    + exists catalog. split; assumption.
  - destruct (proj2 (row_loops_enqueue Scenario.decode Scenario.accept
                       Scenario.snapshot_docs Scenario.es1
                       (Ok <$> Scenario.catalog1) Scenario.fresh
                       (fst (processCollections_rows Scenario.decode
                               Scenario.accept Scenario.snapshot_docs
                               Scenario.es1 (Ok <$> Scenario.catalog1)
                               Scenario.fresh))))
      as (catalog & Hc & Henq & _).
    + vm_compute. reflexivity.
    + exists catalog. split; assumption.
Defined.

(** Over [catalog1] as files: three processed, one added, one updated. *)
Lemma row_loops_count_witness :
  stats (fst (processDataobjects_rows Scenario.decode Scenario.accept
                Scenario.snapshot_docs Scenario.es1
                (Ok <$> Scenario.catalog1) Scenario.fresh))
  = mkRows 0 0 3 3 1 1 0 0 0 0 0 /\
  stats (fst (processCollections_rows Scenario.decode Scenario.accept
                Scenario.snapshot_docs Scenario.es1
                (Ok <$> Scenario.catalog1) Scenario.fresh))
  = mkRows 0 0 3 0 0 0 0 3 1 1 0.
Proof.
  split.
  - rewrite (proj1 (row_loops_count Scenario.decode Scenario.accept
                      Scenario.snapshot_docs Scenario.es1 Scenario.catalog1
                      Scenario.fresh _)).
    + vm_compute. reflexivity.
    + vm_compute. reflexivity.
  - rewrite (proj2 (row_loops_count Scenario.decode Scenario.accept
                      Scenario.snapshot_docs Scenario.es1 Scenario.catalog1
                      Scenario.fresh _)).
    + vm_compute. reflexivity.
    + vm_compute. reflexivity.
Defined.

(** ** The phases of a pass that returns no error *)

Section PhaseFacts.

Variable maxInPrefix : Z.
Variable Unmarshal : string -> result ElasticsearchDocument.
Variable bulkDo : nat -> list BulkOp -> option error.
Variable rangeKeys : gmap string ElasticsearchDocument -> list string.

Lemma createUuidsTable_ok (prefix : string) (tx : ICATConnection) (r : Z)
    (l : list LogEntry) :
  createUuidsTable maxInPrefix prefix tx = (r, None, l) ->
  CreateTemporaryTable tx "base_object_uuids" = Ok r /\ r <= maxInPrefix /\
  (exists k, CreateTemporaryTable tx "object_uuids" = Ok k) /\
  l = [Debugf "Got %d rows for prefix %s (note that this may include stale unused metadata)"
         [AInt r; AStr prefix]].
Proof.
  unfold createUuidsTable, createBaseUuidsTable.
  destruct (CreateTemporaryTable tx "base_object_uuids") as [r0 | e]; [| done].
  case_bool_decide; [done |].
  destruct (CreateTemporaryTable tx "object_uuids") as [k | e]; [| done].
  intros [= -> <-]. repeat split; [lia | by exists k].
Qed.

Lemma getSearchResults_ok (prefix : string) (es : ESConnection) (n : Z)
    (esDocs : gmap string ElasticsearchDocument)
    (esDocTypes : gmap string string) (l : list LogEntry) :
  getSearchResults maxInPrefix Unmarshal prefix es = (n, esDocs, esDocTypes, None, l) ->
  exists search,
    Search es prefix = Ok search /\ n = TotalHits search /\ n <= maxInPrefix /\
    esDocs = fst (fold_left (addHit Unmarshal) (Hits search) (∅, ∅)) /\
    esDocTypes = snd (fold_left (addHit Unmarshal) (Hits search) (∅, ∅)).
Proof.
  unfold getSearchResults. destruct (Search es prefix) as [search | e]; [| done].
  case_bool_decide; [done |].
  intros [= <- <- <- _]. exists search. repeat split; lia.
Qed.

Lemma processDataobjects_done (esDocs : gmap string ElasticsearchDocument)
    (es : ESConnection) (tx : ICATConnection) (st st' : Proc) :
  processDataobjects Unmarshal bulkDo esDocs es tx st = (st', None) ->
  exists cursor st1,
    GetDataObjects tx = Ok cursor /\
    processDataobjects_rows Unmarshal bulkDo esDocs es cursor st = (st1, None) /\
    st' = say (Debugf "%d data-objects missing, %d data-objects to update"
                 [AInt (dataobjectsAdded (stats st1));
                  AInt (dataobjectsUpdated (stats st1))]) st1.
Proof.
  unfold processDataobjects. destruct (GetDataObjects tx) as [cursor | e]; [| done].
  destruct (processDataobjects_rows _ _ _ _ _ _) as [st1 [e |]] eqn:Hrows; [done |].
  intros [= <-]. by exists cursor, st1.
Qed.

Lemma processCollections_done (esDocs : gmap string ElasticsearchDocument)
    (es : ESConnection) (tx : ICATConnection) (st st' : Proc) :
  processCollections Unmarshal bulkDo esDocs es tx st = (st', None) ->
  exists cursor st1,
    GetCollections tx = Ok cursor /\
    processCollections_rows Unmarshal bulkDo esDocs es cursor st = (st1, None) /\
    st' = say (Debugf "%d collections missing, %d collections to update"
                 [AInt (collsAdded (stats st1));
                  AInt (collsUpdated (stats st1))]) st1.
Proof.
  unfold processCollections. destruct (GetCollections tx) as [cursor | e]; [| done].
  destruct (processCollections_rows _ _ _ _ _ _) as [st1 [e |]] eqn:Hrows; [done |].
  intros [= <-]. by exists cursor, st1.
Qed.

Lemma finishUp_done (st st' : Proc) :
  finishUp bulkDo st = (st', None) ->
  stats st' = stats st /\ seenEsDocs st' = seenEsDocs st /\
  logged st' = logged st /\
  buffered (indexer st') = [] /\
  enqueued (indexer st') = enqueued (indexer st).
Proof.
  unfold finishUp. destruct (CanFlush (indexer st)) eqn:Hcan.
  - pose proof (Flush_enqueued bulkDo (indexer st)) as He.
    pose proof (Flush_buffered bulkDo (indexer st)) as Hb.
    pose proof (Flush_result bulkDo (indexer st)) as Hr.
    destruct (Flush bulkDo (indexer st)) as [b [e |]]; [done |].
    simpl in *. intros [= <-]. simpl. rewrite <- Hr in Hb. by rewrite Hb, He.
  - intros [= <-]. repeat split.
    apply not_true_iff_false in Hcan. rewrite CanFlush_buffered in Hcan.
    destruct (buffered (indexer st)); [done | exfalso; by apply Hcan].
Qed.

Lemma Flush_nothing (b : BulkIndexer) :
  buffered b = [] ->
  buffered (fst (Flush bulkDo b)) = [] /\
  concat (sent (fst (Flush bulkDo b))) = concat (sent b).
Proof.
  intros Hb. pose proof (Flush_enqueued bulkDo b) as He.
  rewrite Flush_buffered, Hb. split; [by destruct (bulkDo _ _) |].
  unfold enqueued in He. rewrite Flush_buffered, Hb in He.
  destruct (bulkDo _ _); by rewrite !app_nil_r in He.
Qed.

(** The path of a pass that returns no error, phase by phase. *)
Lemma ReindexPrefix_ok (db : ICATConnection) (es : ESConnection) (prefix : string) :
  err (ReindexPrefix maxInPrefix Unmarshal bulkDo rangeKeys db es prefix) = None ->
  exists r l1 n esDocs esDocTypes l2 l3 l4 sa sb sc sd,
    BeginTx db = None /\
    createUuidsTable maxInPrefix prefix db = (r, None, l1) /\
    getSearchResults maxInPrefix Unmarshal prefix es
    = (n, esDocs, esDocTypes, None, l2) /\
    createPermsTable db = (None, l3) /\
    createMetadataTable db = (None, l4) /\
    processDataobjects Unmarshal bulkDo esDocs es db
      (mkProc (set_documents n (set_rows r zero_rows)) ∅ (NewBulkIndexer 1000)
         (((([Debugf "Indexing prefix %s" [AStr prefix]] ++ l1) ++ l2) ++ l3)
          ++ l4))
    = (sa, None) /\
    processCollections Unmarshal bulkDo esDocs es db sa = (sb, None) /\
    processDeletions bulkDo rangeKeys esDocs esDocTypes es sb = (sc, None) /\
    finishUp bulkDo sc = (sd, None) /\
    ReindexPrefix maxInPrefix Unmarshal bulkDo rangeKeys db es prefix
    = leave_flushing bulkDo None sd.
Proof.
  unfold ReindexPrefix.
  destruct (BeginTx db); [done |].
  destruct (createUuidsTable _ _ _) as [[r [e |]] l1]; [done |].
  destruct (getSearchResults _ _ _ _) as [[[[n esDocs] esDocTypes] [e |]] l2];
    [done |].
  destruct (createPermsTable db) as [[e |] l3]; [done |].
  destruct (createMetadataTable db) as [[e |] l4]; [done |].
  destruct (processDataobjects _ _ _ _ _ _) as [sa [e |]] eqn:Ha; [done |].
  destruct (processCollections _ _ _ _ _ _) as [sb [e |]] eqn:Hb; [done |].
  destruct (processDeletions _ _ _ _ _ _) as [sc [e |]] eqn:Hc; [done |].
  destruct (finishUp bulkDo sc) as [sd [e |]] eqn:Hd; [done |].
  intros _. by exists r, l1, n, esDocs, esDocTypes, l2, l3, l4, sa, sb, sc, sd.
Qed.

End PhaseFacts.

(** ** A whole pass *)

Lemma unseen_markRows (catalog : list (string * string)) (ids : list string) :
  unseen (markRows catalog ∅) ids = gone catalog ids.
Proof.
  unfold unseen, gone. apply list_filter_iff. intros id.
  rewrite <- not_true_iff_false, seen_markRows.
  unfold seen. rewrite lookup_empty. simpl. split.
  - intros H Hin. apply H. by right.
  - intros H [? | ?]; [done | by apply H].
Qed.

Lemma countRemoval_fold_all (esDocTypes : gmap string string)
    (ids : list string) (r : rowMetadata) :
  foldl (fun r id => countRemoval esDocTypes id r) r ids
  = mkRows (rows r) (documents r) (processed r) (dataobjects r)
      (dataobjectsAdded r) (dataobjectsUpdated r)
      (Nat.iter (length (typedAs esDocTypes "file" ids)) int64_incr
         (dataobjectsRemoved r))
      (colls r) (collsAdded r) (collsUpdated r)
      (Nat.iter (length (typedAs esDocTypes "folder" ids)) int64_incr
         (collsRemoved r)).
Proof.
  revert r. induction ids as [| id ids IH]; intros r.
  - by destruct r.
  - simpl foldl. rewrite IH. unfold typedAs. rewrite !filter_cons.
    unfold countRemoval.
    destruct (decide (default "file" (esDocTypes !! id) = "file")) as [Hf | Hf].
    + rewrite bool_decide_eq_true_2 by done.
      rewrite decide_False by (rewrite Hf; discriminate).
      simpl length. by rewrite Nat.iter_succ_r.
    + rewrite bool_decide_eq_false_2 by done.
      destruct (decide (default "file" (esDocTypes !! id) = "folder")) as [Hd | Hd].
      * rewrite bool_decide_eq_true_2 by done.
        simpl length. by rewrite Nat.iter_succ_r.
      * by rewrite bool_decide_eq_false_2 by done.
Qed.

Section IndexOpsFacts.

Variable Unmarshal : string -> result ElasticsearchDocument.

Lemma indexOps_NoAction (esDocs : gmap string ElasticsearchDocument)
    (es : ESConnection) (t : string) (catalog : list (string * string)) :
  (forall row, row ∈ catalog -> rowClass Unmarshal esDocs row = NoAction) ->
  indexOps Unmarshal esDocs es t catalog = [].
Proof.
  induction catalog as [| row catalog IH]; intros Hall; [done |].
  unfold indexOps. simpl. rewrite (Hall row) by (apply elem_of_cons; by left).
  apply IH. intros row' Hin. apply Hall. apply elem_of_cons. by right.
Qed.

End IndexOpsFacts.

Section PassEffects.

Variable maxInPrefix : Z.
Variable Unmarshal : string -> result ElasticsearchDocument.
Variable bulkDo : nat -> list BulkOp -> option error.
Variable rangeKeys : gmap string ElasticsearchDocument -> list string.

(** Everything a pass that returns no error has done, in terms of the
    rows of the two cursors and of the snapshot. *)
Lemma ReindexPrefix_effect (db : ICATConnection) (es : ESConnection)
    (prefix : string) :
  err (ReindexPrefix maxInPrefix Unmarshal bulkDo rangeKeys db es prefix) = None ->
  exists r n esDocs esDocTypes l1 l2 files folders sd,
    createUuidsTable maxInPrefix prefix db = (r, None, l1) /\
    getSearchResults maxInPrefix Unmarshal prefix es
    = (n, esDocs, esDocTypes, None, l2) /\
    GetDataObjects db = Ok (Ok <$> files) /\
    GetCollections db = Ok (Ok <$> folders) /\
    Forall (classifiable Unmarshal esDocs) (files ++ folders) /\
    ReindexPrefix maxInPrefix Unmarshal bulkDo rangeKeys db es prefix
    = leave_flushing bulkDo None sd /\
    buffered (indexer sd) = [] /\
    seenEsDocs sd = markRows (files ++ folders) ∅ /\
    enqueued (indexer sd)
    = indexOps Unmarshal esDocs es "file" files
      ++ indexOps Unmarshal esDocs es "folder" folders
      ++ (deleteFor esDocTypes es <$> gone (files ++ folders) (rangeKeys esDocs)) /\
    stats sd
    = foldl (fun r id => countRemoval esDocTypes id r)
        (foldl (fun r row => countFolder (rowClass Unmarshal esDocs row) r)
           (foldl (fun r row => countFile (rowClass Unmarshal esDocs row) r)
              (set_documents n (set_rows r zero_rows)) files)
           folders)
        (gone (files ++ folders) (rangeKeys esDocs)).
Proof.
  intros Hok.
  apply ReindexPrefix_ok in Hok
    as (r & l1 & n & esDocs & esDocTypes & l2 & l3 & l4 & sa & sb & sc & sd
        & Hb & Hu & Hs & Hp & Hm & Ha & Hc & Hd & Hf & Ho).
  apply processDataobjects_done in Ha as (cf & sa1 & Hgf & Hrf & ->).
  apply processDataobjects_rows_done in Hrf
    as (files & -> & Hallf & Hseenf & Hstatsf & Henqf).
  apply processCollections_done in Hc as (cd & sb1 & Hgd & Hrd & ->).
  apply processCollections_rows_done in Hrd
    as (folders & -> & Halld & Hseend & Hstatsd & Henqd).
  apply processDeletions_done in Hd as (sc1 & Hkeys & ->).
  apply processDeletions_keys_done in Hkeys as (Hseenk & Hstatsk & Henqk & _).
  apply finishUp_done in Hf as (Hstats & Hseen & _ & Hbuf & Henq).
  simpl in *.
  assert (Hmarks : seenEsDocs sb1 = markRows (files ++ folders) ∅)
    by (by rewrite markRows_app, Hseend, Hseenf).
  exists r, n, esDocs, esDocTypes, l1, l2, files, folders, sd.
  repeat split; try done.
  - by apply Forall_app.
  - by rewrite Hseen, Hseenk.
  - rewrite Henq, Henqk, Henqd, Henqf, Hmarks, unseen_markRows.
    unfold enqueued. simpl. by rewrite <- !app_assoc.
  - rewrite Hstats, Hstatsk, Hstatsd, Hstatsf, Hmarks, unseen_markRows. done.
Qed.

(** X3. A pass that returns no error has had the index accept exactly
    the difference between catalog and snapshot, and holds nothing
    back: the operations of the batches sent are, in this order, one
    ["file"] index request per file row that is not [NoAction], one
    ["folder"] index request per folder row that is not [NoAction], and
    one delete per snapshot key, in the order the keys are visited,
    that is the id of no row; the buffer is empty. *)
Theorem pass_sends_the_difference (db : ICATConnection) (es : ESConnection)
    (prefix : string) (n : Z) (esDocs : gmap string ElasticsearchDocument)
    (esDocTypes : gmap string string) (e : option error) (l : list LogEntry)
    (files folders : list (string * string)) :
  err (ReindexPrefix maxInPrefix Unmarshal bulkDo rangeKeys db es prefix) = None ->
  getSearchResults maxInPrefix Unmarshal prefix es = (n, esDocs, esDocTypes, e, l) ->
  GetDataObjects db = Ok (Ok <$> files) ->
  GetCollections db = Ok (Ok <$> folders) ->
  exists b,
    finalIndexer (ReindexPrefix maxInPrefix Unmarshal bulkDo rangeKeys db es prefix)
    = Some b /\
    buffered b = [] /\
    concat (sent b)
    = indexOps Unmarshal esDocs es "file" files
      ++ indexOps Unmarshal esDocs es "folder" folders
      ++ (deleteFor esDocTypes es <$> gone (files ++ folders) (rangeKeys esDocs)).
Proof.
  intros Hok Hs Hf Hd.
  apply ReindexPrefix_effect in Hok
    as (r & n' & esDocs' & esDocTypes' & l1 & l2 & files' & folders' & sd
        & _ & Hs' & Hf' & Hd' & _ & Ho & Hbuf & _ & Henq & _).
  rewrite Hs in Hs'. injection Hs' as -> -> -> -> ->.
  rewrite Hf in Hf'. injection Hf' as Hf'. apply Ok_fmap_inj in Hf' as <-.
  rewrite Hd in Hd'. injection Hd' as Hd'. apply Ok_fmap_inj in Hd' as <-.
  rewrite Ho. simpl.
  destruct (Flush_nothing bulkDo (indexer sd) Hbuf) as [Hb Hsent].
  exists (fst (Flush bulkDo (indexer sd))).
  split; [done |]. split; [done |].
  rewrite Hsent, <- Henq. unfold enqueued. by rewrite Hbuf, app_nil_r.
Qed.

(** X4. A pass that returns no error reports, in the statistics of its
    summary line: the row count of the identifier relation and the
    total of the index, both at most [maxInPrefix]; [processed] as the
    number of rows of both cursors, [dataobjects] and [colls] as the
    numbers of file and folder rows; added and updated as the numbers
    of rows classified [IndexDocument] and [UpdateDocument] in each
    cursor; removed as the numbers of deletes tagged ["file"] and
    ["folder"]. Each counter is an [int64] advanced once per item. *)
Theorem pass_statistics (db : ICATConnection) (es : ESConnection)
    (prefix : string) (r n : Z) (esDocs : gmap string ElasticsearchDocument)
    (esDocTypes : gmap string string) (e1 e2 : option error)
    (l1 l2 : list LogEntry) (files folders : list (string * string)) :
  err (ReindexPrefix maxInPrefix Unmarshal bulkDo rangeKeys db es prefix) = None ->
  createUuidsTable maxInPrefix prefix db = (r, e1, l1) ->
  getSearchResults maxInPrefix Unmarshal prefix es = (n, esDocs, esDocTypes, e2, l2) ->
  GetDataObjects db = Ok (Ok <$> files) ->
  GetCollections db = Ok (Ok <$> folders) ->
  let ids := gone (files ++ folders) (rangeKeys esDocs) in
  r <= maxInPrefix /\ n <= maxInPrefix /\
  finalStats (ReindexPrefix maxInPrefix Unmarshal bulkDo rangeKeys db es prefix)
  = mkRows r n
      (Nat.iter (length (files ++ folders)) int64_incr 0)
      (Nat.iter (length files) int64_incr 0)
      (Nat.iter (length (classed Unmarshal esDocs IndexDocument files)) int64_incr 0)
      (Nat.iter (length (classed Unmarshal esDocs UpdateDocument files)) int64_incr 0)
      (Nat.iter (length (typedAs esDocTypes "file" ids)) int64_incr 0)
      (Nat.iter (length folders) int64_incr 0)
      (Nat.iter (length (classed Unmarshal esDocs IndexDocument folders)) int64_incr 0)
      (Nat.iter (length (classed Unmarshal esDocs UpdateDocument folders)) int64_incr 0)
      (Nat.iter (length (typedAs esDocTypes "folder" ids)) int64_incr 0).
Proof.
  intros Hok Hu Hs Hf Hd ids.
  apply ReindexPrefix_effect in Hok
    as (r' & n' & esDocs' & esDocTypes' & l1' & l2' & files' & folders' & sd
        & Hu' & Hs' & Hf' & Hd' & _ & Ho & _ & _ & _ & Hstats).
  rewrite Hu in Hu'. injection Hu' as -> -> ->.
  rewrite Hs in Hs'. injection Hs' as -> -> -> -> ->.
  rewrite Hf in Hf'. injection Hf' as Hf'. apply Ok_fmap_inj in Hf' as <-.
  rewrite Hd in Hd'. injection Hd' as Hd'. apply Ok_fmap_inj in Hd' as <-.
  apply createUuidsTable_ok in Hu as (_ & Hr & _).
  apply getSearchResults_ok in Hs as (search & _ & _ & Hn & _).
  split; [done |]. split; [done |].
  rewrite Ho. simpl. rewrite Hstats.
  rewrite countRemoval_fold_all, countFolder_fold, countFile_fold. simpl.
  fold ids. rewrite length_app, Nat.add_comm, Nat.iter_add. reflexivity.
Qed.

End PassEffects.

(** ** Passes that succeed *)

Section PassProgress.

Variable maxInPrefix : Z.
Variable Unmarshal : string -> result ElasticsearchDocument.
Variable bulkDo : nat -> list BulkOp -> option error.
Variable rangeKeys : gmap string ElasticsearchDocument -> list string.

Lemma processDataobjects_rows_NoAction (esDocs : gmap string ElasticsearchDocument)
    (es : ESConnection) (catalog : list (string * string)) (st : Proc) :
  (forall row, row ∈ catalog ->
     classify Unmarshal (fst row) (snd row) esDocs = (NoAction, None)) ->
  exists st',
    processDataobjects_rows Unmarshal bulkDo esDocs es (Ok <$> catalog) st
    = (st', None) /\
    indexer st' = indexer st /\
    seenEsDocs st' = markRows catalog (seenEsDocs st).
Proof.
  revert st. induction catalog as [| [id json] catalog IH]; intros st Hall.
  - by exists st.
  - rewrite fmap_cons. simpl.
    pose proof (Hall (id, json) ltac:(apply elem_of_cons; by left)) as Hrow.
    simpl in Hrow. rewrite Hrow. simpl.
    apply IH. intros row Hin. apply Hall. apply elem_of_cons. by right.
Qed.

Lemma processCollections_rows_NoAction (esDocs : gmap string ElasticsearchDocument)
    (es : ESConnection) (catalog : list (string * string)) (st : Proc) :
  (forall row, row ∈ catalog ->
     classify Unmarshal (fst row) (snd row) esDocs = (NoAction, None)) ->
  exists st',
    processCollections_rows Unmarshal bulkDo esDocs es (Ok <$> catalog) st
    = (st', None) /\
    indexer st' = indexer st /\
    seenEsDocs st' = markRows catalog (seenEsDocs st).
Proof.
  revert st. induction catalog as [| [id json] catalog IH]; intros st Hall.
  - by exists st.
  - rewrite fmap_cons. simpl.
    pose proof (Hall (id, json) ltac:(apply elem_of_cons; by left)) as Hrow.
    simpl in Hrow. rewrite Hrow. simpl.
    apply IH. intros row Hin. apply Hall. apply elem_of_cons. by right.
Qed.

Lemma processDeletions_keys_seen (esDocTypes : gmap string string)
    (es : ESConnection) (ids : list string) (st : Proc) :
  (forall id, id ∈ ids -> seen id (seenEsDocs st) = true) ->
  processDeletions_keys bulkDo esDocTypes es ids st = (st, None).
Proof.
  induction ids as [| id ids IH]; intros Hall; [done |].
  simpl. rewrite (processDeletions_body_seen bulkDo)
    by (apply Hall; apply elem_of_cons; by left).
  apply IH. intros id' Hin. apply Hall. apply elem_of_cons. by right.
Qed.

(** X5. When every row of both cursors classifies as [NoAction] and
    every snapshot key is the id of a row, a pass whose prerequisites
    succeed returns no error whatever the index would answer, and the
    only thing it hands the index is the deferred flush of an empty
    batch. *)
Theorem pass_in_sync_sends_nothing (db : ICATConnection) (es : ESConnection)
    (prefix : string) (r n : Z) (esDocs : gmap string ElasticsearchDocument)
    (esDocTypes : gmap string string) (l1 l2 l3 l4 : list LogEntry)
    (files folders : list (string * string)) :
  BeginTx db = None ->
  createUuidsTable maxInPrefix prefix db = (r, None, l1) ->
  getSearchResults maxInPrefix Unmarshal prefix es
  = (n, esDocs, esDocTypes, None, l2) ->
  createPermsTable db = (None, l3) ->
  createMetadataTable db = (None, l4) ->
  GetDataObjects db = Ok (Ok <$> files) ->
  GetCollections db = Ok (Ok <$> folders) ->
  (forall row, row ∈ files ++ folders ->
     classify Unmarshal (fst row) (snd row) esDocs = (NoAction, None)) ->
  (forall id, id ∈ rangeKeys esDocs -> id ∈ (files ++ folders).*1) ->
  err (ReindexPrefix maxInPrefix Unmarshal bulkDo rangeKeys db es prefix) = None /\
  finalIndexer (ReindexPrefix maxInPrefix Unmarshal bulkDo rangeKeys db es prefix)
  = Some (mkBulkIndexer 1000 [] [([], bulkDo 0%nat [])]).
Proof.
  intros Hb Hu Hs Hp Hm Hf Hd Hall Hkeys.
  unfold ReindexPrefix. rewrite Hb, Hu, Hs, Hp, Hm.
  unfold processDataobjects. rewrite Hf.
  match goal with
  | |- context [processDataobjects_rows _ _ _ _ _ ?s] => set (st0 := s)
  end.
  destruct (processDataobjects_rows_NoAction esDocs es files st0)
    as (sa & -> & Hia & Hsa).
  { intros row Hin. apply Hall. apply elem_of_app. by left. }
  unfold processCollections. rewrite Hd.
  match goal with
  | |- context [processCollections_rows _ _ _ _ _ ?s] => set (sa' := s)
  end.
  destruct (processCollections_rows_NoAction esDocs es folders sa')
    as (sb & -> & Hib & Hsb).
  { intros row Hin. apply Hall. apply elem_of_app. by right. }
  unfold processDeletions.
  rewrite processDeletions_keys_seen.
  2:{ intros id Hin. simpl. rewrite Hsb. subst sa'. simpl. rewrite Hsa.
      rewrite <- markRows_app. apply seen_markRows. right. by apply Hkeys. }
  unfold finishUp. simpl. rewrite Hib. subst sa'. simpl. rewrite Hia.
  subst st0. simpl.
  unfold leave_flushing. simpl. rewrite Hib. simpl. rewrite Hia. simpl.
  split; [done |]. unfold Flush. simpl. by destruct (bulkDo 0%nat []).
Qed.

(** X6. A pass returns no error whenever its transaction begins, its
    four temporary tables are created with the identifier relation
    within the cap, the search succeeds within the cap, every row of
    both cursors scans and is either not in the snapshot or decodes,
    and the index accepts every batch. *)
Theorem pass_succeeds (db : ICATConnection) (es : ESConnection)
    (prefix : string) (r n : Z) (esDocs : gmap string ElasticsearchDocument)
    (esDocTypes : gmap string string) (l1 l2 l3 l4 : list LogEntry)
    (files folders : list (string * string)) :
  BeginTx db = None ->
  createUuidsTable maxInPrefix prefix db = (r, None, l1) ->
  getSearchResults maxInPrefix Unmarshal prefix es
  = (n, esDocs, esDocTypes, None, l2) ->
  createPermsTable db = (None, l3) ->
  createMetadataTable db = (None, l4) ->
  GetDataObjects db = Ok (Ok <$> files) ->
  GetCollections db = Ok (Ok <$> folders) ->
  Forall (fun row => esDocs !! fst row = None \/
                     exists doc, Unmarshal (snd row) = Ok doc)
    (files ++ folders) ->
  (forall k batch, bulkDo k batch = None) ->
  err (ReindexPrefix maxInPrefix Unmarshal bulkDo rangeKeys db es prefix) = None.
Proof.
  intros Hb Hu Hs Hp Hm Hf Hd Hall Hacc.
  assert (Hclass : Forall (classifiable Unmarshal esDocs) (files ++ folders)).
  { eapply Forall_impl; [exact Hall |]. intros [id json] [Hnone | [doc Hdoc]];
      unfold classifiable, classify; simpl in *.
    - by rewrite Hnone.
    - destruct (esDocs !! id) as [indexed |]; [| done]. rewrite Hdoc.
      by destruct (Equal doc indexed). }
  apply Forall_app in Hclass as [Hcf Hcd].
  unfold ReindexPrefix. rewrite Hb, Hu, Hs, Hp, Hm.
  unfold processDataobjects. rewrite Hf.
  match goal with
  | |- context [processDataobjects_rows _ _ _ _ _ ?s] =>
      pose proof (processDataobjects_rows_accepted Unmarshal bulkDo esDocs es
                    files s Hacc Hcf) as Ha;
      destruct (processDataobjects_rows Unmarshal bulkDo esDocs es (Ok <$> files) s)
        as [sa [ea |]]; [discriminate |]
  end.
  unfold processCollections. rewrite Hd.
  match goal with
  | |- context [processCollections_rows _ _ _ _ _ ?s] =>
      pose proof (processCollections_rows_accepted Unmarshal bulkDo esDocs es
                    folders s Hacc Hcd) as Hc;
      destruct (processCollections_rows Unmarshal bulkDo esDocs es (Ok <$> folders) s)
        as [sb [eb |]]; [discriminate |]
  end.
  unfold processDeletions.
  match goal with
  | |- context [processDeletions_keys _ _ _ ?ids ?s] =>
      pose proof (processDeletions_keys_accepted bulkDo esDocTypes es ids s Hacc)
        as Hk;
      destruct (processDeletions_keys bulkDo esDocTypes es ids s)
        as [sc [ec |]]; [discriminate |]
  end.
  unfold finishUp.
  match goal with
  | |- context [CanFlush ?b] => destruct (CanFlush b); [| done]
  end.
  match goal with
  | |- context [Flush bulkDo ?b] =>
      pose proof (Flush_result bulkDo b) as Hfl;
      destruct (Flush bulkDo b) as [b' [ef |]]; [| done]
  end.
  simpl in Hfl. by rewrite Hacc in Hfl.
Qed.

End PassProgress.

(** The first catalog against the first index: one index request for
    [u2], one delete for [u3], nothing for [u4]. *)
Lemma pass_sends_the_difference_witness :
  exists b,
    finalIndexer (ReindexPrefix Scenario.cap Scenario.decode Scenario.accept
                    Scenario.keysOf Scenario.db1 Scenario.es1 "u")
    = Some b /\
    buffered b = [] /\
    concat (sent b)
    = [BulkIndexRequest "data" "file" "u2" "{u2,dateModified:100}";
       BulkDeleteRequest "data" "folder" "u3"].
Proof.
  destruct (pass_sends_the_difference Scenario.cap Scenario.decode
              Scenario.accept Scenario.keysOf Scenario.db1 Scenario.es1 "u"
              3 Scenario.snapshot_docs Scenario.types1 None
              [Debugf "Got %d documents for prefix %s (ES)" [AInt 3; AStr "u"]]
              [("u2", "{u2,dateModified:100}"); ("u4", "{u4}")] [])
    as (b & Hb & Hbuf & Hsent).
  - vm_compute. reflexivity.
  - vm_compute. reflexivity.
  - reflexivity.
  - reflexivity.
  - exists b. split; [exact Hb |]. split; [exact Hbuf |].
    rewrite Hsent. vm_compute. reflexivity.
Defined.

(** The same pass: two rows and three documents, two processed, one
    updated, one folder removed. *)
Lemma pass_statistics_witness :
  finalStats (ReindexPrefix Scenario.cap Scenario.decode Scenario.accept
                Scenario.keysOf Scenario.db1 Scenario.es1 "u")
  = mkRows 2 3 2 2 0 1 0 0 0 0 1.
Proof.
  destruct (pass_statistics Scenario.cap Scenario.decode
              Scenario.accept Scenario.keysOf Scenario.db1 Scenario.es1 "u"
              2 3 Scenario.snapshot_docs Scenario.types1 None None
              [Debugf "Got %d rows for prefix %s (note that this may include stale unused metadata)"
                 [AInt 2; AStr "u"]]
              [Debugf "Got %d documents for prefix %s (ES)" [AInt 3; AStr "u"]]
              [("u2", "{u2,dateModified:100}"); ("u4", "{u4}")] [])
    as (_ & _ & Hstats).
  - vm_compute. reflexivity.
  - reflexivity.
  - vm_compute. reflexivity.
  - reflexivity.
  - reflexivity.
  - rewrite Hstats. vm_compute. reflexivity.
Defined.

(** A catalog that agrees with the index, against an index that would
    refuse every batch. *)
Lemma pass_in_sync_sends_nothing_witness :
  err (ReindexPrefix Scenario.cap Scenario.decode Scenario.refuse
         Scenario.keysOf Scenario.db_sync Scenario.es1 "u") = None /\
  finalIndexer (ReindexPrefix Scenario.cap Scenario.decode Scenario.refuse
                  Scenario.keysOf Scenario.db_sync Scenario.es1 "u")
  = Some (mkBulkIndexer 1000 []
            [([], Some (ErrExternal "connection refused"))]).
Proof.
  apply (pass_in_sync_sends_nothing Scenario.cap Scenario.decode
           Scenario.refuse Scenario.keysOf Scenario.db_sync Scenario.es1 "u"
           3 3 Scenario.snapshot_docs Scenario.types1
           [Debugf "Got %d rows for prefix %s (note that this may include stale unused metadata)"
              [AInt 3; AStr "u"]]
           [Debugf "Got %d documents for prefix %s (ES)" [AInt 3; AStr "u"]]
           [Debugf "Got %d rows for perms" [AInt 3]]
           [Debugf "Got %d rows for metadata" [AInt 3]]
           [("u2", "{u2,dateModified:90}"); ("u4", "{u4}")] [("u3", "{u3}")]).
  - reflexivity.
  - reflexivity.
  - vm_compute. reflexivity.
  - reflexivity.
  - reflexivity.
  - reflexivity.
  - reflexivity.
  - intros row Hin. simpl in Hin.
    repeat (apply elem_of_cons in Hin as [-> | Hin]; [vm_compute; reflexivity |]).
    by apply not_elem_of_nil in Hin.
  - intros id Hin.
    let keys := eval vm_compute in (Scenario.keysOf Scenario.snapshot_docs) in
    change (Scenario.keysOf Scenario.snapshot_docs) with keys in Hin.
    simpl.
    repeat (apply elem_of_cons in Hin as [-> | Hin];
            [rewrite !elem_of_cons; tauto |]).
    by apply not_elem_of_nil in Hin.
Defined.

(** The first catalog against the first index, which accepts. *)
Lemma pass_succeeds_witness :
  err (ReindexPrefix Scenario.cap Scenario.decode Scenario.accept
         Scenario.keysOf Scenario.db1 Scenario.es1 "u") = None.
Proof.
  apply (pass_succeeds Scenario.cap Scenario.decode
           Scenario.accept Scenario.keysOf Scenario.db1 Scenario.es1 "u"
           2 3 Scenario.snapshot_docs Scenario.types1
           [Debugf "Got %d rows for prefix %s (note that this may include stale unused metadata)"
              [AInt 2; AStr "u"]]
           [Debugf "Got %d documents for prefix %s (ES)" [AInt 3; AStr "u"]]
           [Debugf "Got %d rows for perms" [AInt 2]]
           [Debugf "Got %d rows for metadata" [AInt 2]]
           [("u2", "{u2,dateModified:100}"); ("u4", "{u4}")] []).
  - reflexivity.
  - reflexivity.
  - vm_compute. reflexivity.
  - reflexivity.
  - reflexivity.
  - reflexivity.
  - reflexivity.
  - simpl. constructor; [right; eexists; reflexivity |].
    constructor; [right; eexists; reflexivity |]. constructor.
  - reflexivity.
Defined.

(** ** Every way out of a pass *)

Section ExitFacts.

Variable maxInPrefix : Z.
Variable Unmarshal : string -> result ElasticsearchDocument.
Variable bulkDo : nat -> list BulkOp -> option error.
Variable rangeKeys : gmap string ElasticsearchDocument -> list string.

(** X7. A pass creates its accumulator exactly when the transaction
    begins, [createUuidsTable], [getSearchResults], [createPermsTable]
    and [createMetadataTable] all return no error. A pass that ends
    without accumulator returns an error, has marked no id seen, and
    reports statistics in which only the row and document counts can
    be other than zero. *)
Theorem prerequisites_gate_the_accumulator (db : ICATConnection)
    (es : ESConnection) (prefix : string) :
  let o := ReindexPrefix maxInPrefix Unmarshal bulkDo rangeKeys db es prefix in
  (is_Some (finalIndexer o) <->
   BeginTx db = None /\
   snd (fst (createUuidsTable maxInPrefix prefix db)) = None /\
   snd (fst (getSearchResults maxInPrefix Unmarshal prefix es)) = None /\
   fst (createPermsTable db) = None /\
   fst (createMetadataTable db) = None) /\
  (finalIndexer o = None ->
   is_Some (err o) /\ finalSeen o = ∅ /\
   finalStats o
   = set_documents (documents (finalStats o)) (set_rows (rows (finalStats o)) zero_rows)).
Proof.
  intros o. subst o. unfold ReindexPrefix.
  destruct (BeginTx db) as [e0 |].
  { simpl. split; [| by eauto]. split; [by intros [? ?] | by intros [? _]]. }
  destruct (createUuidsTable _ _ _) as [[r [e |]] l1].
  { simpl. split; [| by eauto]. split; [by intros [? ?] | by intros (_ & ? & _)]. }
  destruct (getSearchResults _ _ _ _) as [[[[n esDocs] esDocTypes] [e |]] l2].
  { simpl. split; [| by eauto].
    split; [by intros [? ?] | by intros (_ & _ & ? & _)]. }
  destruct (createPermsTable db) as [[e |] l3].
  { simpl. split; [| by eauto].
    split; [by intros [? ?] | by intros (_ & _ & _ & ? & _)]. }
  destruct (createMetadataTable db) as [[e |] l4].
  { simpl. split; [| by eauto].
    split; [by intros [? ?] | by intros (_ & _ & _ & _ & ?)]. }
  assert (Hfl : forall e st,
    is_Some (finalIndexer (leave_flushing bulkDo e st)) /\
    finalIndexer (leave_flushing bulkDo e st) <> None).
  { intros e st. simpl. split; [by eexists | done]. }
  destruct (processDataobjects _ _ _ _ _ _) as [sa [e |]];
    [destruct (Hfl (Some e) sa); simpl; split; [tauto | done] |].
  destruct (processCollections _ _ _ _ _ _) as [sb [e |]];
    [destruct (Hfl (Some e) sb); simpl; split; [tauto | done] |].
  destruct (processDeletions _ _ _ _ _ _) as [sc [e |]];
    [destruct (Hfl (Some e) sc); simpl; split; [tauto | done] |].
  destruct (finishUp bulkDo sc) as [sd [e |]];
    [destruct (Hfl (Some e) sd) | destruct (Hfl None sd)];
    simpl; split; try tauto; done.
Qed.

Lemma grows_refl (st : Proc) : grows st st.
Proof. exists []. by rewrite app_nil_r. Qed.

Lemma grows_trans (st1 st2 st3 : Proc) :
  grows st1 st2 -> grows st2 st3 -> grows st1 st3.
Proof.
  intros (l1 & H1 & Q1) (l2 & H2 & Q2). exists (l1 ++ l2).
  split; [by rewrite H2, H1, app_assoc | by apply Forall_app].
Qed.

Lemma grows_same (st st' : Proc) : logged st' = logged st -> grows st st'.
Proof. intros H. exists []. by rewrite H, app_nil_r. Qed.

Lemma grows_say (lv : Level) (fmt : string) (a : list Arg) (st st' : Proc) :
  lv <> InfoLevel -> logged st' = logged st ++ [mkLog lv fmt a] -> grows st st'.
Proof. intros Hlv H. exists [mkLog lv fmt a]. split; [done |]. by constructor. Qed.

Local Hint Resolve grows_refl : core.

Lemma processDataobjects_rows_grows (esDocs : gmap string ElasticsearchDocument)
    (es : ESConnection) (cursor : list Row) (st : Proc) :
  grows st (fst (processDataobjects_rows Unmarshal bulkDo esDocs es cursor st)).
Proof.
  revert st. induction cursor as [| row cursor IH]; intros st; simpl; [done |].
  destruct row as [[id selectedJSON] | e]; [| done].
  destruct (classify _ _ _ _) as [c [e |]]; [by apply grows_same |].
  destruct c; simpl.
  - eapply grows_trans; [| apply IH]. by apply grows_same.
  - destruct (index _ _ _ _ _ _) as [b [e |]]; simpl.
    + by eapply (grows_say DebugLevel).
    + eapply grows_trans; [| apply IH]. by eapply (grows_say DebugLevel).
  - destruct (index _ _ _ _ _ _) as [b [e |]]; simpl.
    + by eapply (grows_say DebugLevel).
    + eapply grows_trans; [| apply IH]. by eapply (grows_say DebugLevel).
Qed.

Lemma processCollections_rows_grows (esDocs : gmap string ElasticsearchDocument)
    (es : ESConnection) (cursor : list Row) (st : Proc) :
  grows st (fst (processCollections_rows Unmarshal bulkDo esDocs es cursor st)).
Proof.
  revert st. induction cursor as [| row cursor IH]; intros st; simpl; [done |].
  destruct row as [[id selectedJSON] | e]; [| done].
  destruct (classify _ _ _ _) as [c [e |]]; [by apply grows_same |].
  destruct c; simpl.
  - eapply grows_trans; [| apply IH]. by apply grows_same.
  - destruct (index _ _ _ _ _ _) as [b [e |]]; simpl.
    + by eapply (grows_say DebugLevel).
    + eapply grows_trans; [| apply IH]. by eapply (grows_say DebugLevel).
  - destruct (index _ _ _ _ _ _) as [b [e |]]; simpl.
    + by eapply (grows_say DebugLevel).
    + eapply grows_trans; [| apply IH]. by eapply (grows_say DebugLevel).
Qed.

Lemma processDataobjects_grows (esDocs : gmap string ElasticsearchDocument)
    (es : ESConnection) (tx : ICATConnection) (st : Proc) :
  grows st (fst (processDataobjects Unmarshal bulkDo esDocs es tx st)).
Proof.
  unfold processDataobjects. destruct (GetDataObjects tx) as [cursor | e]; [| done].
  pose proof (processDataobjects_rows_grows esDocs es cursor st) as H.
  destruct (processDataobjects_rows _ _ _ _ _ _) as [st1 [e |]]; [done |].
  eapply grows_trans; [exact H |]. by eapply (grows_say DebugLevel).
Qed.

Lemma processCollections_grows (esDocs : gmap string ElasticsearchDocument)
    (es : ESConnection) (tx : ICATConnection) (st : Proc) :
  grows st (fst (processCollections Unmarshal bulkDo esDocs es tx st)).
Proof.
  unfold processCollections. destruct (GetCollections tx) as [cursor | e]; [| done].
  pose proof (processCollections_rows_grows esDocs es cursor st) as H.
  destruct (processCollections_rows _ _ _ _ _ _) as [st1 [e |]]; [done |].
  eapply grows_trans; [exact H |]. by eapply (grows_say DebugLevel).
Qed.

Lemma removalLog_quiet (esDocTypes : gmap string string) (id : string) :
  Forall (fun x => level x <> InfoLevel) (removalLog esDocTypes id).
Proof.
  unfold removalLog. apply Forall_app. split.
  - destruct (esDocTypes !! id); by repeat constructor.
  - simpl. repeat case_bool_decide; by repeat constructor.
Qed.

Lemma processDeletions_keys_grows (esDocTypes : gmap string string)
    (es : ESConnection) (ids : list string) (st : Proc) :
  grows st (fst (processDeletions_keys bulkDo esDocTypes es ids st)).
Proof.
  revert st. induction ids as [| id ids IH]; intros st; simpl; [done |].
  destruct (seen id (seenEsDocs st)) eqn:Hs.
  - rewrite (processDeletions_body_seen bulkDo _ _ _ _ Hs). apply IH.
  - rewrite (processDeletions_body_unseen bulkDo _ _ _ _ Hs).
    assert (Hstep : forall b,
      grows st (mkProc (countRemoval esDocTypes id (stats st)) (seenEsDocs st) b
                  (logged st ++ removalLog esDocTypes id))).
    { intros b. exists (removalLog esDocTypes id).
      split; [done | apply removalLog_quiet]. }
    destruct (snd (Add bulkDo (indexer st) _)); simpl; [apply Hstep |].
    eapply grows_trans; [apply Hstep | apply IH].
Qed.

Lemma processDeletions_grows (esDocs : gmap string ElasticsearchDocument)
    (esDocTypes : gmap string string) (es : ESConnection) (st : Proc) :
  grows st (fst (processDeletions bulkDo rangeKeys esDocs esDocTypes es st)).
Proof.
  unfold processDeletions.
  pose proof (processDeletions_keys_grows esDocTypes es (rangeKeys esDocs) st) as H.
  destruct (processDeletions_keys _ _ _ _ _) as [st1 [e |]]; [done |].
  eapply grows_trans; [exact H |]. by eapply (grows_say DebugLevel).
Qed.

Lemma finishUp_grows (st : Proc) : grows st (fst (finishUp bulkDo st)).
Proof.
  unfold finishUp. destruct (CanFlush (indexer st)); [| done].
  destruct (Flush bulkDo (indexer st)) as [b [e |]]; by apply grows_same.
Qed.

Lemma createUuidsTable_quiet (prefix : string) (tx : ICATConnection) :
  Forall (fun x => level x <> InfoLevel)
    (snd (createUuidsTable maxInPrefix prefix tx)).
Proof.
  unfold createUuidsTable, createBaseUuidsTable.
  destruct (CreateTemporaryTable tx "base_object_uuids"); [| done].
  case_bool_decide; [done |].
  destruct (CreateTemporaryTable tx "object_uuids"); by repeat constructor.
Qed.

Lemma getSearchResults_quiet (prefix : string) (es : ESConnection) :
  Forall (fun x => level x <> InfoLevel)
    (snd (getSearchResults maxInPrefix Unmarshal prefix es)).
Proof.
  unfold getSearchResults. destruct (Search es prefix); [| done].
  case_bool_decide; by repeat constructor.
Qed.

Lemma createPermsTable_quiet (tx : ICATConnection) :
  Forall (fun x => level x <> InfoLevel) (snd (createPermsTable tx)).
Proof.
  unfold createPermsTable.
  destruct (CreateTemporaryTable tx "object_perms"); by repeat constructor.
Qed.

Lemma createMetadataTable_quiet (tx : ICATConnection) :
  Forall (fun x => level x <> InfoLevel) (snd (createMetadataTable tx)).
Proof.
  unfold createMetadataTable.
  destruct (CreateTemporaryTable tx "object_metadata"); by repeat constructor.
Qed.

Lemma leave_reports (e : option error) (rs : rowMetadata) (begun : bool)
    (first : LogEntry) (lq : list LogEntry) :
  Forall (fun x => level x <> InfoLevel) lq ->
  exists l,
    finalLog (leave e rs (first :: lq) begun)
    = first :: l ++ [logTime (finalStats (leave e rs (first :: lq) begun))] /\
    Forall (fun x => level x <> InfoLevel) l.
Proof. intros Hq. by exists lq. Qed.

Lemma leave_flushing_reports (e : option error) (st0 st : Proc)
    (first : LogEntry) (lq : list LogEntry) :
  logged st0 = first :: lq ->
  Forall (fun x => level x <> InfoLevel) lq ->
  grows st0 st ->
  exists l,
    finalLog (leave_flushing bulkDo e st)
    = first :: l ++ [logTime (finalStats (leave_flushing bulkDo e st))] /\
    Forall (fun x => level x <> InfoLevel) l.
Proof.
  intros H0 Hq (l & Hl & Hql). exists (lq ++ l). simpl.
  rewrite Hl, H0. split; [done | by apply Forall_app].
Qed.

(** X8. On every way out of a pass the log starts with the line
    ["Indexing prefix"] and ends with the summary line of [logTime]
    for the statistics the pass ends with, and no line between them is
    at info level; and the transaction is rolled back exactly when it
    was begun. *)
Theorem pass_always_reports (db : ICATConnection) (es : ESConnection)
    (prefix : string) :
  let o := ReindexPrefix maxInPrefix Unmarshal bulkDo rangeKeys db es prefix in
  (rolledBack o = true <-> BeginTx db = None) /\
  exists l,
    finalLog o
    = Debugf "Indexing prefix %s" [AStr prefix] :: l ++ [logTime (finalStats o)] /\
    Forall (fun x => level x <> InfoLevel) l.
Proof.
  intros o. subst o. unfold ReindexPrefix.
  destruct (BeginTx db) as [e0 |].
  { split; [done |]. by apply (leave_reports _ _ _ _ []). }
  pose proof (createUuidsTable_quiet prefix db) as Q1.
  destruct (createUuidsTable _ _ _) as [[r [e |]] l1]; simpl in Q1.
  { split; [done |]. by apply leave_reports. }
  pose proof (getSearchResults_quiet prefix es) as Q2.
  destruct (getSearchResults _ _ _ _) as [[[[n esDocs] esDocTypes] [e |]] l2];
    simpl in Q2.
  { split; [done |]. simpl app. apply leave_reports. by apply Forall_app. }
  pose proof (createPermsTable_quiet db) as Q3.
  destruct (createPermsTable db) as [[e |] l3]; simpl in Q3.
  { split; [done |]. simpl app. apply leave_reports. by rewrite !Forall_app. }
  pose proof (createMetadataTable_quiet db) as Q4.
  destruct (createMetadataTable db) as [[e |] l4]; simpl in Q4.
  { split; [done |]. simpl app. apply leave_reports. by rewrite !Forall_app. }
  match goal with
  | |- context [processDataobjects _ _ _ _ _ ?s] => set (st0 := s)
  end.
  assert (H0 : logged st0
               = Debugf "Indexing prefix %s" [AStr prefix]
                 :: (((l1 ++ l2) ++ l3) ++ l4)) by done.
  assert (Q0 : Forall (fun x => level x <> InfoLevel) (((l1 ++ l2) ++ l3) ++ l4))
    by (by rewrite !Forall_app).
  pose proof (processDataobjects_grows esDocs es db st0) as Ga.
  destruct (processDataobjects _ _ _ _ _ _) as [sa [e |]]; simpl in Ga.
  { split; [done |]. by apply (leave_flushing_reports _ st0 _ _ _ H0 Q0). }
  pose proof (grows_trans _ _ _ Ga (processCollections_grows esDocs es db sa)) as Gb.
  destruct (processCollections _ _ _ _ _ _) as [sb [e |]]; simpl in Gb.
  { split; [done |]. by apply (leave_flushing_reports _ st0 _ _ _ H0 Q0). }
  pose proof (grows_trans _ _ _ Gb (processDeletions_grows esDocs esDocTypes es sb))
    as Gc.
  destruct (processDeletions _ _ _ _ _ _) as [sc [e |]]; simpl in Gc.
  { split; [done |]. by apply (leave_flushing_reports _ st0 _ _ _ H0 Q0). }
  pose proof (grows_trans _ _ _ Gc (finishUp_grows sc)) as Gd.
  destruct (finishUp bulkDo sc) as [sd [e |]]; simpl in Gd;
    (split; [done |]); by apply (leave_flushing_reports _ st0 _ _ _ H0 Q0).
Qed.

End ExitFacts.

(** ** More on the document comparison *)

Lemma NewSetFromSlice_eq_iff `{Countable A} (l k : list A) :
  NewSetFromSlice l = NewSetFromSlice k <-> forall x, x ∈ l <-> x ∈ k.
Proof.
  unfold NewSetFromSlice. split.
  - intros Heq x. by rewrite <- !(elem_of_list_to_set (C := gset A)), Heq.
  - intros Hx. apply set_eq. intros x. rewrite !elem_of_list_to_set. apply Hx.
Qed.

(** X9. [metadataEqual] and [permsEqual] hold exactly when the two
    slices have the same elements, whatever their order and
    repetitions; so an empty (or nil) slice compares equal only to an
    empty one. *)
Theorem list_comparisons_by_membership :
  (forall one two : list Metadatum,
      metadataEqual one two = true <-> forall x, x ∈ one <-> x ∈ two) /\
  (forall one two : list UserPermission,
      permsEqual one two = true <-> forall x, x ∈ one <-> x ∈ two) /\
  (forall two : list Metadatum, metadataEqual [] two = true <-> two = []) /\
  (forall two : list UserPermission, permsEqual [] two = true <-> two = []).
Proof.
  assert (Hm : forall one two : list Metadatum,
      metadataEqual one two = true <-> forall x, x ∈ one <-> x ∈ two).
  { intros one two. unfold metadataEqual, set_Equal.
    rewrite <- NewSetFromSlice_eq_iff. case_bool_decide; simpl; split; done. }
  assert (Hp : forall one two : list UserPermission,
      permsEqual one two = true <-> forall x, x ∈ one <-> x ∈ two).
  { intros one two. unfold permsEqual, set_Equal.
    rewrite <- NewSetFromSlice_eq_iff. case_bool_decide; simpl; split; done. }
  split; [exact Hm |]. split; [exact Hp |]. split.
  - intros two. rewrite Hm. split.
    + intros Hx. destruct two as [| y two]; [done |].
      exfalso. apply (not_elem_of_nil y). apply Hx. by left.
    + by intros ->.
  - intros two. rewrite Hp. split.
    + intros Hx. destruct two as [| y two]; [done |].
      exfalso. apply (not_elem_of_nil y). apply Hx. by left.
    + by intros ->.
Qed.

(** X10. Documents that are [Equal] are interchangeable for [Equal]:
    if [a] and [b] are equal then each compares with any third
    document as the other does. In particular [Equal] is transitive,
    and with reflexivity and symmetry an equivalence. *)
Theorem Equal_congruence (a b c : ElasticsearchDocument) :
  Equal a b = true ->
  Equal a c = Equal b c /\ Equal c a = Equal c b /\
  (Equal b c = true -> Equal a c = true).
Proof.
  intros Hab. apply Equal_true_iff in Hab as (Hs & Hm & Hp).
  assert (H1 : Equal a c = Equal b c).
  { apply eq_true_iff_eq. rewrite !Equal_true_iff, Hs, Hm, Hp. tauto. }
  assert (H2 : Equal c a = Equal c b).
  { apply eq_true_iff_eq. rewrite !Equal_true_iff, Hs, Hm, Hp. tauto. }
  split; [exact H1 |]. split; [exact H2 |]. by rewrite H1.
Qed.

(** [u4] and its reordered form against the older [u2]. *)
Lemma Equal_congruence_witness :
  Equal Scenario.u4 Scenario.u2_old = Equal Scenario.u4_reordered Scenario.u2_old /\
  Equal Scenario.u2_old Scenario.u4 = Equal Scenario.u2_old Scenario.u4_reordered.
Proof.
  destruct (Equal_congruence Scenario.u4 Scenario.u4_reordered Scenario.u2_old)
    as (H1 & H2 & _).
  - vm_compute. reflexivity.
  - split; [exact H1 | exact H2].
Defined.

(** Reordered metadata with an entry repeated, and an empty list. *)
Lemma list_comparisons_by_membership_witness :
  metadataEqual [Scenario.m1; Scenario.m2] [Scenario.m2; Scenario.m1; Scenario.m2]
  = true /\
  permsEqual [] [Scenario.p1] <> true.
Proof.
  destruct list_comparisons_by_membership as (Hm & _ & _ & Hp).
  split.
  - apply Hm. intros x. rewrite !elem_of_cons. tauto.
  - rewrite Hp. discriminate.
Defined.

(** ** More on the snapshot and the classifier *)

Section SnapshotProvenance.

Variable maxInPrefix : Z.
Variable Unmarshal : string -> result ElasticsearchDocument.

Lemma addHits_snoc (hits : list SearchHit) (h : SearchHit)
    (acc : gmap string ElasticsearchDocument * gmap string string) :
  fold_left (addHit Unmarshal) (hits ++ [h]) acc
  = addHit Unmarshal (fold_left (addHit Unmarshal) hits acc) h.
Proof. by rewrite fold_left_app. Qed.

Lemma addHits_provenance (hits : list SearchHit) (id : string) :
  let maps := fold_left (addHit Unmarshal) hits (∅, ∅) in
  (fst maps !! id = None /\ snd maps !! id = None) \/
  (exists h d, h ∈ hits /\ hitId h = id /\ Unmarshal (Source h) = Ok d /\
               fst maps !! id = Some d /\ snd maps !! id = Some (hitType h)).
Proof.
  induction hits as [| h hits IH] using rev_ind; simpl.
  - left. by rewrite !lookup_empty.
  - rewrite addHits_snoc. unfold addHit at 1 3 5 7.
    destruct (Unmarshal (Source h)) as [d |] eqn:Hd; simpl.
    + destruct (decide (hitId h = id)) as [<- | Hne].
      * right. exists h, d. rewrite !lookup_insert_eq.
        repeat split; try done. apply elem_of_app. right. by left.
      * rewrite !lookup_insert_ne by done.
        destruct IH as [IH | (h' & d' & Hin & IH)]; [by left | right].
        exists h', d'. split; [| done]. apply elem_of_app. by left.
    + destruct IH as [IH | (h' & d' & Hin & IH)]; [by left | right].
      exists h', d'. split; [| done]. apply elem_of_app. by left.
Qed.

Lemma addHits_size (hits : list SearchHit) :
  (size (fst (fold_left (addHit Unmarshal) hits (∅, ∅))) <= length hits)%nat.
Proof.
  induction hits as [| h hits IH] using rev_ind; simpl.
  - by rewrite map_size_empty.
  - rewrite addHits_snoc, length_app. simpl.
    set (acc := fold_left (addHit Unmarshal) hits (∅, ∅)) in *.
    unfold addHit. destruct (Unmarshal (Source h)) as [d |]; simpl; [| lia].
    rewrite map_size_insert. destruct (fst acc !! hitId h); simpl; lia.
Qed.

(** X11. In a snapshot that [getSearchResults] returns without error,
    the document and the type recorded for an id come from one and the
    same hit: a hit of the search with that id whose source decodes to
    that document and whose type is the recorded one. The snapshot has
    at most as many entries as the search has hits, and the count
    returned is the total that the search reports, within the cap. *)
Theorem snapshot_provenance (prefix : string) (es : ESConnection)
    (search : SearchResult) (n : Z)
    (esDocs : gmap string ElasticsearchDocument)
    (esDocTypes : gmap string string) (l : list LogEntry) :
  Search es prefix = Ok search ->
  getSearchResults maxInPrefix Unmarshal prefix es
  = (n, esDocs, esDocTypes, None, l) ->
  n = TotalHits search /\ n <= maxInPrefix /\
  (size esDocs <= length (Hits search))%nat /\
  forall id d,
    esDocs !! id = Some d ->
    exists h, h ∈ Hits search /\ hitId h = id /\
              Unmarshal (Source h) = Ok d /\
              esDocTypes !! id = Some (hitType h).
Proof.
  intros Hs Hres. unfold getSearchResults in Hres. rewrite Hs in Hres.
  case_bool_decide; [done |]. injection Hres as <- <- <- _.
  split; [done |]. split; [lia |]. split; [apply addHits_size |].
  intros id d Hd.
  destruct (addHits_provenance (Hits search) id)
    as [[Hnone _] | (h & d' & Hin & Hid & Hdec & Hdoc & Htype)];
    simpl in *.
  - congruence.
  - exists h. rewrite Hdoc in Hd. injection Hd as ->. done.
Qed.

(** X12. [classify] returns an error exactly when the id is in the
    snapshot and the text does not decode, and the error is the
    decoder's; it answers [IndexDocument] exactly when the id is not in
    the snapshot, whatever the text. *)
Theorem classify_outcomes (id jsonstr : string)
    (esDocs : gmap string ElasticsearchDocument) :
  (forall e, snd (classify Unmarshal id jsonstr esDocs) = Some e <->
             is_Some (esDocs !! id) /\ Unmarshal jsonstr = Err e) /\
  (fst (classify Unmarshal id jsonstr esDocs) = IndexDocument <->
   esDocs !! id = None).
Proof.
  unfold classify. destruct (esDocs !! id) as [indexed |]; simpl.
  - destruct (Unmarshal jsonstr) as [doc | e'].
    + destruct (Equal doc indexed); simpl; split; try done;
        intros e; split; try done; by intros [_ ?].
    + simpl. split; [| done]. intros e. split.
      * intros [= ->]. split; [by eexists | done].
      * by intros [_ [= ->]].
  - split; [| done]. intros e. split; [done | by intros [[? ?] _]].
Qed.

End SnapshotProvenance.

(** The snapshot of the first index, and three classifications. *)
Lemma snapshot_provenance_witness :
  exists h, h ∈ [Scenario.hit_u2; Scenario.hit_u3; Scenario.hit_u4] /\
            hitId h = "u3" /\
            Scenario.decode (Source h) = Ok Scenario.u3 /\
            Scenario.types1 !! "u3" = Some (hitType h).
Proof.
  destruct (snapshot_provenance Scenario.cap Scenario.decode "u" Scenario.es1
              (mkSearchResult 3 [Scenario.hit_u2; Scenario.hit_u3; Scenario.hit_u4])
              3 Scenario.snapshot_docs Scenario.types1
              [Debugf "Got %d documents for prefix %s (ES)" [AInt 3; AStr "u"]])
    as (_ & _ & _ & Hprov).
  - reflexivity.
  - vm_compute. reflexivity.
  - apply (Hprov "u3" Scenario.u3). reflexivity.
Defined.

Lemma classify_outcomes_witness :
  snd (classify Scenario.decode "u2" "{u2" Scenario.snapshot_docs)
  = Some (ErrExternal "invalid character") /\
  fst (classify Scenario.decode "u1" "{u1" Scenario.snapshot_docs)
  = IndexDocument.
Proof.
  split.
  - apply (proj1 (classify_outcomes Scenario.decode "u2" "{u2"
                    Scenario.snapshot_docs)).
    split; [by eexists | reflexivity].
  - apply (proj2 (classify_outcomes Scenario.decode "u1" "{u1"
                    Scenario.snapshot_docs)).
    reflexivity.
Defined.

(** ** What a pass never sends *)

Section Justified.

Variable maxInPrefix : Z.
Variable Unmarshal : string -> result ElasticsearchDocument.
Variable bulkDo : nat -> list BulkOp -> option error.
Variable rangeKeys : gmap string ElasticsearchDocument -> list string.

Lemma rowClass_acts (esDocs : gmap string ElasticsearchDocument)
    (id json : string) :
  classifiable Unmarshal esDocs (id, json) ->
  rowClass Unmarshal esDocs (id, json) <> NoAction ->
  esDocs !! id = None \/
  exists indexed d,
    esDocs !! id = Some indexed /\ Unmarshal json = Ok d /\
    Equal d indexed = false.
Proof.
  unfold classifiable, rowClass, classify. simpl.
  destruct (esDocs !! id) as [indexed |]; [| by left].
  destruct (Unmarshal json) as [d | e]; [| done].
  destruct (Equal d indexed) eqn:He; simpl; [done |].
  intros _ _. right. by exists indexed, d.
Qed.

Lemma indexOps_justified (esDocs : gmap string ElasticsearchDocument)
    (es : ESConnection) (t : string) (catalog : list (string * string))
    (op : BulkOp) :
  Forall (classifiable Unmarshal esDocs) catalog ->
  op ∈ indexOps Unmarshal esDocs es t catalog ->
  exists id json,
    op = BulkIndexRequest (index_name es) t id json /\
    (id, json) ∈ catalog /\
    (esDocs !! id = None \/
     exists indexed d,
       esDocs !! id = Some indexed /\ Unmarshal json = Ok d /\
       Equal d indexed = false).
Proof.
  intros Hall Hop. unfold indexOps in Hop.
  apply list_elem_of_omap in Hop as ([id json] & Hin & Hrow).
  exists id, json.
  rewrite Forall_forall in Hall. specialize (Hall _ Hin).
  assert (Hact : rowClass Unmarshal esDocs (id, json) <> NoAction)
    by (intros Hc; by rewrite Hc in Hrow).
  split; [| split; [done | by apply rowClass_acts]].
  destruct (rowClass Unmarshal esDocs (id, json)); simpl in Hrow; congruence.
Qed.

(** X13. Every operation of the batches that a pass without error has
    sent is justified. An index request carries the id and the text of
    a row of the cursor of its type, and that id is not in the
    snapshot or the text decodes to a document not [Equal] to the
    indexed one. A delete carries a key of the snapshot that is the id
    of no row of either cursor, with the recorded type or ["file"]. So
    the pass deletes nothing the catalog has and rewrites nothing that
    is unchanged. *)
Theorem pass_operations_are_justified (db : ICATConnection) (es : ESConnection)
    (prefix : string) (n : Z) (esDocs : gmap string ElasticsearchDocument)
    (esDocTypes : gmap string string) (e : option error) (l : list LogEntry)
    (files folders : list (string * string)) (b : BulkIndexer) :
  err (ReindexPrefix maxInPrefix Unmarshal bulkDo rangeKeys db es prefix) = None ->
  rangeKeys esDocs ≡ₚ elements (dom esDocs) ->
  getSearchResults maxInPrefix Unmarshal prefix es = (n, esDocs, esDocTypes, e, l) ->
  GetDataObjects db = Ok (Ok <$> files) ->
  GetCollections db = Ok (Ok <$> folders) ->
  finalIndexer (ReindexPrefix maxInPrefix Unmarshal bulkDo rangeKeys db es prefix)
  = Some b ->
  forall op, op ∈ concat (sent b) ->
    match op with
    | BulkIndexRequest idx t id doc =>
        idx = index_name es /\
        ((t = "file" /\ (id, doc) ∈ files) \/
         (t = "folder" /\ (id, doc) ∈ folders)) /\
        (esDocs !! id = None \/
         exists indexed d,
           esDocs !! id = Some indexed /\ Unmarshal doc = Ok d /\
           Equal d indexed = false)
    | BulkDeleteRequest idx t id =>
        idx = index_name es /\
        is_Some (esDocs !! id) /\
        (id ∉ (files ++ folders).*1) /\
        t = default "file" (esDocTypes !! id)
    end.
Proof.
  intros Hok Hperm Hs Hf Hd Hb op Hop.
  apply ReindexPrefix_effect in Hok
    as (r & n' & esDocs' & esDocTypes' & l1 & l2 & files' & folders' & sd
        & _ & Hs' & Hf' & Hd' & Hall & Ho & Hbuf & _ & Henq & _).
  rewrite Hs in Hs'. injection Hs' as -> -> -> -> ->.
  rewrite Hf in Hf'. injection Hf' as Hf'. apply Ok_fmap_inj in Hf' as <-.
  rewrite Hd in Hd'. injection Hd' as Hd'. apply Ok_fmap_inj in Hd' as <-.
  rewrite Ho in Hb. simpl in Hb. injection Hb as <-.
  destruct (Flush_nothing bulkDo (indexer sd) Hbuf) as [_ Hsent].
  rewrite Hsent in Hop.
  assert (Hop' : op ∈ enqueued (indexer sd))
    by (unfold enqueued; by rewrite Hbuf, app_nil_r).
  rewrite Henq in Hop'. apply Forall_app in Hall as [Hallf Halld].
  apply elem_of_app in Hop' as [Hop' | Hop'];
    [| apply elem_of_app in Hop' as [Hop' | Hop']].
  - apply indexOps_justified in Hop' as (id & json & -> & Hin & Hwhy); [| done].
    split; [done |]. split; [by left | done].
  - apply indexOps_justified in Hop' as (id & json & -> & Hin & Hwhy); [| done].
    split; [done |]. split; [by right | done].
  - apply list_elem_of_fmap in Hop' as (id & -> & Hin).
    unfold gone in Hin. apply list_elem_of_filter in Hin as [Hgone Hin].
    rewrite Hperm in Hin. apply elem_of_elements, elem_of_dom in Hin.
    unfold deleteFor. done.
Qed.

End Justified.

(** The pass of the first catalog over the first index: its delete is
    for [u3], which is no row of the catalog. *)
Lemma pass_operations_are_justified_witness :
  is_Some (Scenario.snapshot_docs !! "u3") /\
  "u3" ∉ ([("u2", "{u2,dateModified:100}"); ("u4", "{u4}")]
          ++ @nil (string * string)).*1.
Proof.
  pose proof (pass_operations_are_justified Scenario.cap Scenario.decode
                Scenario.accept Scenario.keysOf Scenario.db1 Scenario.es1 "u"
                3 Scenario.snapshot_docs Scenario.types1 None
                [Debugf "Got %d documents for prefix %s (ES)" [AInt 3; AStr "u"]]
                [("u2", "{u2,dateModified:100}"); ("u4", "{u4}")] []
                (mkBulkIndexer 1000 []
                   [([BulkIndexRequest "data" "file" "u2" "{u2,dateModified:100}";
                      BulkDeleteRequest "data" "folder" "u3"], None);
                    ([], None)])) as H.
  destruct (H ltac:(vm_compute; reflexivity) ltac:(reflexivity)
              ltac:(vm_compute; reflexivity) eq_refl eq_refl
              ltac:(vm_compute; reflexivity)
              (BulkDeleteRequest "data" "folder" "u3"))
    as (_ & Hin & Hgone & _).
  - simpl. apply elem_of_cons. right. apply elem_of_cons. by left.
  - split; assumption.
Defined.

(** ** Edges of the loops and of the prerequisites *)

Section EdgeFacts.

Variable maxInPrefix : Z.
Variable Unmarshal : string -> result ElasticsearchDocument.
Variable bulkDo : nat -> list BulkOp -> option error.
Variable rangeKeys : gmap string ElasticsearchDocument -> list string.

(** X14. When every key that [processDeletions] visits is marked seen
    (in particular when the snapshot is empty), it enqueues nothing,
    changes neither the statistics nor the accumulator, logs its one
    closing line and returns no error, whatever the index would
    answer. *)
Theorem processDeletions_nothing_to_delete
    (esDocs : gmap string ElasticsearchDocument)
    (esDocTypes : gmap string string) (es : ESConnection) (st : Proc) :
  (forall id, id ∈ rangeKeys esDocs -> seen id (seenEsDocs st) = true) ->
  processDeletions bulkDo rangeKeys esDocs esDocTypes es st
  = (say (Debugf "%d data-objects to delete, %d collections to delete"
            [AInt (dataobjectsRemoved (stats st));
             AInt (collsRemoved (stats st))]) st, None).
Proof.
  intros Hall. unfold processDeletions.
  by rewrite (processDeletions_keys_seen bulkDo esDocTypes es _ st Hall).
Qed.

(** X15. A row that fails to scan stops either row loop with the
    scanner's error: the rows before it have been processed, the
    failing row is neither marked seen nor counted, and the rows after
    it are not read. *)
Theorem scan_error_stops_the_loop (esDocs : gmap string ElasticsearchDocument)
    (es : ESConnection) (before rest : list Row) (e : error) (st st1 : Proc) :
  (processDataobjects_rows Unmarshal bulkDo esDocs es before st = (st1, None) ->
   processDataobjects_rows Unmarshal bulkDo esDocs es (before ++ Err e :: rest) st
   = (st1, Some e)) /\
  (processCollections_rows Unmarshal bulkDo esDocs es before st = (st1, None) ->
   processCollections_rows Unmarshal bulkDo esDocs es (before ++ Err e :: rest) st
   = (st1, Some e)).
Proof.
  split; intros Hb.
  - by rewrite processDataobjects_rows_app, Hb.
  - by rewrite processCollections_rows_app, Hb.
Qed.

(** X16. [createUuidsTable] returns no error exactly when the base table
    is created with a row count within the cap and the second table is
    created too; it then returns that count and has logged the one
    line about it. *)
Theorem createUuidsTable_succeeds_iff (prefix : string) (tx : ICATConnection)
    (r : Z) (l : list LogEntry) :
  createUuidsTable maxInPrefix prefix tx = (r, None, l) <->
  CreateTemporaryTable tx "base_object_uuids" = Ok r /\ r <= maxInPrefix /\
  (exists k, CreateTemporaryTable tx "object_uuids" = Ok k) /\
  l = [Debugf "Got %d rows for prefix %s (note that this may include stale unused metadata)"
         [AInt r; AStr prefix]].
Proof.
  split; [apply createUuidsTable_ok |].
  intros (Hb & Hr & [k Hk] & ->).
  unfold createUuidsTable, createBaseUuidsTable. rewrite Hb.
  rewrite bool_decide_eq_false_2 by lia. by rewrite Hk.
Qed.

(** X17. The second copy of the file: its [classify] returns what
    [classify] of [reindex.go] returns on every input; its
    [createUuidsTable], on a table over the cap, returns the row count
    with [ErrTooManyResults]. *)
Theorem second_copy_agrees (id jsonstr : string)
    (esDocs : gmap string ElasticsearchDocument) (prefix : string)
    (tx : ICATConnection) (r : Z) :
  Part000.classify Unmarshal id jsonstr esDocs
  = classify Unmarshal id jsonstr esDocs /\
  (CreateTemporaryTable tx "object_uuids" = Ok r -> r > maxInPrefix ->
   Part000.createUuidsTable maxInPrefix prefix tx = (r, Some ErrTooManyResults, [])).
Proof.
  split.
  - unfold Part000.classify, classify.
    destruct (esDocs !! id) as [indexed |]; [| done].
    destruct (Unmarshal jsonstr) as [doc | e]; [| done].
    by destruct (Equal doc indexed).
  - intros Ht Hr. unfold Part000.createUuidsTable. rewrite Ht.
    by rewrite bool_decide_eq_true_2.
Qed.

End EdgeFacts.

(** Deleting from the snapshot when its three ids were all seen, with
    an index that refuses. *)
Lemma processDeletions_nothing_to_delete_witness :
  snd (processDeletions Scenario.refuse Scenario.keysOf Scenario.snapshot_docs
         Scenario.types1 Scenario.es1
         (mkProc zero_rows
            (markRows [("u2", ""); ("u3", ""); ("u4", "")] ∅)
            (NewBulkIndexer 1000) []))
  = None.
Proof.
  rewrite (processDeletions_nothing_to_delete Scenario.refuse Scenario.keysOf).
  - reflexivity.
  - intros id Hin.
    let keys := eval vm_compute in (Scenario.keysOf Scenario.snapshot_docs) in
    change (Scenario.keysOf Scenario.snapshot_docs) with keys in Hin.
    repeat (apply elem_of_cons in Hin as [-> | Hin]; [vm_compute; reflexivity |]).
    by apply not_elem_of_nil in Hin.
Defined.

(** A cursor whose second row fails to scan. *)
Lemma scan_error_stops_the_loop_witness :
  processDataobjects_rows Scenario.decode Scenario.accept
    Scenario.snapshot_docs Scenario.es1
    ([Ok ("u4", "{u4}")] ++ Err (ErrExternal "sql: Scan error") :: [Ok ("u3", "{u3}")])
    Scenario.fresh
  = (with_stats incr_dataobjects
       (with_stats incr_processed (mark_seen "u4" Scenario.fresh)),
     Some (ErrExternal "sql: Scan error")).
Proof.
  apply (proj1 (scan_error_stops_the_loop Scenario.decode Scenario.accept
                  Scenario.snapshot_docs Scenario.es1 [Ok ("u4", "{u4}")]
                  [Ok ("u3", "{u3}")] (ErrExternal "sql: Scan error")
                  Scenario.fresh _)).
  vm_compute. reflexivity.
Defined.

(** The first catalog, whose tables all report 2 rows. *)
Lemma createUuidsTable_succeeds_iff_witness :
  createUuidsTable Scenario.cap "u" Scenario.db1
  = (2, None,
     [Debugf "Got %d rows for prefix %s (note that this may include stale unused metadata)"
        [AInt 2; AStr "u"]]).
Proof.
  apply createUuidsTable_succeeds_iff.
  split; [reflexivity |]. split; [unfold Scenario.cap; lia |].
  split; [by exists 2 | reflexivity].
Defined.

(** The catalog of 10001 rows, read by the second copy. *)
Lemma second_copy_agrees_witness :
  Part000.createUuidsTable Scenario.cap "u" Scenario.db_big
  = (10001, Some ErrTooManyResults, []).
Proof.
  apply (proj2 (second_copy_agrees Scenario.cap Scenario.decode "u2" "{u2}"
                  Scenario.snapshot_docs "u" Scenario.db_big 10001)).
  - reflexivity.
  - unfold Scenario.cap. lia.
Defined.

(** The pass over the catalog of 10001 rows ends without accumulator;
    the pass over the first catalog ends with one, and with the
    summary as last line of its log. *)
Lemma prerequisites_gate_the_accumulator_witness :
  is_Some (err (ReindexPrefix Scenario.cap Scenario.decode Scenario.accept
                  Scenario.keysOf Scenario.db_big Scenario.es1 "u")) /\
  finalSeen (ReindexPrefix Scenario.cap Scenario.decode Scenario.accept
               Scenario.keysOf Scenario.db_big Scenario.es1 "u") = ∅ /\
  is_Some (finalIndexer (ReindexPrefix Scenario.cap Scenario.decode
                           Scenario.accept Scenario.keysOf Scenario.db1
                           Scenario.es1 "u")).
Proof.
  destruct (prerequisites_gate_the_accumulator Scenario.cap Scenario.decode
              Scenario.accept Scenario.keysOf Scenario.db_big Scenario.es1 "u")
    as [_ Hnone].
  destruct (prerequisites_gate_the_accumulator Scenario.cap Scenario.decode
              Scenario.accept Scenario.keysOf Scenario.db1 Scenario.es1 "u")
    as [Hsome _].
  destruct (Hnone ltac:(reflexivity)) as (He & Hseen & _).
  split; [exact He |]. split; [exact Hseen |].
  apply Hsome. repeat split; reflexivity.
Defined.

Lemma pass_always_reports_witness :
  rolledBack (ReindexPrefix Scenario.cap Scenario.decode Scenario.accept
                Scenario.keysOf Scenario.db_broken Scenario.es1 "u") = true.
Proof.
  apply (proj1 (pass_always_reports Scenario.cap Scenario.decode
                  Scenario.accept Scenario.keysOf Scenario.db_broken
                  Scenario.es1 "u")).
  reflexivity.
Defined.

(** ** The summary against the operations *)

Section Accounting.

Variable maxInPrefix : Z.
Variable Unmarshal : string -> result ElasticsearchDocument.
Variable bulkDo : nat -> list BulkOp -> option error.
Variable rangeKeys : gmap string ElasticsearchDocument -> list string.

Lemma indexOps_length (esDocs : gmap string ElasticsearchDocument)
    (es : ESConnection) (t : string) (catalog : list (string * string)) :
  length (indexOps Unmarshal esDocs es t catalog)
  = (length (classed Unmarshal esDocs IndexDocument catalog)
     + length (classed Unmarshal esDocs UpdateDocument catalog))%nat.
Proof.
  unfold indexOps, classed. induction catalog as [| row catalog IH]; [done |].
  rewrite !filter_cons. cbn [omap list_omap].
  destruct (rowClass Unmarshal esDocs row); repeat case_decide;
    try congruence; cbn [length]; rewrite IH; lia.
Qed.

Lemma classed_length (esDocs : gmap string ElasticsearchDocument)
    (c : DocumentClassification) (catalog : list (string * string)) :
  (length (classed Unmarshal esDocs c catalog) <= length catalog)%nat.
Proof. apply length_filter. Qed.

Lemma typedAs_length (esDocTypes : gmap string string) (t : string)
    (ids : list string) :
  (length (typedAs esDocTypes t ids) <= length ids)%nat.
Proof. apply length_filter. Qed.

(** X18. The summary of a pass that returns no error accounts for the
    operations sent. With fewer than [2 ^ 63] rows and snapshot keys,
    so that no counter wraps: [processed] is the number of rows of
    both cursors and equals [dataobjects + colls]; and the number of
    operations in the batches sent is the sum of the six added,
    updated and removed counters plus the number of deletes tagged
    neither ["file"] nor ["folder"]. *)
Theorem summary_accounts_for_operations (db : ICATConnection)
    (es : ESConnection) (prefix : string) (n : Z)
    (esDocs : gmap string ElasticsearchDocument)
    (esDocTypes : gmap string string) (e : option error) (l : list LogEntry)
    (files folders : list (string * string)) (b : BulkIndexer) :
  err (ReindexPrefix maxInPrefix Unmarshal bulkDo rangeKeys db es prefix) = None ->
  getSearchResults maxInPrefix Unmarshal prefix es = (n, esDocs, esDocTypes, e, l) ->
  GetDataObjects db = Ok (Ok <$> files) ->
  GetCollections db = Ok (Ok <$> folders) ->
  finalIndexer (ReindexPrefix maxInPrefix Unmarshal bulkDo rangeKeys db es prefix)
  = Some b ->
  Z.of_nat (length (files ++ folders)) < 2 ^ 63 ->
  Z.of_nat (length (rangeKeys esDocs)) < 2 ^ 63 ->
  let s := finalStats (ReindexPrefix maxInPrefix Unmarshal bulkDo rangeKeys
                         db es prefix) in
  processed s = Z.of_nat (length (files ++ folders)) /\
  processed s = dataobjects s + colls s /\
  Z.of_nat (length (concat (sent b)))
  = dataobjectsAdded s + dataobjectsUpdated s + collsAdded s + collsUpdated s
    + dataobjectsRemoved s + collsRemoved s
    + Z.of_nat (length (filter
                          (fun id => default "file" (esDocTypes !! id) <> "file" /\
                                     default "file" (esDocTypes !! id) <> "folder")
                          (gone (files ++ folders) (rangeKeys esDocs)))).
Proof.
  intros Hok Hs Hf Hd Hb Hrows Hkeys s. subst s.
  apply ReindexPrefix_effect in Hok
    as (r & n' & esDocs' & esDocTypes' & l1 & l2 & files' & folders' & sd
        & _ & Hs' & Hf' & Hd' & _ & Ho & Hbuf & _ & Henq & Hstats).
  rewrite Hs in Hs'. injection Hs' as -> -> -> -> ->.
  rewrite Hf in Hf'. injection Hf' as Hf'. apply Ok_fmap_inj in Hf' as <-.
  rewrite Hd in Hd'. injection Hd' as Hd'. apply Ok_fmap_inj in Hd' as <-.
  rewrite Ho in Hb |- *. simpl in Hb. injection Hb as <-. simpl finalStats.
  destruct (Flush_nothing bulkDo (indexer sd) Hbuf) as [_ ->].
  assert (Hsent : concat (sent (indexer sd)) = enqueued (indexer sd))
    by (unfold enqueued; by rewrite Hbuf, app_nil_r).
  rewrite Hsent, Henq, Hstats.
  rewrite countRemoval_fold_all, countFolder_fold, countFile_fold. simpl.
  rewrite !length_app, length_fmap, !indexOps_length.
  rewrite length_app in Hrows.
  match goal with
  | |- context [gone ?c (rangeKeys ?m)] =>
      set (ids := gone c (rangeKeys m));
      assert (Hids : (length ids <= length (rangeKeys m))%nat)
        by apply length_filter;
      pose proof (classed_length m IndexDocument files);
      pose proof (classed_length m UpdateDocument files);
      pose proof (classed_length m IndexDocument folders);
      pose proof (classed_length m UpdateDocument folders)
  end.
  match goal with
  | |- context [typedAs ?t _ ids] =>
      pose proof (typedAs_length t "file" ids);
      pose proof (typedAs_length t "folder" ids);
      pose proof (typedAs_split t ids) as Hsplit
  end.
  rewrite <- Nat.iter_add.
  rewrite !int64_incr_iter by lia.
  lia.
Qed.

End Accounting.

(** The first catalog against the first index: two rows processed, two
    operations sent, one update and one folder removed. *)
Lemma summary_accounts_for_operations_witness :
  let s := finalStats (ReindexPrefix Scenario.cap Scenario.decode
                         Scenario.accept Scenario.keysOf Scenario.db1
                         Scenario.es1 "u") in
  processed s = 2 /\ processed s = dataobjects s + colls s.
Proof.
  destruct (summary_accounts_for_operations Scenario.cap Scenario.decode
              Scenario.accept Scenario.keysOf Scenario.db1 Scenario.es1 "u"
              3 Scenario.snapshot_docs Scenario.types1 None
              [Debugf "Got %d documents for prefix %s (ES)" [AInt 3; AStr "u"]]
              [("u2", "{u2,dateModified:100}"); ("u4", "{u4}")] []
              (mkBulkIndexer 1000 []
                 [([BulkIndexRequest "data" "file" "u2" "{u2,dateModified:100}";
                    BulkDeleteRequest "data" "folder" "u3"], None);
                  ([], None)]))
    as (Hp & Hsum & _).
  - vm_compute. reflexivity.
  - vm_compute. reflexivity.
  - reflexivity.
  - reflexivity.
  - vm_compute. reflexivity.
  - simpl. lia.
  - vm_compute. reflexivity.
  - split; [exact Hp | exact Hsum].
Defined.

(** ** Flushing, from the first add to the last flush *)

Section FlushDiscipline.

Variable maxInPrefix : Z.
Variable Unmarshal : string -> result ElasticsearchDocument.
Variable bulkDo : nat -> list BulkOp -> option error.
Variable rangeKeys : gmap string ElasticsearchDocument -> list string.

Lemma Add_tidy (k : Z) (b : BulkIndexer) (r : BulkOp) :
  (forall n batch, bulkDo n batch = None) ->
  tidy k b -> tidy k (fst (Add bulkDo b r)).
Proof.
  intros Hacc (Hk & Hlen & Hfl). unfold Add, Flush. simpl.
  rewrite length_app. simpl. case_bool_decide as Hfull.
  - rewrite Hacc. simpl. split; [done |]. split; [simpl; lia |].
    apply Forall_app. split; [done |]. constructor; [| done].
    simpl. rewrite length_app. simpl. split; [lia | done].
  - split; [done |]. split; [| done]. simpl. rewrite length_app. simpl. lia.
Qed.

(** One [Add] inside a loop, for an index that accepts. *)
Ltac tidy_step IH Hacc Ht :=
  unfold index;
  match goal with
  | |- context [Add ?f ?b ?r] =>
      let HA := fresh "HA" in
      pose proof (Add_tidy _ b r Hacc Ht) as HA;
      destruct (Add f b r) as [? [? |]]; simpl in *;
      [exact HA | apply IH; exact HA]
  end.

Lemma processDataobjects_rows_tidy (k : Z) (esDocs : gmap string ElasticsearchDocument)
    (es : ESConnection) (cursor : list Row) (st : Proc) :
  (forall n batch, bulkDo n batch = None) ->
  tidy k (indexer st) ->
  tidy k (indexer (fst (processDataobjects_rows Unmarshal bulkDo esDocs es cursor st))).
Proof.
  intros Hacc. revert st.
  induction cursor as [| row cursor IH]; intros st Ht; [done |].
  simpl. destruct row as [[id selectedJSON] | e]; [| done].
  destruct (classify _ _ _ _) as [c [e |]]; [done |].
  destruct c; simpl;
    [by apply IH | tidy_step IH Hacc Ht | tidy_step IH Hacc Ht].
Qed.

Lemma processCollections_rows_tidy (k : Z) (esDocs : gmap string ElasticsearchDocument)
    (es : ESConnection) (cursor : list Row) (st : Proc) :
  (forall n batch, bulkDo n batch = None) ->
  tidy k (indexer st) ->
  tidy k (indexer (fst (processCollections_rows Unmarshal bulkDo esDocs es cursor st))).
Proof.
  intros Hacc. revert st.
  induction cursor as [| row cursor IH]; intros st Ht; [done |].
  simpl. destruct row as [[id selectedJSON] | e]; [| done].
  destruct (classify _ _ _ _) as [c [e |]]; [done |].
  destruct c; simpl;
    [by apply IH | tidy_step IH Hacc Ht | tidy_step IH Hacc Ht].
Qed.

Lemma processDataobjects_tidy (k : Z) (esDocs : gmap string ElasticsearchDocument)
    (es : ESConnection) (tx : ICATConnection) (st : Proc) :
  (forall n batch, bulkDo n batch = None) ->
  tidy k (indexer st) ->
  tidy k (indexer (fst (processDataobjects Unmarshal bulkDo esDocs es tx st))).
Proof.
  intros Hacc Ht. unfold processDataobjects.
  destruct (GetDataObjects tx) as [cursor | e]; [| done].
  pose proof (processDataobjects_rows_tidy k esDocs es cursor st Hacc Ht) as H.
  by destruct (processDataobjects_rows _ _ _ _ _ _) as [st1 [e |]].
Qed.

Lemma processCollections_tidy (k : Z) (esDocs : gmap string ElasticsearchDocument)
    (es : ESConnection) (tx : ICATConnection) (st : Proc) :
  (forall n batch, bulkDo n batch = None) ->
  tidy k (indexer st) ->
  tidy k (indexer (fst (processCollections Unmarshal bulkDo esDocs es tx st))).
Proof.
  intros Hacc Ht. unfold processCollections.
  destruct (GetCollections tx) as [cursor | e]; [| done].
  pose proof (processCollections_rows_tidy k esDocs es cursor st Hacc Ht) as H.
  by destruct (processCollections_rows _ _ _ _ _ _) as [st1 [e |]].
Qed.

Lemma processDeletions_keys_tidy (k : Z) (esDocTypes : gmap string string)
    (es : ESConnection) (ids : list string) (st : Proc) :
  (forall n batch, bulkDo n batch = None) ->
  tidy k (indexer st) ->
  tidy k (indexer (fst (processDeletions_keys bulkDo esDocTypes es ids st))).
Proof.
  intros Hacc. revert st. induction ids as [| id ids IH]; intros st Ht; [done |].
  simpl. destruct (seen id (seenEsDocs st)) eqn:Hs.
  - rewrite (processDeletions_body_seen bulkDo _ _ _ _ Hs). by apply IH.
  - rewrite (processDeletions_body_unseen bulkDo _ _ _ _ Hs).
    pose proof (Add_tidy k (indexer st) (deleteFor esDocTypes es id) Hacc Ht) as HA.
    destruct (snd (Add bulkDo (indexer st) _)); simpl; [done |].
    by apply IH.
Qed.

Lemma processDeletions_tidy (k : Z) (esDocs : gmap string ElasticsearchDocument)
    (esDocTypes : gmap string string) (es : ESConnection) (st : Proc) :
  (forall n batch, bulkDo n batch = None) ->
  tidy k (indexer st) ->
  tidy k (indexer (fst (processDeletions bulkDo rangeKeys esDocs esDocTypes es st))).
Proof.
  intros Hacc Ht. unfold processDeletions.
  pose proof (processDeletions_keys_tidy k esDocTypes es (rangeKeys esDocs) st
                Hacc Ht) as H.
  by destruct (processDeletions_keys _ _ _ _ _) as [st1 [e |]].
Qed.

(** The "FINISH UP" step, written out. *)
Lemma finishUp_empty (st : Proc) :
  buffered (indexer st) = [] -> finishUp bulkDo st = (st, None).
Proof.
  intros Hb. unfold finishUp.
  destruct (CanFlush (indexer st)) eqn:Hc; [| done].
  by apply CanFlush_buffered in Hc.
Qed.

Lemma finishUp_flushing (st : Proc) :
  buffered (indexer st) <> [] ->
  finishUp bulkDo st
  = (mkProc (stats st) (seenEsDocs st)
       (mkBulkIndexer (bulkSize (indexer st))
          (match bulkDo (length (flushes (indexer st))) (buffered (indexer st)) with
           | None => []
           | Some _ => buffered (indexer st)
           end)
          (flushes (indexer st)
           ++ [(buffered (indexer st),
                bulkDo (length (flushes (indexer st))) (buffered (indexer st)))]))
       (logged st),
     match bulkDo (length (flushes (indexer st))) (buffered (indexer st)) with
     | None => None
     | Some e => Some (ErrWrap e "Got error flushing bulk indexer")
     end).
Proof.
  intros Hb. apply CanFlush_buffered in Hb. unfold finishUp. rewrite Hb.
  unfold Flush. by destruct (bulkDo _ _).
Qed.

(** The deferred flush, written out: what a pass that leaves with the
    state [st] leaves on its accumulator. *)
Lemma deferred_flush (e : option error) (st : Proc) :
  exists b,
    finalIndexer (leave_flushing bulkDo e st) = Some b /\
    err (leave_flushing bulkDo e st) = e /\
    bulkSize b = bulkSize (indexer st) /\
    flushes b
    = flushes (indexer st)
      ++ [(buffered (indexer st),
           bulkDo (length (flushes (indexer st))) (buffered (indexer st)))] /\
    buffered b
    = match bulkDo (length (flushes (indexer st))) (buffered (indexer st)) with
      | None => []
      | Some _ => buffered (indexer st)
      end /\
    enqueued b = enqueued (indexer st).
Proof.
  exists (fst (Flush bulkDo (indexer st))). simpl.
  split; [done |]. split; [done |].
  split; [apply Flush_bulkSize |]. split; [apply Flush_flushes |].
  split; [| apply Flush_enqueued]. rewrite Flush_buffered.
  by destruct (bulkDo _ _).
Qed.

Lemma accepted_flushes (fl : list (list BulkOp * option error)) :
  Forall (fun f => snd f = None) fl ->
  fl = (fun c => (c, None)) <$> (fst <$> fl) /\
  omap (fun f => match snd f with None => Some (fst f) | Some _ => None end) fl
  = fst <$> fl.
Proof.
  induction 1 as [| [c o] fl Ho Hfl [IH1 IH2]]; [done |].
  simpl in Ho. subst o. rewrite !fmap_cons. split.
  - simpl. by rewrite <- IH1.
  - cbn [omap list_omap]. simpl. by rewrite <- IH2.
Qed.

(** C8. [Add] flushes as part of the call once the buffer, with the new
    operation, has reached the batch size, and otherwise only buffers;
    with an index that accepts, an accumulator that held fewer
    operations than its batch size still does after [Add], and every
    flush that [Add] made was of exactly that many operations. The
    "FINISH UP" step does nothing on an empty buffer and otherwise
    makes one flush of the whole buffer, returning its error wrapped.
    Once the prerequisites of a pass have succeeded, the pass leaves
    through the state in which [processDataobjects],
    [processCollections] or [processDeletions] failed, or through the
    state after "FINISH UP"; on each of these ways out the accumulator,
    of batch size 1000, has one more flush recorded, of everything that
    was buffered in that state, which empties the buffer when the index
    accepts and loses no operation either way. So when the index
    accepts every batch and the pass returns no error, the flushes
    recorded are: full batches of 1000 made by [Add], one forced flush
    of the rest if there is a rest, and the deferred flush of nothing;
    together they carry every operation enqueued. *)
Theorem flush_discipline :
  (forall b r,
      (bulkSize b <= Z.of_nat (length (buffered b ++ [r])) ->
       Add bulkDo b r
       = Flush bulkDo (mkBulkIndexer (bulkSize b) (buffered b ++ [r]) (flushes b)) /\
       flushes (fst (Add bulkDo b r))
       = flushes b ++ [(buffered b ++ [r],
                        bulkDo (length (flushes b)) (buffered b ++ [r]))] /\
       snd (Add bulkDo b r) = bulkDo (length (flushes b)) (buffered b ++ [r]) /\
       buffered (fst (Add bulkDo b r))
       = match bulkDo (length (flushes b)) (buffered b ++ [r]) with
         | None => []
         | Some _ => buffered b ++ [r]
         end) /\
      (Z.of_nat (length (buffered b ++ [r])) < bulkSize b ->
       Add bulkDo b r
       = (mkBulkIndexer (bulkSize b) (buffered b ++ [r]) (flushes b), None)) /\
      (forall k, (forall n batch, bulkDo n batch = None) -> tidy k b ->
                 tidy k (fst (Add bulkDo b r)) /\ snd (Add bulkDo b r) = None)) /\
  (forall st,
      (CanFlush (indexer st) = true <-> buffered (indexer st) <> []) /\
      (buffered (indexer st) = [] -> finishUp bulkDo st = (st, None)) /\
      (buffered (indexer st) <> [] ->
       finishUp bulkDo st
       = (mkProc (stats st) (seenEsDocs st)
            (mkBulkIndexer (bulkSize (indexer st))
               (match bulkDo (length (flushes (indexer st)))
                        (buffered (indexer st)) with
                | None => []
                | Some _ => buffered (indexer st)
                end)
               (flushes (indexer st)
                ++ [(buffered (indexer st),
                     bulkDo (length (flushes (indexer st)))
                       (buffered (indexer st)))]))
            (logged st),
          match bulkDo (length (flushes (indexer st))) (buffered (indexer st)) with
          | None => None
          | Some e => Some (ErrWrap e "Got error flushing bulk indexer")
          end))) /\
  (forall db es prefix r l1 n esDocs esDocTypes l2 l3 l4,
      BeginTx db = None ->
      createUuidsTable maxInPrefix prefix db = (r, None, l1) ->
      getSearchResults maxInPrefix Unmarshal prefix es
      = (n, esDocs, esDocTypes, None, l2) ->
      createPermsTable db = (None, l3) ->
      createMetadataTable db = (None, l4) ->
      let st0 :=
        mkProc (set_documents n (set_rows r zero_rows)) ∅ (NewBulkIndexer 1000)
          (((([Debugf "Indexing prefix %s" [AStr prefix]] ++ l1) ++ l2) ++ l3)
           ++ l4) in
      let o := ReindexPrefix maxInPrefix Unmarshal bulkDo rangeKeys db es prefix in
      exists st,
        ((exists e,
             processDataobjects Unmarshal bulkDo esDocs es db st0 = (st, Some e) /\
             err o = Some e) \/
         (exists sa e,
             processDataobjects Unmarshal bulkDo esDocs es db st0 = (sa, None) /\
             processCollections Unmarshal bulkDo esDocs es db sa = (st, Some e) /\
             err o = Some e) \/
         (exists sa sb e,
             processDataobjects Unmarshal bulkDo esDocs es db st0 = (sa, None) /\
             processCollections Unmarshal bulkDo esDocs es db sa = (sb, None) /\
             processDeletions bulkDo rangeKeys esDocs esDocTypes es sb
             = (st, Some e) /\
             err o = Some e) \/
         (exists sa sb sc,
             processDataobjects Unmarshal bulkDo esDocs es db st0 = (sa, None) /\
             processCollections Unmarshal bulkDo esDocs es db sa = (sb, None) /\
             processDeletions bulkDo rangeKeys esDocs esDocTypes es sb
             = (sc, None) /\
             finishUp bulkDo sc = (st, err o))) /\
        exists b,
          finalIndexer o = Some b /\
          bulkSize b = 1000 /\
          flushes b
          = flushes (indexer st)
            ++ [(buffered (indexer st),
                 bulkDo (length (flushes (indexer st))) (buffered (indexer st)))] /\
          buffered b
          = match bulkDo (length (flushes (indexer st))) (buffered (indexer st)) with
            | None => []
            | Some _ => buffered (indexer st)
            end /\
          enqueued b = enqueued (indexer st)) /\
  (forall db es prefix b,
      (forall n batch, bulkDo n batch = None) ->
      err (ReindexPrefix maxInPrefix Unmarshal bulkDo rangeKeys db es prefix) = None ->
      finalIndexer (ReindexPrefix maxInPrefix Unmarshal bulkDo rangeKeys db es prefix)
      = Some b ->
      exists full rest,
        flushes b
        = ((fun c => (c, None)) <$> full)
          ++ match rest with [] => [] | _ => [(rest, None)] end
          ++ [([], None)] /\
        Forall (fun c => length c = 1000%nat) full /\
        (length rest < 1000)%nat /\
        buffered b = [] /\
        enqueued b = concat full ++ rest).
Proof.
  split; [| split; [| split]].
  - intros b r. split; [| split].
    + intros Hfull. unfold Add. simpl.
      rewrite bool_decide_eq_true_2 by done.
      split; [done |]. rewrite Flush_flushes, Flush_result, Flush_buffered.
      simpl. split; [done |]. split; [done |]. by destruct (bulkDo _ _).
    + intros Hroom. unfold Add. simpl.
      by rewrite bool_decide_eq_false_2 by lia.
    + intros k Hacc Ht. split; [by apply Add_tidy | by apply Add_accepted].
  - intros st. split; [apply CanFlush_buffered |].
    split; [apply finishUp_empty | apply finishUp_flushing].
  - intros db es prefix r l1 n esDocs esDocTypes l2 l3 l4 Hb Hu Hs Hp Hm st0 o.
    subst o. unfold ReindexPrefix. rewrite Hb, Hu, Hs, Hp, Hm. fold st0.
    assert (Hexit : forall e st,
      bulkSize (indexer st) = 1000 ->
      exists b,
        finalIndexer (leave_flushing bulkDo e st) = Some b /\
        bulkSize b = 1000 /\
        flushes b
        = flushes (indexer st)
          ++ [(buffered (indexer st),
               bulkDo (length (flushes (indexer st))) (buffered (indexer st)))] /\
        buffered b
        = match bulkDo (length (flushes (indexer st))) (buffered (indexer st)) with
          | None => []
          | Some _ => buffered (indexer st)
          end /\
        enqueued b = enqueued (indexer st)).
    { intros e st Hsz.
      destruct (deferred_flush e st) as (b & H1 & _ & H2 & H3 & H4 & H5).
      exists b. rewrite H2, Hsz. done. }
    pose proof (processDataobjects_bulkSize Unmarshal bulkDo esDocs es db st0) as Ba.
    destruct (processDataobjects _ _ _ _ _ _) as [sa [e |]] eqn:Ha; simpl in Ba.
    { exists sa. split; [left; by exists e | by apply Hexit]. }
    pose proof (processCollections_bulkSize Unmarshal bulkDo esDocs es db sa) as Bb.
    destruct (processCollections _ _ _ _ _ _) as [sb [e |]] eqn:Hc; simpl in Bb.
    { exists sb. split; [right; left; by exists sa, e | apply Hexit; congruence]. }
    pose proof (processDeletions_bulkSize bulkDo rangeKeys esDocs esDocTypes es sb)
      as Bc.
    destruct (processDeletions _ _ _ _ _ _) as [sc [e |]] eqn:Hd; simpl in Bc.
    { exists sc. split; [right; right; left; by exists sa, sb, e |].
      apply Hexit. congruence. }
    pose proof (finishUp_bulkSize bulkDo sc) as Bd.
    destruct (finishUp bulkDo sc) as [sd [e |]] eqn:Hf; simpl in Bd;
      (exists sd; split;
       [right; right; right; by exists sa, sb, sc | apply Hexit; congruence]).
  - intros db es prefix b Hacc Hok Hb.
    apply ReindexPrefix_ok in Hok
      as (r & l1 & n & esDocs & esDocTypes & l2 & l3 & l4 & sa & sb & sc & sd
          & _ & _ & _ & _ & _ & Ha & Hc & Hd & Hf & Ho).
    rewrite Ho in Hb.
    destruct (deferred_flush None sd) as (b' & Hfin & _ & _ & Hfl & Hbuf & Henq).
    rewrite Hfin in Hb. injection Hb as ->.
    rewrite Hacc in Hfl, Hbuf.
    match type of Ha with
    | processDataobjects _ _ _ _ _ ?s = _ => set (st0 := s) in *
    end.
    assert (T0 : tidy 1000 (indexer st0)).
    { split; [done |]. split; [simpl; lia | constructor]. }
    pose proof (processDataobjects_tidy 1000 esDocs es db st0 Hacc T0) as Ta.
    rewrite Ha in Ta. simpl in Ta.
    pose proof (processCollections_tidy 1000 esDocs es db sa Hacc Ta) as Tb.
    rewrite Hc in Tb. simpl in Tb.
    pose proof (processDeletions_tidy 1000 esDocs esDocTypes es sb Hacc Tb) as Tc.
    rewrite Hd in Tc. simpl in Tc.
    destruct Tc as (_ & Hlen & Hall).
    assert (Hfull : Forall (fun c => length c = 1000%nat)
                      (fst <$> flushes (indexer sc))).
    { apply Forall_fmap. eapply Forall_impl; [exact Hall |].
      intros f [Hl _]. simpl. lia. }
    destruct (accepted_flushes (flushes (indexer sc))) as [Hshape Hsent].
    { eapply Forall_impl; [exact Hall |]. by intros f [_ ?]. }
    assert (Hsc : enqueued (indexer sc)
                  = concat (fst <$> flushes (indexer sc)) ++ buffered (indexer sc)).
    { unfold enqueued, sent. by rewrite Hsent. }
    exists (fst <$> flushes (indexer sc)), (buffered (indexer sc)).
    destruct (buffered (indexer sc)) as [| op rest] eqn:Hbsc.
    + rewrite finishUp_empty in Hf by done. injection Hf as <-.
      rewrite Hfl, Hbuf, Henq, Hsc, Hbsc, <- Hshape. simpl.
      repeat split; try done. lia.
    + rewrite finishUp_flushing in Hf by (by rewrite Hbsc).
      rewrite Hacc, Hbsc in Hf. injection Hf as <-.
      simpl in Hfl, Hbuf, Henq.
      rewrite Hfl, Hbuf, Henq, <- Hshape, <- app_assoc. simpl.
      repeat split; try done; [simpl in Hlen; lia |].
      unfold enqueued, sent. simpl. rewrite omap_app, Hsent. simpl.
      rewrite concat_app. simpl. by rewrite !app_nil_r.
Qed.

End FlushDiscipline.

(** An accumulator of batch size 2 that holds one operation flushes on
    the next [Add], one of batch size 1000 only buffers. The pass over
    a catalog whose second row does not decode leaves with the index
    request of the first row buffered, and its deferred flush sends it.
    The pass over 1001 rows that are not indexed ends with full batches
    of 1000, a rest, and the deferred flush of nothing, 1001 operations
    in all. *)
Lemma flush_discipline_witness :
  let op1 := BulkDeleteRequest "data" "file" "u8" in
  let op2 := BulkDeleteRequest "data" "file" "u9" in
  let o := ReindexPrefix Scenario.cap Scenario.decode Scenario.accept
             Scenario.keysOf Scenario.db_late_break Scenario.es1 "u" in
  let many := ReindexPrefix Scenario.cap Scenario.decode Scenario.accept
                Scenario.keysOf Scenario.db_many Scenario.es_empty "u" in
  (flushes (fst (Add Scenario.accept (mkBulkIndexer 2 [op1] []) op2))
   = [([op1; op2], None)] /\
   buffered (fst (Add Scenario.accept (mkBulkIndexer 2 [op1] []) op2)) = []) /\
  Add Scenario.accept (mkBulkIndexer 1000 [op1] []) op2
  = (mkBulkIndexer 1000 [op1; op2] [], None) /\
  tidy 2 (fst (Add Scenario.accept (mkBulkIndexer 2 [op1] []) op2)) /\
  finishUp Scenario.refuse
    (mkProc zero_rows ∅ (mkBulkIndexer 1000 [op1] []) [])
  = (mkProc zero_rows ∅
       (mkBulkIndexer 1000 [op1]
          [([op1], Some (ErrExternal "connection refused"))]) [],
     Some (ErrWrap (ErrExternal "connection refused")
             "Got error flushing bulk indexer")) /\
  (exists b,
      err o = Some (ErrExternal "invalid character") /\
      finalIndexer o = Some b /\
      flushes b = [([BulkIndexRequest "data" "file" "u1" "{u1}"], None)] /\
      buffered b = []) /\
  (exists b full rest,
      finalIndexer many = Some b /\
      flushes b
      = ((fun c => (c, None)) <$> full)
        ++ match rest with [] => [] | _ => [(rest, None)] end
        ++ [([], None)] /\
      Forall (fun c => length c = 1000%nat) full /\
      (length rest < 1000)%nat /\
      enqueued b = concat full ++ rest /\
      length (enqueued b) = 1001%nat).
Proof.
  intros op1 op2 o many.
  destruct (flush_discipline Scenario.cap Scenario.decode Scenario.accept
              Scenario.keysOf) as (Hadd & _ & Hexit & Hchunks).
  destruct (flush_discipline Scenario.cap Scenario.decode Scenario.refuse
              Scenario.keysOf) as (_ & Hfinish & _ & _).
  split; [| split; [| split; [| split; [| split]]]].
  - destruct (proj1 (Hadd (mkBulkIndexer 2 [op1] []) op2)) as (_ & Hfl & _ & Hbuf).
    + simpl. lia.
    + split; [exact Hfl | exact Hbuf].
  - apply (proj1 (proj2 (Hadd (mkBulkIndexer 1000 [op1] []) op2))). simpl. lia.
  - refine (proj1 (proj2 (proj2 (Hadd (mkBulkIndexer 2 [op1] []) op2)) 2 _ _)).
    + reflexivity.
    + split; [reflexivity |]. split; [simpl; lia | constructor].
  - apply (Hfinish (mkProc zero_rows ∅ (mkBulkIndexer 1000 [op1] []) [])).
    discriminate.
  - destruct (Hexit Scenario.db_late_break Scenario.es1 "u" 3
                [Debugf "Got %d rows for prefix %s (note that this may include stale unused metadata)"
                   [AInt 3; AStr "u"]]
                3 Scenario.snapshot_docs Scenario.types1
                [Debugf "Got %d documents for prefix %s (ES)" [AInt 3; AStr "u"]]
                [Debugf "Got %d rows for perms" [AInt 3]]
                [Debugf "Got %d rows for metadata" [AInt 3]])
      as (st & Hcase & b & Hfin & _ & Hfl & Hbuf & _).
    + reflexivity.
    + reflexivity.
    + vm_compute. reflexivity.
    + reflexivity.
    + reflexivity.
    + destruct Hcase as [(e & Hst & He) | [(sa & e & Hst & _) |
                         [(sa & sb & e & Hst & _) | (sa & sb & sc & Hst & _)]]];
        vm_compute in Hst; try discriminate Hst.
      injection Hst as <- <-.
      exists b. split; [exact He |]. split; [exact Hfin |].
      split; [exact Hfl | exact Hbuf].
  - set (b := default (NewBulkIndexer 0) (finalIndexer many)).
    assert (Hb : finalIndexer many = Some b) by (vm_compute; reflexivity).
    assert (Hlen : length (enqueued b) = 1001%nat) by (vm_compute; reflexivity).
    assert (Hok : err many = None) by (vm_compute; reflexivity).
    clearbody b. subst many.
    destruct (Hchunks Scenario.db_many Scenario.es_empty "u" b
                (fun _ _ => eq_refl) Hok Hb)
      as (full & rest & Hfl & Hfull & Hrest & _ & Henq).
    exists b, full, rest.
    split; [exact Hb |]. split; [exact Hfl |]. split; [exact Hfull |].
    split; [exact Hrest |]. split; [exact Henq | exact Hlen].
Defined.
